(** * Code-reviewer backend: webhook gateway, queues, lint service, reports, fanout

    A shallow embedding of the TypeScript backend:
    - [GitHubService.verifyWebhookSignature], [GitLabService.verifyWebhookSignature]
      and the webhook routes (routes/webhooks),
    - the Bull queue set-up (config/queues),
    - [ESLintService.fixCode] and [ESLintService.generateReport],
    - the report routes [GET /jobs/:jobId] and [GET /download/:jobId],
    - the socket.io helpers [emitToUser], [emitToRepository], [emitToPR],
    - [asyncHandler] / [errorHandler] (middleware/errorHandler.ts).

    Strings are byte strings: one [ascii] per UTF-8 byte, so that
    [String.length] is the length of [Buffer.from(s)].  JavaScript numbers
    that the code uses as counters or delays are integers in [Z]; where a
    number comes from a text, it is the double that JavaScript reads. *)

From Stdlib Require Import ZArith List String Ascii Bool Lia.
From stdpp Require Import gmap strings list pretty.
Import ListNotations.

Set Warnings "-register-all".

Local Open Scope string_scope.
Local Open Scope Z_scope.

(* ===================================================================== *)
(** ** Node's [crypto]: SHA-256 and HMAC-SHA256 over byte strings        *)
(* ===================================================================== *)

Module Crypto.

(** 32-bit words are integers in [0, 2^32) with the wrap-around written out. *)
Definition mask32 : Z := 0xffffffff.
Definition wrap32 (x : Z) : Z := Z.land x mask32.
Definition plus32 (x y : Z) : Z := wrap32 (x + y).
Definition not32 (x : Z) : Z := Z.lxor x mask32.
Definition rotr32 (n x : Z) : Z :=
  Z.lor (Z.shiftr x n) (wrap32 (Z.shiftl x (32 - n))).

Definition choose (x y z : Z) : Z := Z.lxor (Z.land x y) (Z.land (not32 x) z).
Definition majority (x y z : Z) : Z :=
  Z.lxor (Z.lxor (Z.land x y) (Z.land x z)) (Z.land y z).
Definition big_sigma0 (x : Z) : Z :=
  Z.lxor (Z.lxor (rotr32 2 x) (rotr32 13 x)) (rotr32 22 x).
Definition big_sigma1 (x : Z) : Z :=
  Z.lxor (Z.lxor (rotr32 6 x) (rotr32 11 x)) (rotr32 25 x).
Definition small_sigma0 (x : Z) : Z :=
  Z.lxor (Z.lxor (rotr32 7 x) (rotr32 18 x)) (Z.shiftr x 3).
Definition small_sigma1 (x : Z) : Z :=
  Z.lxor (Z.lxor (rotr32 17 x) (rotr32 19 x)) (Z.shiftr x 10).

(** The constants are "the first thirty-two bits of the fractional parts" of
    the cube roots (round constants) and square roots (initial hash) of the
    first primes: the low 32 bits of the integer root of [p * 2^(32k)]. *)
Definition first_primes : list Z :=
  [ 2; 3; 5; 7; 11; 13; 17; 19; 23; 29; 31; 37;
    41; 43; 47; 53; 59; 61; 67; 71; 73; 79; 83; 89;
    97; 101; 103; 107; 109; 113; 127; 131; 137; 139; 149; 151;
    157; 163; 167; 173; 179; 181; 191; 193; 197; 199; 211; 223;
    227; 229; 233; 239; 241; 251; 257; 263; 269; 271; 277; 281;
    283; 293; 307; 311 ].

(** The largest [r] with [r^k <= n], one bit at a time from bit [bits - 1]. *)
Fixpoint integer_root (k : Z) (bits : nat) (n r : Z) : Z :=
  match bits with
  | O => r
  | S b =>
      let candidate := r + 2 ^ Z.of_nat b in
      integer_root k b n (if candidate ^ k <=? n then candidate else r)
  end.

Definition fraction_bits (k p : Z) : Z :=
  wrap32 (integer_root k 40 (p * 2 ^ (32 * k)) 0).

Definition round_constants : list Z :=
  Eval vm_compute in map (fraction_bits 3) first_primes.

Definition initial_hash : list Z :=
  Eval vm_compute in map (fraction_bits 2) (firstn 8 first_primes).

Definition word_at (ws : list Z) (i : nat) : Z := nth i ws 0.

(** Big-endian packing of the four bytes of a word. *)
Definition pack_be (b0 b1 b2 b3 : Z) : Z :=
  Z.lor (Z.lor (Z.shiftl b0 24) (Z.shiftl b1 16)) (Z.lor (Z.shiftl b2 8) b3).

Fixpoint words_of_bytes (bs : list Z) : list Z :=
  match bs with
  | b0 :: b1 :: b2 :: b3 :: rest => pack_be b0 b1 b2 b3 :: words_of_bytes rest
  | _ => []
  end.

Definition bytes_of_word (w : Z) : list Z :=
  [ Z.land (Z.shiftr w 24) 0xff; Z.land (Z.shiftr w 16) 0xff;
    Z.land (Z.shiftr w 8) 0xff; Z.land w 0xff ].

(** The message schedule: sixteen block words extended to sixty-four. *)
Fixpoint extend_schedule (steps : nat) (ws : list Z) : list Z :=
  match steps with
  | O => ws
  | S steps' =>
      let t := List.length ws in
      let w := plus32 (plus32 (small_sigma1 (word_at ws (t - 2))) (word_at ws (t - 7)))
                      (plus32 (small_sigma0 (word_at ws (t - 15))) (word_at ws (t - 16))) in
      extend_schedule steps' (ws ++ [w])
  end.

Record working := Working
  { wa : Z; wb : Z; wc : Z; wd : Z; we : Z; wf : Z; wg : Z; wh : Z }.

Definition round (st : working) (kw : Z * Z) : working :=
  let '(k, w) := kw in
  let t1 := plus32 (plus32 (plus32 (wh st) (big_sigma1 (we st)))
                           (plus32 (choose (we st) (wf st) (wg st)) k)) w in
  let t2 := plus32 (big_sigma0 (wa st)) (majority (wa st) (wb st) (wc st)) in
  Working (plus32 t1 t2) (wa st) (wb st) (wc st)
          (plus32 (wd st) t1) (we st) (wf st) (wg st).

Definition load (h : list Z) : working :=
  Working (word_at h 0) (word_at h 1) (word_at h 2) (word_at h 3)
          (word_at h 4) (word_at h 5) (word_at h 6) (word_at h 7).

Definition compress (h : list Z) (block : list Z) : list Z :=
  let ws := extend_schedule 48 (words_of_bytes block) in
  let st := fold_left round (combine round_constants ws) (load h) in
  [ plus32 (word_at h 0) (wa st); plus32 (word_at h 1) (wb st);
    plus32 (word_at h 2) (wc st); plus32 (word_at h 3) (wd st);
    plus32 (word_at h 4) (we st); plus32 (word_at h 5) (wf st);
    plus32 (word_at h 6) (wg st); plus32 (word_at h 7) (wh st) ].

(** Padding: 0x80, zeros up to 56 mod 64, then the bit length on 8 bytes. *)
Definition length_bytes (bits : Z) : list Z :=
  map (fun i => Z.land (Z.shiftr bits (8 * i)) 0xff) [7; 6; 5; 4; 3; 2; 1; 0].

Definition pad (msg : list Z) : list Z :=
  let n := Z.of_nat (List.length msg) in
  let zeros := Z.to_nat ((55 - n) mod 64) in
  msg ++ [0x80] ++ repeat 0 zeros ++ length_bytes (8 * n).

Fixpoint absorb (blocks : nat) (h : list Z) (bs : list Z) : list Z :=
  match blocks with
  | O => h
  | S blocks' => absorb blocks' (compress h (firstn 64 bs)) (skipn 64 bs)
  end.

Definition sha256 (msg : list Z) : list Z :=
  let padded := pad msg in
  flat_map bytes_of_word
    (absorb (List.length padded / 64)%nat initial_hash padded).

(** [crypto.createHmac('sha256', key).update(msg).digest()] (RFC 2104). *)
Definition block_key (key : list Z) : list Z :=
  let k := if Z.ltb 64 (Z.of_nat (List.length key)) then sha256 key else key in
  k ++ repeat 0 (64 - List.length k)%nat.

Definition hmac_sha256 (key msg : list Z) : list Z :=
  let k := block_key key in
  sha256 (map (Z.lxor 0x5c) k ++ sha256 (map (Z.lxor 0x36) k ++ msg)).

(** Strings as bytes, and the lower-case hex of [digest('hex')]. *)
Definition bytes_of_string (s : string) : list Z :=
  map (fun c => Z.of_N (N_of_ascii c)) (list_ascii_of_string s).

Definition hex_digit (n : Z) : ascii :=
  nth (Z.to_nat n) (list_ascii_of_string "0123456789abcdef") "0"%char.

Fixpoint hex_of_bytes (bs : list Z) : string :=
  match bs with
  | [] => EmptyString
  | b :: rest =>
      String (hex_digit (Z.shiftr b 4))
        (String (hex_digit (Z.land b 0xf)) (hex_of_bytes rest))
  end.

Definition hmac_sha256_hex (secret payload : string) : string :=
  hex_of_bytes (hmac_sha256 (bytes_of_string secret) (bytes_of_string payload)).

End Crypto.

(* ===================================================================== *)
(** ** JavaScript values the handlers touch                               *)
(* ===================================================================== *)

(** What a call can do: return a value or throw. *)
Inductive JsError : Type :=
  | CustomError (message : string) (statusCode : Z)
  | TypeError (message : string)
  | RangeError (message : string)
  | SystemError (code : string) (message : string)
      (* what the [fs] module throws: ENOENT, EISDIR, EACCES, ... *)
  | PlainError (message : string).
      (* an [Error] of no particular class, as the lint engine throws *)

Inductive completion (A : Type) : Type :=
  | Returned (a : A)
  | Thrown (e : JsError).
Arguments Returned {A} a.
Arguments Thrown {A} e.

Definition error_message (e : JsError) : string :=
  match e with
  | CustomError m _ => m
  | TypeError m => m
  | RangeError m => m
  | SystemError c m => c +:+ ": " +:+ m
  | PlainError m => m
  end.

(** [error.statusCode], which only [CustomError] carries. *)
Definition error_statusCode (e : JsError) : option Z :=
  match e with
  | CustomError _ c => Some c
  | _ => None
  end.

(** JavaScript Numbers, as far as the handlers meet them: the doubles that
    are integers, held as that integer, the two infinities, and NaN.  (The
    sign of zero is not kept.) *)
Inductive number : Type :=
  | Num (value : Z)
  | Infinity (negative : bool)
  | NaN.

Module Number.

(** The double nearest to an integer: the integer itself when it has at
    most 53 significant bits, otherwise its 53 leading bits rounded to
    nearest, ties to even, with the dropped bits zero. *)
Definition nearest (n : Z) : Z :=
  let m := Z.abs n in
  let width := Z.log2 m + 1 in
  if width <=? 53 then n
  else
    let dropped := width - 53 in
    let kept := Z.shiftr m dropped in
    let rest := m - Z.shiftl kept dropped in
    let half := 2 ^ (dropped - 1) in
    let rounded :=
      if (half <? rest) || ((rest =? half) && Z.odd kept) then kept + 1 else kept in
    Z.sgn n * Z.shiftl rounded dropped.

(** The Number a decimal integer denotes, in a literal, in [Number(text)]
    or in [parseInt(text)]: the nearest double, an infinity beyond the
    largest one. *)
Definition of_integer (n : Z) : number :=
  let v := nearest n in
  if Z.abs v <? 2 ^ 1024 then Num v else Infinity (n <? 0).

(** [a <= b] on Numbers; a comparison with NaN is false. *)
Definition leb (a b : number) : bool :=
  match a, b with
  | NaN, _ | _, NaN => false
  | Num x, Num y => x <=? y
  | Infinity true, _ => true
  | _, Infinity false => true
  | Infinity false, _ => false
  | _, Infinity true => false
  end.

End Number.

(** A parsed JSON document, as [express.json()] leaves it in [req.body].
    Numbers are the integers that JavaScript prints digit by digit (below
    10^21 in size); the members of an object are in the order in which
    JavaScript enumerates them. *)
Inductive json : Type :=
  | JNull
  | JBool (b : bool)
  | JNumber (n : Z)
  | JString (s : string)
  | JArray (items : list json)
  | JObject (members : list (string * json)).

Module JSON.

Definition quote : string := String (ascii_of_N 34) EmptyString.
Definition backslash : string := String (ascii_of_N 92) EmptyString.

(** The escapes of [JSON.stringify] (QuoteJSONString): the quote, the
    backslash, the short control escapes, and four hex digits for the other
    control characters; every other byte is copied. *)
Definition escape_char (c : ascii) : string :=
  let n := Z.of_N (N_of_ascii c) in
  if n =? 34 then backslash +:+ quote
  else if n =? 92 then backslash +:+ backslash
  else if n =? 8 then backslash +:+ "b"
  else if n =? 9 then backslash +:+ "t"
  else if n =? 10 then backslash +:+ "n"
  else if n =? 12 then backslash +:+ "f"
  else if n =? 13 then backslash +:+ "r"
  else if n <? 32 then backslash +:+ "u00" +:+ Crypto.hex_of_bytes [n]
  else String c EmptyString.

Fixpoint escape (s : string) : string :=
  match s with
  | EmptyString => EmptyString
  | String c rest => escape_char c +:+ escape rest
  end.

Definition quoted (s : string) : string := quote +:+ escape s +:+ quote.

Definition join (parts : list string) : string :=
  match parts with
  | [] => EmptyString
  | p :: rest => fold_left (fun acc x => acc +:+ "," +:+ x) rest p
  end.

(** [JSON.stringify(value)] with no indent argument: no white space. *)
Fixpoint stringify (v : json) : string :=
  match v with
  | JNull => "null"
  | JBool true => "true"
  | JBool false => "false"
  | JNumber n => pretty n
  | JString s => quoted s
  | JArray items => "[" +:+ join (map stringify items) +:+ "]"
  | JObject members =>
      "{" +:+ join (map (fun kv => quoted (fst kv) +:+ ":" +:+ stringify (snd kv)) members)
          +:+ "}"
  end.

(** [JSON.parse(text)], which [express.json()] runs on the raw body, for
    the documents of [json]: literals, integers, strings with the
    one-letter escapes, arrays and objects.  [None] is a syntax error, or a
    text outside that subset: a number with a fraction or an exponent, or
    of size 10^21 and more, or a [\u] escape. *)
Definition code (c : ascii) : Z := Z.of_N (N_of_ascii c).

Definition is_space (c : ascii) : bool :=
  (code c =? 32) || (code c =? 9) || (code c =? 10) || (code c =? 13).

Definition is_digit (c : ascii) : bool := (48 <=? code c) && (code c <=? 57).

Fixpoint skip_space (cs : list ascii) : list ascii :=
  match cs with
  | c :: rest => if is_space c then skip_space rest else cs
  | [] => []
  end.

Fixpoint strip_prefix (word cs : list ascii) : option (list ascii) :=
  match word, cs with
  | [], _ => Some cs
  | w :: word', c :: cs' => if Ascii.eqb w c then strip_prefix word' cs' else None
  | _ :: _, [] => None
  end.

Fixpoint parse_digits (acc : Z) (cs : list ascii) : Z * list ascii :=
  match cs with
  | c :: rest =>
      if is_digit c then parse_digits (10 * acc + (code c - 48)) rest else (acc, cs)
  | [] => (acc, [])
  end.

Definition ends_integer (rest : list ascii) : bool :=
  match rest with
  | c :: _ => negb ((code c =? 46) || (code c =? 101) || (code c =? 69))
  | [] => true
  end.

(** The value of an integer literal is a double: the nearest one to the
    integer its digits denote. *)
Definition literal_value (n : Z) : option Z :=
  match Number.of_integer n with
  | Num v => if Z.abs v <? 10 ^ 21 then Some v else None
  | _ => None
  end.

(** An integer: an optional minus sign, then [0] or digits without a
    leading zero, with no fraction or exponent after them. *)
Definition parse_unsigned (cs : list ascii) : option (Z * list ascii) :=
  match cs with
  | c :: rest =>
      if code c =? 48 then
        match rest with
        | d :: _ => if is_digit d then None
                    else if ends_integer rest then Some (0, rest) else None
        | [] => Some (0, [])
        end
      else if is_digit c then
        let '(n, rest') := parse_digits 0 cs in
        if ends_integer rest'
        then option_map (fun v => (v, rest')) (literal_value n)
        else None
      else None
  | [] => None
  end.

Definition unescape (c : ascii) : option ascii :=
  if (code c =? 34) || (code c =? 92) || (code c =? 47) then Some c
  else if code c =? 98 then Some (ascii_of_N 8)
  else if code c =? 102 then Some (ascii_of_N 12)
  else if code c =? 110 then Some (ascii_of_N 10)
  else if code c =? 114 then Some (ascii_of_N 13)
  else if code c =? 116 then Some (ascii_of_N 9)
  else None.

(** The characters after an opening quote, up to the closing one. *)
Fixpoint parse_chars (cs : list ascii) : option (string * list ascii) :=
  match cs with
  | [] => None
  | c :: rest =>
      if code c =? 34 then Some (EmptyString, rest)
      else if code c <? 32 then None
      else if code c =? 92 then
        match rest with
        | e :: rest' =>
            match unescape e, parse_chars rest' with
            | Some c', Some (s, after) => Some (String c' s, after)
            | _, _ => None
            end
        | [] => None
        end
      else
        match parse_chars rest with
        | Some (s, after) => Some (String c s, after)
        | None => None
        end
  end.

(** A key that is an array index: [0], or digits without a leading zero,
    up to 2^32 - 2. *)
Definition array_index (k : string) : option Z :=
  match list_ascii_of_string k with
  | c :: rest =>
      if forallb is_digit (c :: rest) && ((negb (code c =? 48)) || (List.length rest =? 0)%nat)
      then let n := fst (parse_digits 0 (c :: rest)) in
           if n <=? 4294967294 then Some n else None
      else None
  | [] => None
  end.

(** The order in which JavaScript enumerates the keys of an object: the
    array indices first, ascending, then the other keys as they came. *)
Definition comes_before (k k' : string) : bool :=
  match array_index k, array_index k' with
  | Some i, Some j => i <? j
  | Some _, None => true
  | None, _ => false
  end.

(** Defining a member of an object under construction: a repeated key
    keeps its place and takes the last value, a new one goes to its place
    in the enumeration order. *)
Fixpoint set_member (k : string) (v : json) (ms : list (string * json))
  : list (string * json) :=
  match ms with
  | [] => [(k, v)]
  | (k', v') :: rest =>
      if String.eqb k k' then (k', v) :: rest
      else if comes_before k k' then (k, v) :: (k', v') :: rest
      else (k', v') :: set_member k v rest
  end.

Fixpoint parse_value (fuel : nat) (cs : list ascii) {struct fuel}
  : option (json * list ascii) :=
  match fuel with
  | O => None
  | S fuel' =>
      match skip_space cs with
      | [] => None
      | c :: rest =>
          if code c =? 110 then               (* null *)
            option_map (pair JNull) (strip_prefix (list_ascii_of_string "ull") rest)
          else if code c =? 116 then          (* true *)
            option_map (pair (JBool true)) (strip_prefix (list_ascii_of_string "rue") rest)
          else if code c =? 102 then          (* false *)
            option_map (pair (JBool false)) (strip_prefix (list_ascii_of_string "alse") rest)
          else if code c =? 34 then           (* a string *)
            match parse_chars rest with
            | Some (s, after) => Some (JString s, after)
            | None => None
            end
          else if code c =? 45 then           (* a negative number *)
            match parse_unsigned rest with
            | Some (n, after) => Some (JNumber (- n), after)
            | None => None
            end
          else if code c =? 91 then           (* an array *)
            match skip_space rest with
            | d :: after =>
                if code d =? 93 then Some (JArray [], after)
                else parse_items fuel' rest []
            | [] => None
            end
          else if code c =? 123 then          (* an object *)
            match skip_space rest with
            | d :: after =>
                if code d =? 125 then Some (JObject [], after)
                else parse_members fuel' rest []
            | [] => None
            end
          else
            match parse_unsigned (c :: rest) with
            | Some (n, after) => Some (JNumber n, after)
            | None => None
            end
      end
  end
with parse_items (fuel : nat) (cs : list ascii) (seen : list json) {struct fuel}
  : option (json * list ascii) :=
  match fuel with
  | O => None
  | S fuel' =>
      match parse_value fuel' cs with
      | Some (v, rest) =>
          match skip_space rest with
          | d :: after =>
              if code d =? 44 then parse_items fuel' after (seen ++ [v])
              else if code d =? 93 then Some (JArray (seen ++ [v]), after)
              else None
          | [] => None
          end
      | None => None
      end
  end
with parse_members (fuel : nat) (cs : list ascii) (seen : list (string * json))
       {struct fuel} : option (json * list ascii) :=
  match fuel with
  | O => None
  | S fuel' =>
      match skip_space cs with
      | q :: rest =>
          if code q =? 34 then
            match parse_chars rest with
            | Some (k, after_key) =>
                match skip_space after_key with
                | colon :: after_colon =>
                    if code colon =? 58 then
                      match parse_value fuel' after_colon with
                      | Some (v, rest') =>
                          match skip_space rest' with
                          | d :: after =>
                              if code d =? 44
                              then parse_members fuel' after (set_member k v seen)
                              else if code d =? 125
                              then Some (JObject (set_member k v seen), after)
                              else None
                          | [] => None
                          end
                      | None => None
                      end
                    else None
                | [] => None
                end
            | None => None
            end
          else None
      | [] => None
      end
  end.

(** The whole text must be one value.  The parser gets fuel for twice as
    many calls as the text has characters. *)
Definition parse (text : string) : option json :=
  let cs := list_ascii_of_string text in
  match parse_value (2 * List.length cs + 2) cs with
  | Some (v, rest) =>
      match skip_space rest with
      | [] => Some v
      | _ :: _ => None
      end
  | None => None
  end.

End JSON.

(** [Buffer.from(value)] on a string gives its bytes; on [undefined] it
    throws a [TypeError]. *)
Definition Buffer_from (value : option string) : completion string :=
  match value with
  | Some s => Returned s
  | None =>
      Thrown (TypeError "The first argument must be of type string or an instance of Buffer")
  end.

(** [crypto.timingSafeEqual(a, b)]: a [RangeError] when the byte lengths
    differ, otherwise whether the bytes are equal. *)
Definition timingSafeEqual (a b : string) : completion bool :=
  if (String.length a =? String.length b)%nat
  then Returned (String.eqb a b)
  else Thrown (RangeError "Input buffers must have the same byte length").

(* ===================================================================== *)
(** ** services/githubService.ts and services/gitlabService.ts            *)
(* ===================================================================== *)

Module GitHubService.

Definition expectedSignature (payload secret : string) : string :=
  "sha256=" +:+ Crypto.hmac_sha256_hex secret payload.

Definition verifyWebhookSignature
    (payload : string) (signature : option string) (secret : string)
  : completion bool :=
  let expected := expectedSignature payload secret in
  match Buffer_from signature with
  | Thrown e => Thrown e
  | Returned given => timingSafeEqual given expected
  end.

End GitHubService.

Module GitLabService.

Definition expectedSignature (payload secret : string) : string :=
  Crypto.hmac_sha256_hex secret payload.

Definition verifyWebhookSignature
    (payload : string) (signature : option string) (secret : string)
  : completion bool :=
  let expected := expectedSignature payload secret in
  match Buffer_from signature with
  | Thrown e => Thrown e
  | Returned given => timingSafeEqual given expected
  end.

End GitLabService.

(* ===================================================================== *)
(** ** config/queues.ts: the three Bull queues                            *)
(* ===================================================================== *)

Inductive BackoffType : Type := exponential | fixed.

Record Backoff : Type := { backoff_type : BackoffType; delay : Z }.

Record JobOptions : Type :=
  { removeOnComplete : Z;
    removeOnFail : Z;
    attempts : Z;
    backoff : Backoff }.

(** The third argument of [queue.add]: the options a caller overrides. *)
Record AddOptions : Type :=
  { add_attempts : option Z;
    add_backoff : option Backoff }.

Definition no_options : AddOptions :=
  {| add_attempts := None; add_backoff := None |}.

Inductive Provider : Type := github | gitlab.

Definition provider_name (p : Provider) : string :=
  match p with github => "github" | gitlab => "gitlab" end.

(** [job.data].  A webhook job carries
    [{repositoryId, event, payload, provider}] (and [isTest] on the test
    path); the data of the other queues is kept as a document. *)
Inductive JobData : Type :=
  | WebhookData (repositoryId : string) (event : option string)
                (payload : json) (provider : Provider) (isTest : bool)
  | OtherData (document : json).

(** What a report job returns: [{filePath, contentType, filename}]. *)
Record ReportResult : Type :=
  { filePath : option string;
    contentType : option string;
    filename : option string }.

(** The values of [job.getState()]. *)
Inductive JobState : Type :=
  | waiting | active | completed | failed | delayed | paused | stuck.

Record Job : Type :=
  { job_id : string;
    job_name : string;
    data : JobData;
    opts : JobOptions;
    job_state : JobState;
    progress : Z;
    returnvalue : option ReportResult;
    failedReason : option string }.

Record Queue : Type :=
  { queue_name : string;
    defaultJobOptions : JobOptions;
    next_id : Z;
    jobs : list Job }.

Record Queues : Type :=
  { analysisQueue : Queue;
    webhookQueue : Queue;
    reportQueue : Queue }.

Definition new_queue (name : string) (defaults : JobOptions) : Queue :=
  {| queue_name := name; defaultJobOptions := defaults; next_id := 1; jobs := [] |}.

(** [setupQueues()]. *)
Definition setupQueues : Queues :=
  {| analysisQueue :=
       new_queue "code analysis"
         {| removeOnComplete := 100; removeOnFail := 50; attempts := 3;
            backoff := {| backoff_type := exponential; delay := 2000 |} |};
     webhookQueue :=
       new_queue "webhook processing"
         {| removeOnComplete := 200; removeOnFail := 100; attempts := 5;
            backoff := {| backoff_type := exponential; delay := 1000 |} |};
     reportQueue :=
       new_queue "report generation"
         {| removeOnComplete := 50; removeOnFail := 25; attempts := 2;
            backoff := {| backoff_type := fixed; delay := 5000 |} |} |}.

Inductive QueueKind : Type := analysis | webhook | report.

Definition queue_of (k : QueueKind) (qs : Queues) : Queue :=
  match k with
  | analysis => analysisQueue qs
  | webhook => webhookQueue qs
  | report => reportQueue qs
  end.

(** Bull lays the caller's options over the queue's defaults. *)
Definition merge_options (defaults : JobOptions) (o : AddOptions) : JobOptions :=
  {| removeOnComplete := removeOnComplete defaults;
     removeOnFail := removeOnFail defaults;
     attempts := default (attempts defaults) (add_attempts o);
     backoff := default (backoff defaults) (add_backoff o) |}.

(** [queue.add(name, data, opts)]: one new waiting job at the end of the
    queue, with the next id of the queue's counter. *)
Definition Queue_add (q : Queue) (name : string) (d : JobData) (o : AddOptions) : Queue :=
  {| queue_name := queue_name q;
     defaultJobOptions := defaultJobOptions q;
     next_id := next_id q + 1;
     jobs := jobs q ++
       [ {| job_id := pretty (next_id q); job_name := name; data := d;
            opts := merge_options (defaultJobOptions q) o;
            job_state := waiting; progress := 0;
            returnvalue := None; failedReason := None |} ] |}.

Definition with_webhookQueue (qs : Queues) (q : Queue) : Queues :=
  {| analysisQueue := analysisQueue qs; webhookQueue := q; reportQueue := reportQueue qs |}.

(** [queue.getJob(jobId)]. *)
Definition Queue_getJob (q : Queue) (jobId : string) : option Job :=
  List.find (fun j => String.eqb (job_id j) jobId) (jobs q).

(** Modelled from the spec: the delay before a retry, which Bull computes
    from [backoff] and is not part of this repository.  "Backoff policy:
    exponential -> delay = baseDelay * 2^(attemptCount-1); fixed -> delay =
    baseDelay constant." *)
Definition backoffDelay (b : Backoff) (attemptCount : Z) : Z :=
  match backoff_type b with
  | exponential => delay b * 2 ^ (attemptCount - 1)
  | fixed => delay b
  end.

(** Modelled from the spec: what a worker does to a stored job, which Bull
    performs and is not part of this repository.  "State machine per Job:
    queued -> active -> {completed | failed}; failed -> queued (automatic,
    while attemptCount < maxAttempts, after backoffPolicy-determined
    delay) ...  active -> queued is possible if a worker crashes mid-job";
    "job completion (success, failure, or exhausted retries) is recorded";
    "result is only populated when status == completed".  The spec's
    [queued] is Bull's [waiting] and its [dead] a failed job that is not
    retried; the count of attempts is not kept, so a failed job may be
    retried here without limit. *)
Inductive Transition : Type :=
  | Start                              (* queued -> active *)
  | Complete (result : ReportResult)   (* active -> completed, the result recorded *)
  | Fail (message : string)            (* active -> failed, the error recorded *)
  | Retry                              (* failed -> queued *)
  | Requeue.                           (* active -> queued *)

(** Modelled from the spec: the job after a transition; one that does not
    start from the job's state leaves the job as it is. *)
Definition transition (t : Transition) (job : Job) : Job :=
  let moved (s : JobState) (value : option ReportResult) (reason : option string) :=
    {| job_id := job_id job; job_name := job_name job; data := data job;
       opts := opts job; job_state := s; progress := progress job;
       returnvalue := value; failedReason := reason |} in
  match t, job_state job with
  | Start, waiting => moved active (returnvalue job) (failedReason job)
  | Complete result, active => moved completed (Some result) (failedReason job)
  | Fail message, active => moved failed (returnvalue job) (Some message)
  | Retry, failed => moved waiting (returnvalue job) (failedReason job)
  | Requeue, active => moved waiting (returnvalue job) (failedReason job)
  | _, _ => job
  end.

(** The transition of the job with the given id, in its queue. *)
Definition Queue_move (q : Queue) (jobId : string) (t : Transition) : Queue :=
  {| queue_name := queue_name q;
     defaultJobOptions := defaultJobOptions q;
     next_id := next_id q;
     jobs := map (fun j => if String.eqb (job_id j) jobId then transition t j else j)
                 (jobs q) |}.

Definition set_queue (k : QueueKind) (q : Queue) (qs : Queues) : Queues :=
  match k with
  | analysis =>
      {| analysisQueue := q; webhookQueue := webhookQueue qs; reportQueue := reportQueue qs |}
  | webhook =>
      {| analysisQueue := analysisQueue qs; webhookQueue := q; reportQueue := reportQueue qs |}
  | report =>
      {| analysisQueue := analysisQueue qs; webhookQueue := webhookQueue qs; reportQueue := q |}
  end.

(** What happens to the queues while the server runs: a route adds a job
    ([queue.add], from the source), a worker moves one. *)
Inductive QueueEvent : Type :=
  | Added (k : QueueKind) (name : string) (d : JobData) (o : AddOptions)
  | Moved (k : QueueKind) (jobId : string) (t : Transition).

Definition happen (qs : Queues) (ev : QueueEvent) : Queues :=
  match ev with
  | Added k name d o => set_queue k (Queue_add (queue_of k qs) name d o) qs
  | Moved k jobId t => set_queue k (Queue_move (queue_of k qs) jobId t) qs
  end.

(** The queues after a history of events, from [setupQueues]. *)
Definition after (events : list QueueEvent) : Queues :=
  fold_left happen events setupQueues.

(* ===================================================================== *)
(** ** middleware/errorHandler.ts                                         *)
(* ===================================================================== *)

Record ProcessEnv : Type :=
  { GITHUB_WEBHOOK_SECRET : option string;
    GITLAB_WEBHOOK_SECRET : option string;
    NODE_ENV : option string }.

(** The bodies the modelled routes send. *)
Inductive ResponseBody : Type :=
  | MessageJson (message : string)
  | ErrorJson (message : string)
  | JobStatusJson (jobId : string) (status : JobState) (job_progress : Z)
                  (job_data : JobData) (result : option ReportResult)
                  (error : option string)
  | FileStream (content_type : string) (disposition : string) (content : string).

Record HttpResponse : Type := { status : Z; body : ResponseBody }.

Definition isDevelopment (env : ProcessEnv) : bool :=
  match NODE_ENV env with
  | Some v => String.eqb v "development"
  | None => false
  end.

(** [errorHandler]: the status is [error.statusCode], 500 when the error has
    none; the message is only shown in development.  ([stack], [timestamp]
    and [path] of the body are left out.) *)
Definition errorHandler (env : ProcessEnv) (e : JsError) : HttpResponse :=
  {| status := default 500 (error_statusCode e);
     body := ErrorJson (if isDevelopment env then error_message e
                        else "Internal Server Error") |}.

(** [asyncHandler(fn)]: a rejection of [fn] goes to [next], that is to
    [errorHandler]. *)
Definition asyncHandler {S : Type} (env : ProcessEnv) (run : completion HttpResponse * S)
  : HttpResponse * S :=
  match run with
  | (Returned res, st) => (res, st)
  | (Thrown e, st) => (errorHandler env e, st)
  end.

(** JavaScript truthiness of an environment variable: set and not empty. *)
Definition truthy (v : option string) : option string :=
  match v with
  | Some s => if String.eqb s "" then None else Some s
  | None => None
  end.

(* ===================================================================== *)
(** ** routes/webhooks.ts                                                 *)
(* ===================================================================== *)

(** validator.js [isUUID] without a version: 8-4-4-4-12 hex digits. *)
Definition is_hex_digit (c : ascii) : bool :=
  let n := N_of_ascii c in
  ((48 <=? n) && (n <=? 57) || (65 <=? n) && (n <=? 70) || (97 <=? n) && (n <=? 102))%N.

Fixpoint uuid_shape (i : nat) (cs : list ascii) : bool :=
  match cs with
  | [] => (i =? 36)%nat
  | c :: rest =>
      (if ((i =? 8) || (i =? 13) || (i =? 18) || (i =? 23))%nat
       then Ascii.eqb c "-" else is_hex_digit c)
      && uuid_shape (S i) rest
  end.

Definition isUUID (s : string) : bool := uuid_shape 0 (list_ascii_of_string s).

(** An incoming webhook request.  [headers] has lower-case names, as Node
    gives them; [rawBody] is the bytes on the wire and [req_body] the parsed
    document that the handlers read as [req.body]. *)
Record WebhookRequest : Type :=
  { param_repositoryId : string;
    headers : gmap string string;
    rawBody : string;
    req_body : json }.

Definition webhook_job_options : AddOptions :=
  {| add_attempts := Some 3;
     add_backoff := Some {| backoff_type := exponential; delay := 2000 |} |}.

Definition queued_message : string := "Webhook received and queued for processing".

(** [router.post('/github/:repositoryId', ...)], the function given to
    [asyncHandler]. *)
Definition github_webhook (env : ProcessEnv) (qs : Queues) (req : WebhookRequest)
  : completion HttpResponse * Queues :=
  if negb (isUUID (param_repositoryId req))
  then (Thrown (CustomError "Invalid repository ID" 400), qs)
  else
    let repositoryId := param_repositoryId req in
    let signature := headers req !! "x-hub-signature-256" in
    let event := headers req !! "x-github-event" in
    let payload := req_body req in
    let enqueue :=
      (Returned {| status := 200; body := MessageJson queued_message |},
       with_webhookQueue qs
         (Queue_add (webhookQueue qs) "process-github-webhook"
            (WebhookData repositoryId event payload github false)
            webhook_job_options)) in
    match truthy (GITHUB_WEBHOOK_SECRET env) with
    | None => enqueue
    | Some webhookSecret =>
        match GitHubService.verifyWebhookSignature
                (JSON.stringify payload) signature webhookSecret with
        | Thrown e => (Thrown e, qs)
        | Returned false => (Thrown (CustomError "Invalid webhook signature" 401), qs)
        | Returned true => enqueue
        end
    end.

(** [router.post('/gitlab/:repositoryId', ...)]. *)
Definition gitlab_webhook (env : ProcessEnv) (qs : Queues) (req : WebhookRequest)
  : completion HttpResponse * Queues :=
  if negb (isUUID (param_repositoryId req))
  then (Thrown (CustomError "Invalid repository ID" 400), qs)
  else
    let repositoryId := param_repositoryId req in
    let signature := headers req !! "x-gitlab-token" in
    let event := headers req !! "x-gitlab-event" in
    let payload := req_body req in
    let enqueue :=
      (Returned {| status := 200; body := MessageJson queued_message |},
       with_webhookQueue qs
         (Queue_add (webhookQueue qs) "process-gitlab-webhook"
            (WebhookData repositoryId event payload gitlab false)
            webhook_job_options)) in
    match truthy (GITLAB_WEBHOOK_SECRET env) with
    | None => enqueue
    | Some webhookSecret =>
        match GitLabService.verifyWebhookSignature
                (JSON.stringify payload) signature webhookSecret with
        | Thrown e => (Thrown e, qs)
        | Returned false => (Thrown (CustomError "Invalid webhook signature" 401), qs)
        | Returned true => enqueue
        end
    end.

(** [router.post('/test/:repositoryId', ...)] for an authenticated caller:
    a marked test event goes on the webhook queue with the queue's default
    options and without any signature check. *)
Definition test_webhook (qs : Queues) (repositoryId : string) (p : Provider)
    (eventType : string) : completion HttpResponse * Queues :=
  if negb (isUUID repositoryId) || String.eqb eventType ""
  then (Thrown (CustomError "Invalid request data" 400), qs)
  else
    let testPayload :=
      JObject [ ("action", JString "test");
                ("repository", JObject [("id", JString repositoryId)]);
                ("sender", JObject [("login", JString "test-user")]) ] in
    (Returned {| status := 200; body := MessageJson "Test webhook event created" |},
     with_webhookQueue qs
       (Queue_add (webhookQueue qs) ("test-" +:+ provider_name p +:+ "-webhook")
          (WebhookData repositoryId (Some eventType) testPayload p true)
          no_options)).

(** The route a provider's requests reach, with [asyncHandler] and
    [errorHandler] around it: what the sender gets back. *)
Definition webhook_route (p : Provider) (env : ProcessEnv) (qs : Queues)
    (req : WebhookRequest) : completion HttpResponse * Queues :=
  match p with
  | github => github_webhook env qs req
  | gitlab => gitlab_webhook env qs req
  end.

Definition receive (p : Provider) (env : ProcessEnv) (qs : Queues) (req : WebhookRequest)
  : HttpResponse * Queues :=
  asyncHandler env (webhook_route p env qs req).

(** The pieces of a route that differ by provider. *)
Definition secret_of (p : Provider) (env : ProcessEnv) : option string :=
  match p with
  | github => GITHUB_WEBHOOK_SECRET env
  | gitlab => GITLAB_WEBHOOK_SECRET env
  end.

Definition signature_header (p : Provider) : string :=
  match p with github => "x-hub-signature-256" | gitlab => "x-gitlab-token" end.

Definition event_header (p : Provider) : string :=
  match p with github => "x-github-event" | gitlab => "x-gitlab-event" end.

Definition job_name_of (p : Provider) : string :=
  match p with github => "process-github-webhook" | gitlab => "process-gitlab-webhook" end.

Definition verify_of (p : Provider)
  : string -> option string -> string -> completion bool :=
  match p with
  | github => GitHubService.verifyWebhookSignature
  | gitlab => GitLabService.verifyWebhookSignature
  end.

Definition expected_of (p : Provider) : string -> string -> string :=
  match p with
  | github => GitHubService.expectedSignature
  | gitlab => GitLabService.expectedSignature
  end.

(* ===================================================================== *)
(** ** Node's [path], for POSIX paths                                     *)
(* ===================================================================== *)

Module Path.

Definition is_slash (c : ascii) : bool := Ascii.eqb c "/".

(** The pieces of a path between its slashes, empty ones included. *)
Fixpoint pieces (current s : string) : list string :=
  match s with
  | EmptyString => [current]
  | String c rest =>
      if is_slash c then current :: pieces EmptyString rest
      else pieces (current +:+ String c EmptyString) rest
  end.

(** One step of [normalizeString]: an empty piece and [.] are dropped;
    [..] takes the last kept piece away, unless there is none or it is a
    [..] itself, and then it is kept only where the path may climb above
    its start; every other piece is kept. *)
Definition resolve (allowAboveRoot : bool) (kept : list string) (piece : string)
  : list string :=
  if String.eqb piece "" || String.eqb piece "." then kept
  else if String.eqb piece ".." then
    match last kept with
    | Some l =>
        if String.eqb l ".."
        then (if allowAboveRoot then kept ++ [".."] else kept)
        else removelast kept
    | None => if allowAboveRoot then [".."] else []
    end
  else kept ++ [piece].

Definition normalizeString (path : string) (allowAboveRoot : bool) : string :=
  String.concat "/" (fold_left (resolve allowAboveRoot) (pieces EmptyString path) []).

Definition is_absolute (path : string) : bool :=
  match path with
  | String c _ => is_slash c
  | EmptyString => false
  end.

Fixpoint ends_with_slash (path : string) : bool :=
  match path with
  | EmptyString => false
  | String c EmptyString => is_slash c
  | String _ rest => ends_with_slash rest
  end.

(** [path.normalize(path)]. *)
Definition normalize (path : string) : string :=
  if String.eqb path "" then "."
  else
    let kept := normalizeString path (negb (is_absolute path)) in
    if String.eqb kept "" then
      (if is_absolute path then "/" else if ends_with_slash path then "./" else ".")
    else
      (if is_absolute path then "/" else "")
        +:+ kept +:+ (if ends_with_slash path then "/" else "").

(** [path.join(a, b)]: the arguments that are not empty, with a slash
    between them, normalized. *)
Definition join (a b : string) : string :=
  if String.eqb a "" then (if String.eqb b "" then "." else normalize b)
  else if String.eqb b "" then normalize a
  else normalize (a +:+ "/" +:+ b).

(** Where [path.dirname] cuts: at the last slash, not the first character,
    that has a character other than a slash somewhere after it. *)
Fixpoint dirname_end (i : nat) (lastSlash found : option nat) (cs : list ascii)
  : option nat :=
  match cs with
  | [] => found
  | c :: rest =>
      if is_slash c
      then dirname_end (S i) (if (1 <=? i)%nat then Some i else lastSlash) found rest
      else dirname_end (S i) lastSlash lastSlash rest
  end.

(** [path.dirname(path)]. *)
Definition dirname (path : string) : string :=
  if String.eqb path "" then "."
  else
    match dirname_end 0 None None (list_ascii_of_string path) with
    | None => if is_absolute path then "/" else "."
    | Some e => if is_absolute path && (e =? 1)%nat then "//" else substring 0 e path
    end.

End Path.

(* ===================================================================== *)
(** ** services/eslintService.ts                                          *)
(* ===================================================================== *)

Module ESLintService.

Record ESLintIssue : Type :=
  { ruleId : string;
    severity : Z;                       (* 0 = off, 1 = warn, 2 = error *)
    message : string;
    line : Z;
    column : Z;
    issue_fix : option (Z * Z * string) }.   (* fix: {range, text} *)

Record ESLintResult : Type :=
  { filePath : string;
    messages : list ESLintIssue;
    errorCount : Z;
    warningCount : Z;
    fixableErrorCount : Z;
    fixableWarningCount : Z }.

(** The rule table of a configuration ([env], [parser] and [plugins] do
    not matter to the functions below). *)
Record ESLintConfig : Type := { rules : list (string * string) }.

Definition getDefaultConfig : ESLintConfig :=
  {| rules :=
       [ ("no-unused-vars", "warn"); ("no-console", "warn");
         ("no-debugger", "error"); ("no-alert", "error"); ("no-var", "error");
         ("prefer-const", "error"); ("no-duplicate-imports", "error");
         ("no-unreachable", "error"); ("no-undef", "error");
         ("no-unused-expressions", "warn"); ("no-constant-condition", "error");
         ("no-empty", "warn"); ("no-extra-semi", "error");
         ("no-func-assign", "error"); ("no-import-assign", "error");
         ("no-invalid-regexp", "error"); ("no-irregular-whitespace", "error");
         ("no-obj-calls", "error"); ("no-redeclare", "error");
         ("no-sparse-arrays", "error"); ("no-unexpected-multiline", "error");
         ("use-isnan", "error"); ("valid-typeof", "error");
         ("@typescript-eslint/no-unused-vars", "warn");
         ("@typescript-eslint/no-explicit-any", "warn");
         ("@typescript-eslint/explicit-function-return-type", "off");
         ("@typescript-eslint/explicit-module-boundary-types", "off");
         ("@typescript-eslint/no-inferrable-types", "off");
         ("@typescript-eslint/no-non-null-assertion", "warn");
         ("@typescript-eslint/prefer-as-const", "error");
         ("@typescript-eslint/no-array-constructor", "error");
         ("@typescript-eslint/no-empty-function", "warn");
         ("@typescript-eslint/no-extra-non-null-assertion", "error");
         ("@typescript-eslint/no-misused-new", "error");
         ("@typescript-eslint/no-namespace", "error");
         ("@typescript-eslint/no-this-alias", "error");
         ("@typescript-eslint/no-var-requires", "error");
         ("@typescript-eslint/prefer-namespace-keyword", "error");
         ("@typescript-eslint/triple-slash-reference", "error") ] |}.

(** The lint engine is the [eslint] package.  [lintFiles] of an engine
    built with the options [{baseConfig, fix}] reads the named file and
    returns its results or throws; it writes nothing: the text with the
    fixes applied comes back in the result, and only [ESLint.outputFixes],
    which this service never calls, writes it to the file. *)
Definition LintEngine : Type :=
  ESLintConfig -> bool -> gmap string string -> string -> completion (list ESLintResult).

Record FixOutcome : Type :=
  { fixed : bool;
    output : string;
    fix_messages : list ESLintIssue }.

(** [path.join(dir, name)]. *)
Definition path_join (dir name : string) : string := Path.join dir name.

(** What stops [fs.writeFileSync(path, data)] on a disk, if anything does: a
    missing directory (ENOENT), a directory in the place of the file
    (EISDIR), missing rights (EACCES), ...  The files are a map from paths
    to contents; what else of the disk decides is in this function. *)
Definition WriteError : Type := gmap string string -> string -> string -> option JsError.

Section Service.

Variable lintFiles : LintEngine.
Variable writeError : WriteError.
Variable tempDir : string.

(** [fs.writeFileSync(path, data)]. *)
Definition writeFileSync (fs : gmap string string) (path data : string)
  : completion (gmap string string) :=
  match writeError fs path data with
  | Some e => Thrown e
  | None => Returned (<[path := data]> fs)
  end.

(** [fixCode(sourceCode, filename, customConfig?)] over the file system
    [fs].  The [catch] only logs and rethrows, so what is on the disk when
    a statement throws stays there: nothing when the write throws, the
    temporary file when the engine throws.  The file is read back and
    unlinked before the [return] statement reads [result], so that an empty
    list of results throws after the file is gone. *)
Definition fixCode (fs : gmap string string) (sourceCode filename : string)
    (customConfig : option ESLintConfig)
  : completion FixOutcome * gmap string string :=
  let tempFilePath := path_join tempDir filename in
  match writeFileSync fs tempFilePath sourceCode with
  | Thrown e => (Thrown e, fs)
  | Returned fs1 =>
      let config := default getDefaultConfig customConfig in
      match lintFiles config true fs1 tempFilePath with
      | Thrown e => (Thrown e, fs1)
      | Returned results =>
          match fs1 !! tempFilePath with
          | None =>
              (Thrown (SystemError "ENOENT" "no such file or directory, open"), fs1)
          | Some fixedContent =>
              let fs2 := delete tempFilePath fs1 in
              match results with
              | [] =>
                  (Thrown (TypeError "Cannot read properties of undefined"), fs2)
              | result :: _ =>
                  (Returned
                     {| fixed := (0 <? fixableErrorCount result)
                                 || (0 <? fixableWarningCount result);
                        output := fixedContent;
                        fix_messages := messages result |},
                   fs2)
              end
          end
      end
  end.

End Service.

(** A disk on which a write never fails. *)
Definition writable : WriteError := fun _ _ _ => None.

(** A disk on which a write needs the directory of the path, and that has
    the directories [dirs]. *)
Definition needs_directory (dirs : list string) : WriteError :=
  fun _ path _ =>
    if existsb (String.eqb (Path.dirname path)) dirs then None
    else Some (SystemError "ENOENT" "no such file or directory, open").

Record Summary : Type :=
  { totalFiles : Z;
    totalErrors : Z;
    totalWarnings : Z;
    totalFixableErrors : Z;
    totalFixableWarnings : Z }.

Record FileEntry : Type :=
  { entry_filePath : string;
    entry_errorCount : Z;
    entry_warningCount : Z;
    entry_messages : list ESLintIssue }.

Record Report : Type := { summary : Summary; files : list FileEntry }.

(** [results.reduce((sum, result) => sum + f(result), 0)]. *)
Definition reduce_sum (f : ESLintResult -> Z) (results : list ESLintResult) : Z :=
  fold_left (fun sum result => sum + f result) results 0.

(** [generateReport(results)]. *)
Definition generateReport (results : list ESLintResult) : Report :=
  {| summary :=
       {| totalFiles := Z.of_nat (List.length results);
          totalErrors := reduce_sum errorCount results;
          totalWarnings := reduce_sum warningCount results;
          totalFixableErrors := reduce_sum fixableErrorCount results;
          totalFixableWarnings := reduce_sum fixableWarningCount results |};
     files :=
       map (fun result =>
              {| entry_filePath := filePath result;
                 entry_errorCount := errorCount result;
                 entry_warningCount := warningCount result;
                 entry_messages := messages result |})
           results |}.

(** The sum of a field over a list, to compare [reduce_sum] with. *)
Fixpoint field_sum (f : ESLintResult -> Z) (results : list ESLintResult) : Z :=
  match results with
  | [] => 0
  | r :: rest => f r + field_sum f rest
  end.

End ESLintService.

(* ===================================================================== *)
(** ** routes/reviews.ts: the issues of a review and their statistics     *)
(* ===================================================================== *)

Module Reviews.

Record BySeverity : Type :=
  { info : Z; minor : Z; major : Z; critical : Z; blocker : Z }.

Record ByType : Type :=
  { bug : Z; vulnerability : Z; code_smell : Z; security_hotspot : Z; style : Z }.

Record IssueSummary : Type :=
  { total : Z; bySeverity : BySeverity; byType : ByType }.

Record IssuesResponse : Type :=
  { issues : list json; issue_summary : IssueSummary }.

Record IssuesQuery : Type :=
  { reviewId : string;
    query_severity : option string;
    query_type : option string }.

Definition isIn (allowed : list string) (v : option string) : bool :=
  match v with
  | None => true
  | Some s => existsb (String.eqb s) allowed
  end.

Definition valid_query (q : IssuesQuery) : bool :=
  isUUID (reviewId q)
  && isIn ["info"; "minor"; "major"; "critical"; "blocker"] (query_severity q)
  && isIn ["bug"; "vulnerability"; "code_smell"; "security_hotspot"; "style"]
          (query_type q).

(** [router.get('/:reviewId/issues', ...)] for an authenticated caller. *)
Definition get_issues (q : IssuesQuery) : completion IssuesResponse :=
  if negb (valid_query q)
  then Thrown (CustomError "Invalid query parameters" 400)
  else Returned
         {| issues := [];
            issue_summary :=
              {| total := 0;
                 bySeverity := {| info := 0; minor := 0; major := 0;
                                  critical := 0; blocker := 0 |};
                 byType := {| bug := 0; vulnerability := 0; code_smell := 0;
                              security_hotspot := 0; style := 0 |} |} |}.

Definition sum_bySeverity (s : BySeverity) : Z :=
  info s + minor s + major s + critical s + blocker s.

Definition sum_byType (t : ByType) : Z :=
  bug t + vulnerability t + code_smell t + security_hotspot t + style t.

End Reviews.

(* ===================================================================== *)
(** ** routes/reports.ts: job status and download                         *)
(* ===================================================================== *)

Module Reports.

(** What [authenticateToken] finds in the [authorization] header. *)
Inductive Credential : Type :=
  | no_token
  | rejected_token
  | verified_token (userId : string).

Definition authenticateToken (c : Credential) : completion string :=
  match c with
  | no_token => Thrown (CustomError "Access token required" 401)
  | rejected_token => Thrown (CustomError "Invalid or expired token" 403)
  | verified_token u => Returned u
  end.

(** [router.get('/jobs/:jobId', ...)], the function given to
    [asyncHandler].  ([param('jobId').isString()] holds of every path
    parameter, so the 400 branch is never taken.) *)
Definition job_status (qs : Queues) (jobId : string) : completion HttpResponse :=
  match Queue_getJob (reportQueue qs) jobId with
  | None => Thrown (CustomError "Job not found" 404)
  | Some job =>
      Returned
        {| status := 200;
           body := JobStatusJson jobId (job_state job) (progress job) (data job)
                     (returnvalue job) (failedReason job) |}
  end.

(** The route: [authenticateToken], then the handler, with [errorHandler]
    answering whatever either throws. *)
Definition get_job (env : ProcessEnv) (qs : Queues) (c : Credential) (jobId : string)
  : HttpResponse :=
  match authenticateToken c with
  | Thrown e => errorHandler env e
  | Returned _ => fst (asyncHandler env (job_status qs jobId, tt))
  end.

(** How a download request ends. *)
Inductive Download : Type :=
  | Refused (e : JsError)
      (* the handler threw; [errorHandler] answers *)
  | Streamed (res : HttpResponse)
      (* the file was piped to the response *)
  | Uncaught (e : JsError).
      (* [createReadStream] emitted 'error' for a missing file.  The handler
         listens only for 'end', so the error is an uncaught exception: it
         ends the Node process, and the request is never answered *)

Definition is_completed (s : JobState) : bool :=
  match s with completed => true | _ => false end.

Definition disposition (r : ReportResult) : string :=
  "attachment; filename=" +:+ JSON.quote
    +:+ default "undefined" (filename r) +:+ JSON.quote.

(** [router.get('/download/:jobId', ...)] over the file system [fs]:
    the outcome and the files left afterwards ('end' unlinks the file). *)
Definition download (qs : Queues) (fs : gmap string string) (jobId : string)
  : Download * gmap string string :=
  match Queue_getJob (reportQueue qs) jobId with
  | None => (Refused (CustomError "Job not found" 404), fs)
  | Some job =>
      if negb (is_completed (job_state job))
      then (Refused (CustomError "Report not ready yet" 202), fs)
      else
        match returnvalue job with
        | None => (Refused (CustomError "Report file not found" 404), fs)
        | Some result =>
            match truthy (filePath result) with
            | None => (Refused (CustomError "Report file not found" 404), fs)
            | Some path =>
                match fs !! path with
                | None =>
                    (Uncaught (SystemError "ENOENT"
                                 ("no such file or directory, open '" +:+ path +:+ "'")),
                     fs)
                | Some content =>
                    (Streamed
                       {| status := 200;
                          body := FileStream
                                    (default "application/pdf" (truthy (contentType result)))
                                    (disposition result) content |},
                     delete path fs)
                end
            end
        end
  end.

End Reports.

(* ===================================================================== *)
(** ** config/websocket.ts                                                *)
(* ===================================================================== *)

Module WebSocket.

(** A connected socket: who it is, the rooms it joined, and the events
    the server has sent it so far. *)
Record AuthenticatedSocket : Type :=
  { userId : string;
    userRole : string;
    rooms : gset string;
    sent : list (string * json) }.

(** The socket.io server: its connected sockets by id. *)
Record Server : Type := { sockets : gmap nat AuthenticatedSocket }.

(** The module variable [ioInstance]. *)
Definition State : Type := option Server.

Definition deliver (event : string) (payload : json) (s : AuthenticatedSocket)
  : AuthenticatedSocket :=
  {| userId := userId s; userRole := userRole s; rooms := rooms s;
     sent := sent s ++ [(event, payload)] |}.

(** [io.to(room).emit(event, data)]: every socket in the room gets the
    event; nothing is kept for sockets that join later. *)
Definition to_emit (io : Server) (room event : string) (payload : json) : Server :=
  {| sockets :=
       (fun s => if decide (room ∈ rooms s) then deliver event payload s else s)
         <$> sockets io |}.

Definition emit_room (st : State) (room event : string) (payload : json) : State :=
  match st with
  | None => None                                  (* if (!ioInstance) return; *)
  | Some io => Some (to_emit io room event payload)
  end.

Definition emitToUser (st : State) (userId event : string) (payload : json) : State :=
  emit_room st ("user:" +:+ userId) event payload.

Definition emitToRepository (st : State) (repositoryId event : string) (payload : json)
  : State :=
  emit_room st ("repository:" +:+ repositoryId) event payload.

Definition emitToPR (st : State) (prId event : string) (payload : json) : State :=
  emit_room st ("pr:" +:+ prId) event payload.

Definition emitToAdmins (st : State) (event : string) (payload : json) : State :=
  emit_room st "admin" event payload.

(** [socket.join(room)] and [socket.leave(room)] of the socket [sid]. *)
Definition join (io : Server) (sid : nat) (room : string) : Server :=
  {| sockets :=
       alter (fun s => {| userId := userId s; userRole := userRole s;
                          rooms := {[room]} ∪ rooms s; sent := sent s |})
             sid (sockets io) |}.

Definition leave (io : Server) (sid : nat) (room : string) : Server :=
  {| sockets :=
       alter (fun s => {| userId := userId s; userRole := userRole s;
                          rooms := rooms s ∖ {[room]}; sent := sent s |})
             sid (sockets io) |}.

(** The ['connection'] handler: the socket joins its user room, and the
    admin room when its role is admin. *)
Definition connection (io : Server) (sid : nat) (user role : string) : Server :=
  {| sockets :=
       <[sid := {| userId := user; userRole := role;
                   rooms := if String.eqb role "admin"
                            then {["user:" +:+ user; "admin"]}
                            else {["user:" +:+ user]};
                   sent := [] |}]> (sockets io) |}.

(** The sockets that are in a room. *)
Definition members (io : Server) (room : string) : gmap nat AuthenticatedSocket :=
  filter (fun kv => room ∈ rooms (snd kv)) (sockets io).

(** Everything sent to any socket so far. *)
Definition all_sent (st : State) : list (nat * list (string * json)) :=
  match st with
  | None => []
  | Some io => map_to_list (sent <$> sockets io)
  end.

End WebSocket.

(* ===================================================================== *)
(** ** Sample data                                                        *)
(* ===================================================================== *)

Module Sample.

Definition repository : string := "123e4567-e89b-12d3-a456-426614174000".

Definition secret : string := "s3cr3t".

Definition env_with_secrets : ProcessEnv :=
  {| GITHUB_WEBHOOK_SECRET := Some secret;
     GITLAB_WEBHOOK_SECRET := Some secret;
     NODE_ENV := Some "production" |}.

Definition env_without_secrets : ProcessEnv :=
  {| GITHUB_WEBHOOK_SECRET := None;
     GITLAB_WEBHOOK_SECRET := None;
     NODE_ENV := Some "production" |}.

Definition q : string := JSON.quote.

(** [{"action":"opened","number":7}], as GitHub would send it. *)
Definition compact_text : string :=
  "{" +:+ q +:+ "action" +:+ q +:+ ":" +:+ q +:+ "opened" +:+ q +:+ ","
      +:+ q +:+ "number" +:+ q +:+ ":7}".

(** The same document with a space after each colon and comma. *)
Definition spaced_text : string :=
  "{" +:+ q +:+ "action" +:+ q +:+ ": " +:+ q +:+ "opened" +:+ q +:+ ", "
      +:+ q +:+ "number" +:+ q +:+ ": 7}".

(** [compact_text] with its last digit changed: one byte differs. *)
Definition flipped_text : string :=
  "{" +:+ q +:+ "action" +:+ q +:+ ":" +:+ q +:+ "opened" +:+ q +:+ ","
      +:+ q +:+ "number" +:+ q +:+ ":6}".

Definition opened (n : Z) : json :=
  JObject [("action", JString "opened"); ("number", JNumber n)].

Definition github_request (raw : string) (doc : json) (signature : option string)
  : WebhookRequest :=
  {| param_repositoryId := repository;
     headers :=
       match signature with
       | Some v => <["x-hub-signature-256" := v]> {["x-github-event" := "pull_request"]}
       | None => {["x-github-event" := "pull_request"]}
       end;
     rawBody := raw;
     req_body := doc |}.

(** A compact body, signed over its bytes. *)
Definition signed_request : WebhookRequest :=
  github_request compact_text (opened 7)
    (Some (GitHubService.expectedSignature compact_text secret)).

(** The signed body with one byte flipped, under the old signature. *)
Definition flipped_request : WebhookRequest :=
  github_request flipped_text (opened 6)
    (Some (GitHubService.expectedSignature compact_text secret)).

(** A body with white space, signed over its bytes. *)
Definition spaced_request : WebhookRequest :=
  github_request spaced_text (opened 7)
    (Some (GitHubService.expectedSignature spaced_text secret)).

(** A signature of the wrong length, and no signature header at all. *)
Definition short_signature_request : WebhookRequest :=
  github_request compact_text (opened 7) (Some "sha256=deadbeef").

Definition unsigned_request : WebhookRequest :=
  github_request compact_text (opened 7) None.

(** A delivery to a path whose repository id is no UUID. *)
Definition misaddressed_request : WebhookRequest :=
  {| param_repositoryId := "42";
     headers := {["x-github-event" := "pull_request"]};
     rawBody := compact_text;
     req_body := opened 7 |}.

(** The result of a lint run that reports nothing. *)
Definition clean_result (path : string) : ESLintService.ESLintResult :=
  {| ESLintService.filePath := path;
     ESLintService.messages := [];
     ESLintService.errorCount := 0;
     ESLintService.warningCount := 0;
     ESLintService.fixableErrorCount := 0;
     ESLintService.fixableWarningCount := 0 |}.

(** A configuration with the one rule that removes an extra semicolon. *)
Definition semi_config : ESLintService.ESLintConfig :=
  {| ESLintService.rules := [("no-extra-semi", "error")] |}.


(** An engine for files that leave nothing to report: in fix mode, for a
    file whose only problem the rules fix, the result is clean, and the
    file is as it was. *)
Definition clean_engine : ESLintService.LintEngine :=
  fun _ _ fs path =>
    match fs !! path with
    | Some _ => Returned [clean_result path]
    | None => Thrown (PlainError "No files matching the pattern were found")
    end.

Definition tempDir : string := "/tmp/code-reviewer-eslint".

(** A report queue with one finished job whose file is on disk. *)
Definition report_path : string := "/tmp/reports/review-7.pdf".

Definition finished_job : Job :=
  {| job_id := "7";
     job_name := "generate-pdf-report";
     data := OtherData (JObject [("type", JString "review"); ("format", JString "pdf")]);
     opts := defaultJobOptions (reportQueue setupQueues);
     job_state := completed;
     progress := 100;
     returnvalue := Some {| filePath := Some report_path;
                            contentType := Some "application/pdf";
                            filename := Some "review-7.pdf" |};
     failedReason := None |}.

Definition queues_with_report : Queues :=
  {| analysisQueue := analysisQueue setupQueues;
     webhookQueue := webhookQueue setupQueues;
     reportQueue :=
       {| queue_name := "report generation";
          defaultJobOptions := defaultJobOptions (reportQueue setupQueues);
          next_id := 8;
          jobs := [finished_job] |} |}.

Definition disk : gmap string string := {[ report_path := "%PDF-1.4 review 7" ]}.

(** A server with one connected user who joined no repository room. *)
Definition one_user : WebSocket.Server :=
  WebSocket.connection {| WebSocket.sockets := ∅ |} 1%nat "alice" "user".

End Sample.

(* ===================================================================== *)
(** ** Vocabulary of the statements                                       *)
(* ===================================================================== *)

(** The length of the string a provider's signature is compared with:
    [sha256=] and 64 hex digits for GitHub, the 64 hex digits for GitLab. *)
Definition expected_length (p : Provider) : nat :=
  match p with github => 71%nat | gitlab => 64%nat end.

Definition signature_prefix (p : Provider) : string :=
  match p with github => "sha256=" | gitlab => "" end.

(** The job an accepting route queues, and the whole outcome of accepting. *)
Definition webhook_job (p : Provider) (qs : Queues) (req : WebhookRequest) : Job :=
  {| job_id := pretty (next_id (webhookQueue qs));
     job_name := job_name_of p;
     data := WebhookData (param_repositoryId req) (headers req !! event_header p)
               (req_body req) p false;
     opts := merge_options (defaultJobOptions (webhookQueue qs)) webhook_job_options;
     job_state := waiting; progress := 0; returnvalue := None; failedReason := None |}.

Definition accepted (p : Provider) (qs : Queues) (req : WebhookRequest)
  : completion HttpResponse * Queues :=
  (Returned {| status := 200; body := MessageJson queued_message |},
   with_webhookQueue qs
     (Queue_add (webhookQueue qs) (job_name_of p)
        (WebhookData (param_repositoryId req) (headers req !! event_header p)
           (req_body req) p false)
        webhook_job_options)).

Definition accepts (p : Provider) (env : ProcessEnv) (qs : Queues) (req : WebhookRequest)
  : Prop :=
  fst (receive p env qs req) = {| status := 200; body := MessageJson queued_message |}.

(** What [errorHandler] answers to an error that carries no status code. *)
Definition answered_500 (env : ProcessEnv) (e : JsError) : HttpResponse :=
  {| status := 500;
     body := ErrorJson (if isDevelopment env then error_message e
                        else "Internal Server Error") |}.

(** The same request with another signature header, or with none. *)
Definition with_signature (p : Provider) (sig : option string) (req : WebhookRequest)
  : WebhookRequest :=
  {| param_repositoryId := param_repositoryId req;
     headers := match sig with
                | Some v => <[signature_header p := v]> (headers req)
                | None => delete (signature_header p) (headers req)
                end;
     rawBody := rawBody req;
     req_body := req_body req |}.

(** The reading under which the signature is checked against the raw body:
    a request whose body was parsed from [rawBody] is accepted exactly when
    its signature header is the expected string over [rawBody]. *)
Definition verifies_raw_body : Prop :=
  forall p env qs req s,
    isUUID (param_repositoryId req) = true ->
    JSON.parse (rawBody req) = Some (req_body req) ->
    truthy (secret_of p env) = Some s ->
    (accepts p env qs req
     <-> headers req !! signature_header p = Some (expected_of p (rawBody req) s)).

(** The three addressed helpers of the fanout, under one name. *)
Inductive Target : Type :=
  | ToUser (userId : string)
  | ToRepository (repositoryId : string)
  | ToPR (prId : string).

Definition room_of (t : Target) : string :=
  match t with
  | ToUser userId => "user:" +:+ userId
  | ToRepository repositoryId => "repository:" +:+ repositoryId
  | ToPR prId => "pr:" +:+ prId
  end.

Definition emitTo (st : WebSocket.State) (t : Target) (event : string) (payload : json)
  : WebSocket.State :=
  match t with
  | ToUser userId => WebSocket.emitToUser st userId event payload
  | ToRepository repositoryId => WebSocket.emitToRepository st repositoryId event payload
  | ToPR prId => WebSocket.emitToPR st prId event payload
  end.



(** The answer to a job-status query for an id that is not stored. *)
Definition job_not_found (env : ProcessEnv) : HttpResponse :=
  {| status := 404;
     body := ErrorJson (if isDevelopment env then "Job not found"
                        else "Internal Server Error") |}.






(* ===================================================================== *)
(** ** services/gitlabService.ts and services/githubService.ts: the       *)
(**    requests that register a webhook                                   *)
(* ===================================================================== *)

(** What a service method hands to its [axios] instance. *)
Record ApiRequest : Type :=
  { api_method : string;
    api_url : string;
    api_body : json }.

Module GitLabHooks.

(** [createWebhook(projectId, webhookUrl, secret)]: the POST it sends. *)
Definition createWebhook (projectId : Z) (webhookUrl secret : string) : ApiRequest :=
  {| api_method := "POST";
     api_url := "/projects/" +:+ pretty projectId +:+ "/hooks";
     api_body :=
       JObject [ ("url", JString webhookUrl);
                 ("merge_requests_events", JBool true);
                 ("push_events", JBool true);
                 ("token", JString secret) ] |}.

End GitLabHooks.

Module GitHubHooks.

(** [createWebhook(owner, repo, webhookUrl, secret)]: the POST it sends. *)
Definition createWebhook (owner repo webhookUrl secret : string) : ApiRequest :=
  {| api_method := "POST";
     api_url := "/repos/" +:+ owner +:+ "/" +:+ repo +:+ "/hooks";
     api_body :=
       JObject [ ("name", JString "web");
                 ("active", JBool true);
                 ("events", JArray [JString "pull_request"; JString "push"]);
                 ("config",
                  JObject [ ("url", JString webhookUrl);
                            ("content_type", JString "json");
                            ("secret", JString secret) ]) ] |}.

End GitHubHooks.

(** A string member of a JSON object, as [body.key] reads it. *)
Definition string_member (key : string) (doc : json) : option string :=
  match doc with
  | JObject members =>
      match List.find (fun kv => String.eqb (fst kv) key) members with
      | Some (_, JString s) => Some s
      | _ => None
      end
  | _ => None
  end.

(* ===================================================================== *)
(** ** routes/webhooks.ts: runs of the three routes                       *)
(* ===================================================================== *)

(** One request to the webhook router: a provider's delivery, or a test
    event of an authenticated caller. *)
Inductive WebhookCall : Type :=
  | Deliver (p : Provider) (req : WebhookRequest)
  | TestEvent (repositoryId : string) (p : Provider) (eventType : string).

Definition serve_webhook (env : ProcessEnv) (qs : Queues) (c : WebhookCall)
  : HttpResponse * Queues :=
  match c with
  | Deliver p req => receive p env qs req
  | TestEvent repositoryId p eventType =>
      asyncHandler env (test_webhook qs repositoryId p eventType)
  end.

(** The requests served one after the other: the answers, in order, and
    the queues at the end. *)
Fixpoint serve_webhooks (env : ProcessEnv) (qs : Queues) (cs : list WebhookCall)
  : list HttpResponse * Queues :=
  match cs with
  | [] => ([], qs)
  | c :: rest =>
      let '(res, qs1) := serve_webhook env qs c in
      let '(answers, qs2) := serve_webhooks env qs1 rest in
      (res :: answers, qs2)
  end.

Definition answered_200 (res : HttpResponse) : bool := status res =? 200.

(** The [isTest] mark of a job's data. *)
Definition is_test_job (j : Job) : bool :=
  match data j with
  | WebhookData _ _ _ _ isTest => isTest
  | OtherData _ => false
  end.

(** A job as [queue.add] leaves it: waiting, nothing done yet. *)
Definition untouched (j : Job) : Prop :=
  job_state j = waiting /\ progress j = 0
  /\ returnvalue j = None /\ failedReason j = None.

(* ===================================================================== *)
(** ** routes/reviews.ts and routes/reports.ts: the routes that queue work *)
(* ===================================================================== *)

(** [body.key] of a parsed request body: [None] is [undefined]. *)
Definition member (key : string) (doc : json) : option json :=
  match doc with
  | JObject members => option_map snd (List.find (fun kv => String.eqb (fst kv) key) members)
  | _ => None
  end.

(** The express-validator checks the routes put on body fields. *)
Inductive BodyCheck : Type :=
  | isUUID_check
  | isIn_check (allowed : list string)
  | isObject_check
  | isBoolean_check
  | isArray_check.

Module Submissions.

(** What the queueing routes answer: [{message, jobId}] and, for reports,
    [statusUrl]. *)
Record Started : Type :=
  { started_status : Z;
    started_message : string;
    started_jobId : string;
    statusUrl : option string }.

(** The job that [queue.add(name, data, opts)] creates and returns; it is
    the one [Queue_add] puts at the end of the queue. *)
Definition added_job (q : Queue) (name : string) (d : JobData) (o : AddOptions) : Job :=
  {| job_id := pretty (next_id q); job_name := name; data := d;
     opts := merge_options (defaultJobOptions q) o;
     job_state := waiting; progress := 0;
     returnvalue := None; failedReason := None |}.

Section Routes.

(** How express-validator judges a present body value against a check; it
    is the library's, and every check here fails on an absent field unless
    the chain says [optional()]. *)
Variable passes : BodyCheck -> json -> bool.

Definition required (c : BodyCheck) (v : option json) : bool :=
  match v with
  | Some x => passes c x
  | None => false
  end.

Definition optional (c : BodyCheck) (v : option json) : bool :=
  match v with
  | Some x => passes c x
  | None => true
  end.

(** A field of the job data: left out when the value is [undefined]. *)
Definition field (key : string) (v : option json) : list (string * json) :=
  match v with
  | Some x => [(key, x)]
  | None => []
  end.

Definition with_analysisQueue (qs : Queues) (q : Queue) : Queues :=
  {| analysisQueue := q; webhookQueue := webhookQueue qs; reportQueue := reportQueue qs |}.

Definition with_reportQueue (qs : Queues) (q : Queue) : Queues :=
  {| analysisQueue := analysisQueue qs; webhookQueue := webhookQueue qs; reportQueue := q |}.

Definition analysis_job_options : AddOptions :=
  {| add_attempts := Some 3;
     add_backoff := Some {| backoff_type := exponential; delay := 2000 |} |}.

Definition report_job_options : AddOptions :=
  {| add_attempts := Some 2;
     add_backoff := Some {| backoff_type := fixed; delay := 5000 |} |}.

(** [router.post('/', ...)] of the reviews router, for the authenticated
    user [userId]. *)
Definition create_review (qs : Queues) (userId : string) (body : json)
  : completion Started * Queues :=
  if negb (required isUUID_check (member "pullRequestId" body)
           && required (isIn_check ["sonarqube"; "eslint"; "security"; "custom"])
                (member "analysisType" body)
           && optional isObject_check (member "configuration" body))
  then (Thrown (CustomError "Invalid request data" 400), qs)
  else
    let d := OtherData (JObject (field "pullRequestId" (member "pullRequestId" body)
                                 ++ field "analysisType" (member "analysisType" body)
                                 ++ field "configuration" (member "configuration" body)
                                 ++ [("userId", JString userId)])) in
    let job := added_job (analysisQueue qs) "analyze-pull-request" d analysis_job_options in
    (Returned {| started_status := 201; started_message := "Review started";
                 started_jobId := job_id job; statusUrl := None |},
     with_analysisQueue qs
       (Queue_add (analysisQueue qs) "analyze-pull-request" d analysis_job_options)).

(** The answer of the three report routes once the job is queued. *)
Definition report_started (qs : Queues) (name : string) (d : json)
  : completion Started * Queues :=
  let job := added_job (reportQueue qs) name (OtherData d) report_job_options in
  (Returned {| started_status := 202; started_message := "Report generation started";
               started_jobId := job_id job;
               statusUrl := Some ("/api/reports/jobs/" +:+ job_id job) |},
   with_reportQueue qs (Queue_add (reportQueue qs) name (OtherData d) report_job_options)).

(** An option of the request body, [true] when it is not given. *)
Definition flag (key : string) (body : json) : string * json :=
  (key, default (JBool true) (member key body)).

(** [router.post('/review/:reviewId/pdf', ...)]. *)
Definition review_pdf (qs : Queues) (userId reviewId : string) (body : json)
  : completion Started * Queues :=
  if negb (isUUID reviewId
           && optional isBoolean_check (member "includeIssues" body)
           && optional isBoolean_check (member "includeCharts" body)
           && optional isBoolean_check (member "includeRecommendations" body))
  then (Thrown (CustomError "Invalid request data" 400), qs)
  else
    report_started qs "generate-pdf-report"
      (JObject [ ("reviewId", JString reviewId);
                 ("type", JString "review");
                 ("format", JString "pdf");
                 ("options", JObject [ flag "includeIssues" body;
                                       flag "includeCharts" body;
                                       flag "includeRecommendations" body ]);
                 ("userId", JString userId) ]).

Definition timeRanges : list string := ["24h"; "7d"; "30d"; "90d"].

(** [router.post('/repository/:repositoryId/pdf', ...)]. *)
Definition repository_pdf (qs : Queues) (userId repositoryId : string) (body : json)
  : completion Started * Queues :=
  if negb (isUUID repositoryId
           && optional (isIn_check timeRanges) (member "timeRange" body)
           && optional isBoolean_check (member "includeReviews" body)
           && optional isBoolean_check (member "includeIssues" body)
           && optional isBoolean_check (member "includeTrends" body))
  then (Thrown (CustomError "Invalid request data" 400), qs)
  else
    report_started qs "generate-pdf-report"
      (JObject [ ("repositoryId", JString repositoryId);
                 ("type", JString "repository");
                 ("format", JString "pdf");
                 ("timeRange", default (JString "30d") (member "timeRange" body));
                 ("options", JObject [ flag "includeReviews" body;
                                       flag "includeIssues" body;
                                       flag "includeTrends" body ]);
                 ("userId", JString userId) ]).

(** [router.post('/issues/csv', ...)]. *)
Definition issues_csv (qs : Queues) (userId : string) (body : json)
  : completion Started * Queues :=
  if negb (optional isArray_check (member "repositoryIds" body)
           && optional (isIn_check timeRanges) (member "timeRange" body)
           && optional (isIn_check ["info"; "minor"; "major"; "critical"; "blocker"])
                (member "severity" body)
           && optional (isIn_check ["bug"; "vulnerability"; "code_smell";
                                    "security_hotspot"; "style"])
                (member "type" body))
  then (Thrown (CustomError "Invalid request data" 400), qs)
  else
    report_started qs "generate-csv-report"
      (JObject [ ("type", JString "issues");
                 ("format", JString "csv");
                 ("filters",
                  JObject ([ ("repositoryIds", default (JArray []) (member "repositoryIds" body));
                             ("timeRange", default (JString "30d") (member "timeRange" body)) ]
                           ++ field "severity" (member "severity" body)
                           ++ field "type" (member "type" body)));
                 ("userId", JString userId) ]).

(** One request to a queueing route. *)
Inductive Submission : Type :=
  | CreateReview (body : json)
  | ReviewPdf (reviewId : string) (body : json)
  | RepositoryPdf (repositoryId : string) (body : json)
  | IssuesCsv (body : json).

Definition submit (qs : Queues) (userId : string) (s : Submission)
  : completion Started * Queues :=
  match s with
  | CreateReview body => create_review qs userId body
  | ReviewPdf reviewId body => review_pdf qs userId reviewId body
  | RepositoryPdf repositoryId body => repository_pdf qs userId repositoryId body
  | IssuesCsv body => issues_csv qs userId body
  end.

(** The queue a submission is meant for. *)
Definition queue_for (s : Submission) : QueueKind :=
  match s with
  | CreateReview _ => analysis
  | _ => report
  end.

End Routes.

End Submissions.

(** What the download route sends back, if anything: the stream, or the
    answer of [errorHandler]; a failed read stream sends nothing. *)
Definition download_answer (env : ProcessEnv) (d : Reports.Download) : option HttpResponse :=
  match d with
  | Reports.Refused e => Some (errorHandler env e)
  | Reports.Streamed res => Some res
  | Reports.Uncaught _ => None
  end.

(* ===================================================================== *)
(** ** middleware/auth.ts                                                 *)
(* ===================================================================== *)

Module AuthMiddleware.

(** [req.user], the claims of a verified token. *)
Record User : Type :=
  { user_id : string;
    user_email : string;
    user_name : string;
    user_role : string }.

(** [s.split(sep)] for a one-character separator. *)
Fixpoint split (sep : ascii) (s : string) : list string :=
  match s with
  | EmptyString => [EmptyString]
  | String c rest =>
      if Ascii.eqb c sep then EmptyString :: split sep rest
      else match split sep rest with
           | first :: others => String c first :: others
           | [] => [String c EmptyString]
           end
  end.

Definition space : ascii := ascii_of_N 32.

(** [authHeader && authHeader.split(' ')[1]], when it is truthy. *)
Definition header_token (authHeader : option string) : option string :=
  match authHeader with
  | Some h => truthy (nth_error (split space h) 1)
  | None => None
  end.

Section Jwt.

(** [jwt.verify(token, process.env.JWT_SECRET)]: the decoded claims, or
    [None] when it throws. *)
Variable verify : string -> option User.

(** [authenticateToken]: the user it puts in [req.user] before calling
    [next()], or what it throws. *)
Definition authenticateToken (authHeader : option string) : completion User :=
  match header_token authHeader with
  | None => Thrown (CustomError "Access token required" 401)
  | Some token =>
      match verify token with
      | Some decoded => Returned decoded
      | None => Thrown (CustomError "Invalid or expired token" 403)
      end
  end.

(** [optionalAuth]: [req.user] when [next()] is called, which is always. *)
Definition optionalAuth (authHeader : option string) : option User :=
  match header_token authHeader with
  | None => None
  | Some token => verify token
  end.

(** [requireRole(roles)] on a request whose [req.user] is [user]. *)
Definition requireRole (roles : list string) (user : option User) : completion User :=
  match user with
  | None => Thrown (CustomError "Authentication required" 401)
  | Some u =>
      if existsb (String.eqb (user_role u)) roles
      then Returned u
      else Thrown (CustomError "Insufficient permissions" 403)
  end.

(** A route behind [authenticateToken, requireRole(roles)]. *)
Definition guarded (roles : list string) (authHeader : option string) : completion User :=
  match authenticateToken authHeader with
  | Thrown e => Thrown e
  | Returned u => requireRole roles (Some u)
  end.

End Jwt.

(** No space among the characters of a string. *)
Definition no_space (s : string) : bool :=
  forallb (fun c => negb (Ascii.eqb c space)) (list_ascii_of_string s).

(** The text after the token, if any: it starts with a space. *)
Definition after_token (rest : option string) : string :=
  match rest with
  | Some r => String space r
  | None => EmptyString
  end.

End AuthMiddleware.

(* ===================================================================== *)
(** ** config/websocket.ts: the handshake and the client events           *)
(* ===================================================================== *)

Module SocketEvents.

(** [s.replace(pattern, '')] for a string pattern: the first occurrence is
    removed. *)
Fixpoint remove_first (pattern s : string) : string :=
  if String.prefix pattern s
  then String.substring (String.length pattern) (String.length s) s
  else match s with
       | EmptyString => EmptyString
       | String c rest => String c (remove_first pattern rest)
       end.

(** [handshake.auth?.token || handshake.headers?.authorization?.replace('Bearer ', '')],
    when it is truthy. *)
Definition handshake_token (auth_token authorization : option string) : option string :=
  match truthy auth_token with
  | Some t => Some t
  | None => truthy (option_map (remove_first "Bearer ") authorization)
  end.

(** How the [io.use] middleware ends: [next(new Error(message))], or
    [next()] with the socket's [userId] and [userRole] set. *)
Inductive Handshake : Type :=
  | refused (message : string)
  | admitted (user : AuthMiddleware.User).

Definition handshake (verify : string -> option AuthMiddleware.User)
    (auth_token authorization : option string) : Handshake :=
  match handshake_token auth_token authorization with
  | None => refused "Authentication error: No token provided"
  | Some token =>
      match verify token with
      | Some decoded => admitted decoded
      | None => refused "Authentication error: Invalid token"
      end
  end.

(** The events a connected client sends. *)
Inductive ClientEvent : Type :=
  | subscribe_repository (repositoryId : string)
  | unsubscribe_repository (repositoryId : string)
  | subscribe_pr (prId : string)
  | unsubscribe_pr (prId : string).

(** The handlers that ['connection'] installs on the socket [sid]. *)
Definition on_event (io : WebSocket.Server) (sid : nat) (ev : ClientEvent)
  : WebSocket.Server :=
  match ev with
  | subscribe_repository repositoryId =>
      WebSocket.join io sid ("repository:" +:+ repositoryId)
  | unsubscribe_repository repositoryId =>
      WebSocket.leave io sid ("repository:" +:+ repositoryId)
  | subscribe_pr prId => WebSocket.join io sid ("pr:" +:+ prId)
  | unsubscribe_pr prId => WebSocket.leave io sid ("pr:" +:+ prId)
  end.

(** What happens to the server: an admitted socket connects, a connected
    socket sends an event, a socket disconnects (socket.io then drops it
    from every room; the handler only logs). *)
Inductive Step : Type :=
  | Connected (sid : nat) (user : AuthMiddleware.User)
  | Received (sid : nat) (ev : ClientEvent)
  | Disconnected (sid : nat).

Definition step (io : WebSocket.Server) (s : Step) : WebSocket.Server :=
  match s with
  | Connected sid user =>
      WebSocket.connection io sid (AuthMiddleware.user_id user) (AuthMiddleware.user_role user)
  | Received sid ev => on_event io sid ev
  | Disconnected sid => {| WebSocket.sockets := delete sid (WebSocket.sockets io) |}
  end.

Definition started : WebSocket.Server := {| WebSocket.sockets := ∅ |}.

Definition run (steps : list Step) : WebSocket.Server := fold_left step steps started.

(** What a client can subscribe to, with its room and its two events. *)
Inductive Topic : Type :=
  | Repository (repositoryId : string)
  | PullRequest (prId : string).

Definition topic_room (t : Topic) : string :=
  match t with
  | Repository repositoryId => "repository:" +:+ repositoryId
  | PullRequest prId => "pr:" +:+ prId
  end.

Definition subscribe (t : Topic) : ClientEvent :=
  match t with
  | Repository repositoryId => subscribe_repository repositoryId
  | PullRequest prId => subscribe_pr prId
  end.

Definition unsubscribe (t : Topic) : ClientEvent :=
  match t with
  | Repository repositoryId => unsubscribe_repository repositoryId
  | PullRequest prId => unsubscribe_pr prId
  end.

(** The sockets of the server behind [ioInstance], none when it is unset. *)
Definition sockets_of (st : WebSocket.State) : gmap nat WebSocket.AuthenticatedSocket :=
  match st with
  | Some io => WebSocket.sockets io
  | None => ∅
  end.

(** A socket is in its own user room and in no other user's, and in the
    admin room exactly when its role is admin. *)
Definition in_own_rooms (s : WebSocket.AuthenticatedSocket) : Prop :=
  "user:" +:+ WebSocket.userId s ∈ WebSocket.rooms s
  /\ (forall u, "user:" +:+ u ∈ WebSocket.rooms s -> u = WebSocket.userId s)
  /\ ("admin" ∈ WebSocket.rooms s <-> WebSocket.userRole s = "admin").

End SocketEvents.

(* ===================================================================== *)
(** ** services/eslintService.ts: the other methods of the service        *)
(* ===================================================================== *)

Module LintRuns.

Import ESLintService.

(** A file handed to [analyzeMultipleFiles]. *)
Record SourceFile : Type := { content : string; filename : string }.

(** What [validateConfig] returns. *)
Record Validation : Type := { valid : bool; errors : list string }.

Section Service.

(** The engine on one file, as for [fixCode]: constructing it with the
    options and linting the file, which throws or returns. *)
Variable lintFiles : LintEngine.

(** The engine on several files at once. *)
Variable lintAll :
  ESLintConfig -> bool -> gmap string string -> list string -> completion (list ESLintResult).

(** [new ESLint({useEslintrc: false, baseConfig: config})] alone: the error
    it throws for a configuration it refuses, if any. *)
Variable construct : ESLintConfig -> option JsError.

Variable writeError : WriteError.

Variable tempDir : string.

(** [analyzeCode(sourceCode, filename, customConfig?)]: not in fix mode;
    the temporary file is removed only after the lint has returned. *)
Definition analyzeCode (fs : gmap string string) (sourceCode name : string)
    (customConfig : option ESLintConfig)
  : completion (list ESLintResult) * gmap string string :=
  let tempFilePath := path_join tempDir name in
  match writeFileSync writeError fs tempFilePath sourceCode with
  | Thrown e => (Thrown e, fs)
  | Returned fs1 =>
      match lintFiles (default getDefaultConfig customConfig) false fs1 tempFilePath with
      | Thrown e => (Thrown e, fs1)
      | Returned results => (Returned results, delete tempFilePath fs1)
      end
  end.

Definition temp_path (f : SourceFile) : string := path_join tempDir (filename f).

(** The [for] loop that writes the files, one after the other, until a
    write throws: the error, if any, and the disk as it is then. *)
Fixpoint write_all (fs : gmap string string) (files : list SourceFile)
  : option JsError * gmap string string :=
  match files with
  | [] => (None, fs)
  | f :: rest =>
      match writeFileSync writeError fs (temp_path f) (content f) with
      | Thrown e => (Some e, fs)
      | Returned fs1 => write_all fs1 rest
      end
  end.

(** [tempFiles.forEach(p => { if (fs.existsSync(p)) fs.unlinkSync(p) })]. *)
Definition unlink_existing (fs : gmap string string) (paths : list string)
  : gmap string string :=
  fold_left (fun acc p => match acc !! p with
                          | Some _ => delete p acc
                          | None => acc
                          end) paths fs.

(** [analyzeMultipleFiles(files, customConfig?)]. *)
Definition analyzeMultipleFiles (fs : gmap string string) (files : list SourceFile)
    (customConfig : option ESLintConfig)
  : completion (list ESLintResult) * gmap string string :=
  let filePaths := map temp_path files in
  match write_all fs files with
  | (Some e, fs1) => (Thrown e, fs1)
  | (None, fs1) =>
      match lintAll (default getDefaultConfig customConfig) false fs1 filePaths with
      | Thrown e => (Thrown e, fs1)
      | Returned results => (Returned results, unlink_existing fs1 filePaths)
      end
  end.

Definition config_test_path : string := path_join tempDir "config-test.js".

Definition test_file : string := "// Test file for config validation".

(** [validateConfig(config)]: the outer [catch] answers what the
    constructor or the write throws, the inner one, after unlinking the
    test file, what the engine throws. *)
Definition validateConfig (fs : gmap string string) (config : ESLintConfig)
  : Validation * gmap string string :=
  match construct config with
  | Some e => ({| valid := false; errors := [error_message e] |}, fs)
  | None =>
      match writeFileSync writeError fs config_test_path test_file with
      | Thrown e => ({| valid := false; errors := [error_message e] |}, fs)
      | Returned fs1 =>
          match lintFiles config false fs1 config_test_path with
          | Returned _ => ({| valid := true; errors := [] |}, delete config_test_path fs1)
          | Thrown e =>
              ({| valid := false; errors := [error_message e] |},
               delete config_test_path fs1)
          end
      end
  end.

End Service.


(** Adding two summaries field by field. *)
Definition add_summary (a b : Summary) : Summary :=
  {| totalFiles := totalFiles a + totalFiles b;
     totalErrors := totalErrors a + totalErrors b;
     totalWarnings := totalWarnings a + totalWarnings b;
     totalFixableErrors := totalFixableErrors a + totalFixableErrors b;
     totalFixableWarnings := totalFixableWarnings a + totalFixableWarnings b |}.

End LintRuns.

(* ===================================================================== *)
(** ** routes/reviews.ts: the paginated list                              *)
(* ===================================================================== *)

Module Listing.

Definition code (c : ascii) : Z := Z.of_N (N_of_ascii c).

Definition digit_value (c : ascii) : option Z :=
  if (48 <=? code c) && (code c <=? 57) then Some (code c - 48) else None.

Definition hex_value (c : ascii) : option Z :=
  if (48 <=? code c) && (code c <=? 57) then Some (code c - 48)
  else if (97 <=? code c) && (code c <=? 102) then Some (code c - 87)
  else if (65 <=? code c) && (code c <=? 70) then Some (code c - 55)
  else None.

Definition is_digit (c : ascii) : bool :=
  match digit_value c with Some _ => true | None => false end.

(** The white space [parseInt] skips, among the one-byte characters. *)
Definition is_white (c : ascii) : bool :=
  (9 <=? code c) && (code c <=? 13) || (code c =? 32).

Fixpoint skip_white (cs : list ascii) : list ascii :=
  match cs with
  | c :: rest => if is_white c then skip_white rest else cs
  | [] => []
  end.

(** The value of the longest prefix of digits, [None] (NaN) when the first
    character is no digit. *)
Fixpoint digits_prefix (radix : Z) (value_of : ascii -> option Z)
    (seen : option Z) (cs : list ascii) : option Z :=
  match cs with
  | c :: rest =>
      match value_of c with
      | Some d => digits_prefix radix value_of (Some (radix * default 0 seen + d)) rest
      | None => seen
      end
  | [] => seen
  end.

Definition magnitude (cs : list ascii) : option Z :=
  match cs with
  | zero :: x :: rest =>
      if (code zero =? 48) && ((code x =? 120) || (code x =? 88))
      then digits_prefix 16 hex_value None rest
      else digits_prefix 10 digit_value None cs
  | _ => digits_prefix 10 digit_value None cs
  end.

(** The integer [parseInt] reads, before it becomes a Number. *)
Definition parsed_integer (s : string) : option Z :=
  match skip_white (list_ascii_of_string s) with
  | c :: rest =>
      if code c =? 45 then option_map Z.opp (magnitude rest)
      else if code c =? 43 then magnitude rest
      else magnitude (c :: rest)
  | [] => None
  end.

(** [parseInt(s)] without a radix: NaN when no digit can be read,
    otherwise the Number nearest to the integer read, as V8 computes it. *)
Definition parseInt (s : string) : number :=
  match parsed_integer s with
  | Some n => Number.of_integer n
  | None => NaN
  end.

Definition decimal_value (digits : list ascii) : Z :=
  fold_left (fun acc c => 10 * acc + (code c - 48)) digits 0.

(** The sign and the digits of a string of the shape [^[-+]?[0-9]+$]. *)
Definition sign_and_digits (s : string) : option (Z * list ascii) :=
  match list_ascii_of_string s with
  | c :: rest =>
      let '(sign, digits) :=
        if code c =? 45 then (-1, rest)
        else if code c =? 43 then (1, rest)
        else (1, c :: rest) in
      match digits with
      | [] => None
      | _ :: _ => if forallb is_digit digits then Some (sign, digits) else None
      end
  | [] => None
  end.

(** [Number(str)] for a string of that shape. *)
Definition to_number (s : string) : number :=
  match sign_and_digits s with
  | Some (sign, digits) => Number.of_integer (sign * decimal_value digits)
  | None => NaN
  end.

(** validator.js [isInt(str, {min, max})]: the shape, then [str >= min] and
    [str <= max], which compare the Number the string converts to. *)
Definition isInt (min max : option Z) (s : string) : bool :=
  match sign_and_digits s with
  | Some _ =>
      match min with Some lo => Number.leb (Num lo) (to_number s) | None => true end
      && match max with Some hi => Number.leb (to_number s) (Num hi) | None => true end
  | None => false
  end.

Definition if_present (check : string -> bool) (v : option string) : bool :=
  match v with
  | Some s => check s
  | None => true
  end.

Record ReviewsQuery : Type :=
  { query_page : option string;
    query_limit : option string;
    query_status : option string;
    query_repositoryId : option string }.

(** [pagination] of the answer.  [res.json] sends a Number that is NaN or
    an infinity as [null]. *)
Record Pagination : Type :=
  { page : number;
    limit : number;
    total : Z;
    pages : Z }.

(** [router.get('/', ...)] of the reviews router, for an authenticated
    caller whose query gives each parameter at most once, as a string: the
    [pagination] next to the empty [reviews]. *)
Definition list_reviews (q : ReviewsQuery) : completion Pagination :=
  if negb (if_present (isInt (Some 1) None) (query_page q)
           && if_present (isInt (Some 1) (Some 100)) (query_limit q)
           && Reviews.isIn ["pending"; "in_progress"; "completed"; "failed"] (query_status q)
           && if_present isUUID (query_repositoryId q))
  then Thrown (CustomError "Invalid query parameters" 400)
  else Returned {| page := parseInt (default "1" (query_page q));
                   limit := parseInt (default "20" (query_limit q));
                   total := 0;
                   pages := 0 |}.

End Listing.

(* ===================================================================== *)
(** ** More sample data                                                   *)
(* ===================================================================== *)

Module Cases.

(** A GitLab delivery that carries the configured secret as its token. *)
Definition gitlab_token_request : WebhookRequest :=
  {| param_repositoryId := Sample.repository;
     headers := <["x-gitlab-token" := Sample.secret]> {["x-gitlab-event" := "Merge Request Hook"]};
     rawBody := Sample.compact_text;
     req_body := Sample.opened 7 |}.

(** A body with a repeated key, keys that are array indices, and an
    integer beyond 2^53: [{"b":1,"10":2,"9":3,"b":9007199254740993}]. *)
Definition keyed_text : string :=
  let q := JSON.quote in
  "{" +:+ q +:+ "b" +:+ q +:+ ":1," +:+ q +:+ "10" +:+ q +:+ ":2,"
      +:+ q +:+ "9" +:+ q +:+ ":3," +:+ q +:+ "b" +:+ q +:+ ":9007199254740993}".

(** A validator that lets every present value through. *)
Definition lenient : BodyCheck -> json -> bool := fun _ _ => true.

(** A verifier that knows one token. *)
Definition alice : AuthMiddleware.User :=
  {| AuthMiddleware.user_id := "user-123";
     AuthMiddleware.user_email := "user@example.com";
     AuthMiddleware.user_name := "testuser";
     AuthMiddleware.user_role := "user" |}.

Definition one_token : string -> option AuthMiddleware.User :=
  fun token => if String.eqb token "tok123" then Some alice else None.

(** An engine on several files that reports nothing for each, and a
    constructor that accepts every configuration. *)
Definition clean_engine_all
  : ESLintService.ESLintConfig -> bool -> gmap string string -> list string
    -> completion (list ESLintService.ESLintResult) :=
  fun _ _ _ paths => Returned (map Sample.clean_result paths).

Definition accepts_all : ESLintService.ESLintConfig -> option JsError := fun _ => None.

(** An engine that returns no result, as when it ignores the file. *)
Definition ignoring_engine : ESLintService.LintEngine := fun _ _ _ _ => Returned [].

(** An engine that throws on every file. *)
Definition failing_engine : ESLintService.LintEngine :=
  fun _ _ _ _ => Thrown (PlainError "Failed to load parser").

End Cases.

(* ===================================================================== *)
(** * Properties                                                          *)
(* ===================================================================== *)

(** ** The hash functions agree with their published test vectors *)

(** FIPS 180-4, "abc". *)
Example sha256_abc :
  Crypto.hex_of_bytes (Crypto.sha256 (Crypto.bytes_of_string "abc"))
  = "ba7816bf8f01cfea414140de5dae2223b00361a396177a9cb410ff61f20015ad".
Proof. vm_compute. reflexivity. Qed.

Example sha256_empty :
  Crypto.hex_of_bytes (Crypto.sha256 [])
  = "e3b0c44298fc1c149afbf4c8996fb92427ae41e4649b934ca495991b7852b855".
Proof. vm_compute. reflexivity. Qed.

(** One hundred bytes "a": two blocks. *)
Example sha256_two_blocks :
  Crypto.hex_of_bytes (Crypto.sha256 (repeat 97 100))
  = "2816597888e4a0d3a36b82b83316ab32680eb8f00f8cd3b904d681246d285a0e".
Proof. vm_compute. reflexivity. Qed.

(** RFC 4231, test case 2. *)
Example hmac_rfc4231_case2 :
  Crypto.hmac_sha256_hex "Jefe" "what do ya want for nothing?"
  = "5bdcc146bf60754e6a042426089575c75a003f089d2739839dec58b964ec3843".
Proof. vm_compute. reflexivity. Qed.

(** A key longer than a block is hashed first. *)
Example hmac_long_key :
  Crypto.hex_of_bytes
    (Crypto.hmac_sha256 (repeat 107 100) (Crypto.bytes_of_string Sample.compact_text))
  = "329ada7ecd4f106413b743f7e3f49b138d774be3408a13e25e570f3fa2ca6605".
Proof. vm_compute. reflexivity. Qed.

Example hmac_compact_text :
  Crypto.hmac_sha256_hex Sample.secret Sample.compact_text
  = "d097e8d9288ef6ae7058bef6e039041a6a4798148f56b3c51dafa77ecfedc010".
Proof. vm_compute. reflexivity. Qed.

Example hmac_spaced_text :
  Crypto.hmac_sha256_hex Sample.secret Sample.spaced_text
  = "9184adec9cc3bcf86437287c99957e4ffbf68e41594466de1de70d2c035aa09c".
Proof. vm_compute. reflexivity. Qed.

(** ** A digest is always 32 bytes, 64 hex digits *)

Lemma compress_length h block : List.length (Crypto.compress h block) = 8%nat.
Proof. reflexivity. Qed.

Lemma absorb_length n : forall h bs,
  List.length h = 8%nat -> List.length (Crypto.absorb n h bs) = 8%nat.
Proof.
  induction n as [|n IH]; intros h bs Hh; simpl.
  - exact Hh.
  - apply IH, compress_length.
Qed.

Lemma flat_map_bytes_length ws :
  List.length (flat_map Crypto.bytes_of_word ws) = (4 * List.length ws)%nat.
Proof. induction ws as [|w ws IH]; simpl; [reflexivity | rewrite IH; lia]. Qed.

Lemma sha256_length msg : List.length (Crypto.sha256 msg) = 32%nat.
Proof.
  unfold Crypto.sha256. rewrite flat_map_bytes_length, absorb_length; reflexivity.
Qed.

Lemma hex_of_bytes_length bs :
  String.length (Crypto.hex_of_bytes bs) = (2 * List.length bs)%nat.
Proof. induction bs as [|b bs IH]; simpl; [reflexivity | rewrite IH; lia]. Qed.

Lemma hmac_sha256_hex_length secret payload :
  String.length (Crypto.hmac_sha256_hex secret payload) = 64%nat.
Proof.
  unfold Crypto.hmac_sha256_hex, Crypto.hmac_sha256.
  rewrite hex_of_bytes_length, sha256_length. reflexivity.
Qed.


Lemma string_app_length (a b : string) :
  String.length (a +:+ b) = (String.length a + String.length b)%nat.
Proof. induction a as [|c a IH]; simpl; [reflexivity | rewrite IH; reflexivity]. Qed.

Lemma expected_of_length p payload secret :
  String.length (expected_of p payload secret) = expected_length p.
Proof.
  destruct p; unfold expected_of, GitHubService.expectedSignature,
    GitLabService.expectedSignature.
  - rewrite string_app_length, hmac_sha256_hex_length. reflexivity.
  - apply hmac_sha256_hex_length.
Qed.

Lemma expected_of_digest p payload secret :
  expected_of p payload secret
  = (match p with github => "sha256=" | gitlab => "" end)
      +:+ Crypto.hmac_sha256_hex secret payload.
Proof. destruct p; reflexivity. Qed.

(** ** [verifyWebhookSignature], case by case *)

Lemma verify_absent p payload secret :
  exists m, verify_of p payload None secret = Thrown (TypeError m).
Proof. destruct p; eexists; reflexivity. Qed.

Lemma verify_other_length p payload given secret :
  String.length given <> expected_length p ->
  exists m, verify_of p payload (Some given) secret = Thrown (RangeError m).
Proof.
  intros Hlen. rewrite <- (expected_of_length p payload secret) in Hlen.
  apply Nat.eqb_neq in Hlen.
  destruct p; eexists; simpl;
    unfold GitHubService.verifyWebhookSignature, GitLabService.verifyWebhookSignature,
      timingSafeEqual; simpl in *; rewrite Hlen; reflexivity.
Qed.

Lemma verify_same_length p payload given secret :
  String.length given = expected_length p ->
  verify_of p payload (Some given) secret
  = Returned (String.eqb given (expected_of p payload secret)).
Proof.
  intros Hlen. rewrite <- (expected_of_length p payload secret) in Hlen.
  apply Nat.eqb_eq in Hlen.
  destruct p; simpl;
    unfold GitHubService.verifyWebhookSignature, GitLabService.verifyWebhookSignature,
      timingSafeEqual; simpl in *; rewrite Hlen; reflexivity.
Qed.

(** ** The webhook routes, case by case *)


Lemma webhook_route_cases p env qs req :
  isUUID (param_repositoryId req) = true ->
  webhook_route p env qs req =
    match truthy (secret_of p env) with
    | None => accepted p qs req
    | Some s =>
        match verify_of p (JSON.stringify (req_body req))
                (headers req !! signature_header p) s with
        | Thrown e => (Thrown e, qs)
        | Returned false => (Thrown (CustomError "Invalid webhook signature" 401), qs)
        | Returned true => accepted p qs req
        end
    end.
Proof.
  intros Hid.
  destruct p; simpl; unfold github_webhook, gitlab_webhook; rewrite Hid; reflexivity.
Qed.

Lemma accepted_enqueues_one p qs req :
  jobs (webhookQueue (snd (accepted p qs req)))
    = (jobs (webhookQueue qs) ++ [webhook_job p qs req])%list
  /\ analysisQueue (snd (accepted p qs req)) = analysisQueue qs
  /\ reportQueue (snd (accepted p qs req)) = reportQueue qs.
Proof. repeat split. Qed.

(** A request whose verification returns [false] is answered 401 and
    nothing is queued. *)
Lemma webhook_false_verification_401 p env qs req s :
  isUUID (param_repositoryId req) = true ->
  truthy (secret_of p env) = Some s ->
  verify_of p (JSON.stringify (req_body req)) (headers req !! signature_header p) s
    = Returned false ->
  status (fst (receive p env qs req)) = 401 /\ snd (receive p env qs req) = qs.
Proof.
  intros Hid Hs Hv. unfold receive.
  rewrite (webhook_route_cases _ _ _ _ Hid), Hs, Hv. split; reflexivity.
Qed.

(** With a secret configured, nothing is queued unless the verification
    returns [true]: not when it returns [false], not when it throws. *)
Lemma webhook_unverified_enqueues_nothing p env qs req s :
  isUUID (param_repositoryId req) = true ->
  truthy (secret_of p env) = Some s ->
  verify_of p (JSON.stringify (req_body req)) (headers req !! signature_header p) s
    <> Returned true ->
  snd (receive p env qs req) = qs.
Proof.
  intros Hid Hs Hv. unfold receive.
  rewrite (webhook_route_cases _ _ _ _ Hid), Hs.
  destruct (verify_of _ _ _ _) as [[|]|e]; [congruence | reflexivity | reflexivity].
Qed.

(** A verified request, or any request when no secret is configured, puts
    exactly one job on the webhook queue and is answered 200. *)
Lemma webhook_verified_enqueues_one p env qs req :
  isUUID (param_repositoryId req) = true ->
  (truthy (secret_of p env) = None
   \/ exists s, truthy (secret_of p env) = Some s
        /\ verify_of p (JSON.stringify (req_body req))
             (headers req !! signature_header p) s = Returned true) ->
  fst (receive p env qs req) = {| status := 200; body := MessageJson queued_message |}
  /\ jobs (webhookQueue (snd (receive p env qs req)))
       = (jobs (webhookQueue qs) ++ [webhook_job p qs req])%list
  /\ analysisQueue (snd (receive p env qs req)) = analysisQueue qs
  /\ reportQueue (snd (receive p env qs req)) = reportQueue qs.
Proof.
  intros Hid Hcase. unfold receive. rewrite (webhook_route_cases _ _ _ _ Hid).
  destruct Hcase as [Hs | (s & Hs & Hv)]; rewrite Hs; [| rewrite Hv];
    repeat split.
Qed.

(** ** Claims about the webhook gateway *)

Lemma event_header_kept p sig req :
  headers (with_signature p sig req) !! event_header p = headers req !! event_header p.
Proof.
  assert (signature_header p <> event_header p) by (destruct p; discriminate).
  destruct sig; simpl; [rewrite lookup_insert_ne | rewrite lookup_delete_ne]; done.
Qed.

Lemma signature_header_set p sig req :
  headers (with_signature p sig req) !! signature_header p = sig.
Proof.
  destruct sig; simpl; [apply lookup_insert_eq | apply lookup_delete_eq].
Qed.

(** C1, at a request the gateway can receive: a GitHub delivery for a valid
    repository id, with the secret configured and a signature header that
    is not a digest of the right length.  The route does not answer 401 for
    the invalid signature: [timingSafeEqual] throws, the error carries no
    status code, and the sender gets 500.  (No job is queued.) *)
Theorem webhook_short_signature_answered_500 :
  isUUID (param_repositoryId Sample.short_signature_request) = true
  /\ truthy (secret_of github Sample.env_with_secrets) = Some Sample.secret
  /\ headers Sample.short_signature_request !! signature_header github
       = Some "sha256=deadbeef"
  /\ webhook_route github Sample.env_with_secrets setupQueues
       Sample.short_signature_request
     = (Thrown (RangeError "Input buffers must have the same byte length"), setupQueues)
  /\ receive github Sample.env_with_secrets setupQueues Sample.short_signature_request
     = ({| status := 500; body := ErrorJson "Internal Server Error" |}, setupQueues).
Proof. vm_compute. repeat split. Qed.

(** What the routes compare.  With a secret configured and a signature
    header of the length of the expected string, the route accepts exactly
    when the header equals the provider's prefix ([sha256=] for GitHub, none
    for GitLab) followed by the hex HMAC-SHA256, under the provider's
    secret, of [JSON.stringify] of the parsed body; any other header of that
    length is answered 401 with nothing queued. *)
Lemma signature_checked_over_stringified_body
    (p : Provider) (env : ProcessEnv) (qs : Queues) (req : WebhookRequest)
    (s given : string) :
  isUUID (param_repositoryId req) = true ->
  truthy (secret_of p env) = Some s ->
  headers req !! signature_header p = Some given ->
  String.length given = expected_length p ->
  expected_of p (JSON.stringify (req_body req)) s
    = signature_prefix p +:+ Crypto.hmac_sha256_hex s (JSON.stringify (req_body req))
  /\ verify_of p (JSON.stringify (req_body req)) (Some given) s
     = Returned (String.eqb given (expected_of p (JSON.stringify (req_body req)) s))
  /\ (given = expected_of p (JSON.stringify (req_body req)) s ->
      webhook_route p env qs req = accepted p qs req)
  /\ (given <> expected_of p (JSON.stringify (req_body req)) s ->
      webhook_route p env qs req
        = (Thrown (CustomError "Invalid webhook signature" 401), qs)
      /\ status (fst (receive p env qs req)) = 401
      /\ snd (receive p env qs req) = qs)
  /\ (forall req' : WebhookRequest,
        isUUID (param_repositoryId req') = true ->
        headers req' !! signature_header p = Some given ->
        given = expected_of p (JSON.stringify (req_body req)) s ->
        Crypto.hmac_sha256_hex s (JSON.stringify (req_body req'))
          <> Crypto.hmac_sha256_hex s (JSON.stringify (req_body req)) ->
        status (fst (receive p env qs req')) = 401
        /\ snd (receive p env qs req') = qs).
Proof.
  intros Hid Hs Hsig Hlen.
  assert (Hroute : forall r : WebhookRequest,
             isUUID (param_repositoryId r) = true ->
             headers r !! signature_header p = Some given ->
             given <> expected_of p (JSON.stringify (req_body r)) s ->
             webhook_route p env qs r
               = (Thrown (CustomError "Invalid webhook signature" 401), qs)).
  { intros r Hr Hh Hne.
    rewrite (webhook_route_cases _ _ _ _ Hr), Hs, Hh, (verify_same_length _ _ _ _ Hlen).
    apply String.eqb_neq in Hne. rewrite Hne. reflexivity. }
  split; [destruct p; reflexivity |].
  split; [apply verify_same_length, Hlen |].
  split; [| split].
  - intros Heq.
    rewrite (webhook_route_cases _ _ _ _ Hid), Hs, Hsig, (verify_same_length _ _ _ _ Hlen).
    apply String.eqb_eq in Heq. rewrite Heq. reflexivity.
  - intros Hne. unfold receive. rewrite (Hroute req Hid Hsig Hne). repeat split.
  - intros req' Hid' Hsig' Heq Hdigest. unfold receive.
    rewrite (Hroute req' Hid' Hsig'); [repeat split |].
    rewrite Heq. intros Hsame. apply Hdigest.
    rewrite !expected_of_digest in Hsame.
    destruct p; simpl in Hsame; [injection Hsame as Hsame |]; symmetry; exact Hsame.
Qed.

(** The scenario of the specification, on the sample delivery: signed over
    its compact text it is accepted; with one byte flipped it is rejected. *)
Example signed_request_accepted :
  receive github Sample.env_with_secrets setupQueues Sample.signed_request
  = asyncHandler Sample.env_with_secrets (accepted github setupQueues Sample.signed_request).
Proof. vm_compute. reflexivity. Qed.

(** [JSON.parse] gives what JavaScript holds: the array indices first and
    in ascending order, a repeated key in its first place with its last
    value, an integer as the nearest double; and no document of this model
    for a number with a fraction. *)
Example parse_as_JavaScript_does :
  JSON.parse Cases.keyed_text
    = Some (JObject [("9", JNumber 3); ("10", JNumber 2); ("b", JNumber 9007199254740992)])
  /\ JSON.parse "[1.5]" = None
  /\ JSON.parse "[-0, 12 ,true]" = Some (JArray [JNumber 0; JNumber 12; JBool true]).
Proof. vm_compute. repeat split. Qed.

Example flipped_request_rejected :
  JSON.parse (rawBody Sample.flipped_request) = Some (req_body Sample.flipped_request)
  /\ receive github Sample.env_with_secrets setupQueues Sample.flipped_request
     = ({| status := 401; body := ErrorJson "Internal Server Error" |}, setupQueues).
Proof. vm_compute. split; reflexivity. Qed.

(** C2, at a delivery the gateway can receive: GitHub sends a body with
    white space and signs exactly those bytes with the configured secret.
    The body parses to the document in [req.body]; the route hashes
    [JSON.stringify(req.body)], which is another text, so the provider's
    signature does not match: the correctly signed delivery is answered
    401, 'Invalid webhook signature', and nothing is queued.  The signature
    is not checked over the raw body. *)
Theorem signature_not_checked_over_raw_body :
  isUUID (param_repositoryId Sample.spaced_request) = true
  /\ truthy (secret_of github Sample.env_with_secrets) = Some Sample.secret
  /\ JSON.parse (rawBody Sample.spaced_request) = Some (req_body Sample.spaced_request)
  /\ headers Sample.spaced_request !! signature_header github
     = Some ("sha256=" +:+ Crypto.hmac_sha256_hex Sample.secret
                             (rawBody Sample.spaced_request))
  /\ JSON.stringify (req_body Sample.spaced_request) <> rawBody Sample.spaced_request
  /\ webhook_route github Sample.env_with_secrets setupQueues Sample.spaced_request
     = (Thrown (CustomError "Invalid webhook signature" 401), setupQueues)
  /\ receive github Sample.env_with_secrets setupQueues Sample.spaced_request
     = ({| status := 401; body := ErrorJson "Internal Server Error" |}, setupQueues)
  /\ ~ verifies_raw_body.
Proof.
  assert (Hfacts :
    JSON.parse (rawBody Sample.spaced_request) = Some (req_body Sample.spaced_request)
    /\ headers Sample.spaced_request !! signature_header github
       = Some (expected_of github (rawBody Sample.spaced_request) Sample.secret)
    /\ webhook_route github Sample.env_with_secrets setupQueues Sample.spaced_request
       = (Thrown (CustomError "Invalid webhook signature" 401), setupQueues)
    /\ receive github Sample.env_with_secrets setupQueues Sample.spaced_request
       = ({| status := 401; body := ErrorJson "Internal Server Error" |}, setupQueues))
    by (vm_compute; repeat split).
  destruct Hfacts as (Hparse & Hheader & Hroute & Hreceive).
  split; [vm_compute; reflexivity |]. split; [vm_compute; reflexivity |].
  split; [exact Hparse |]. split; [exact Hheader |].
  split; [vm_compute; discriminate |]. split; [exact Hroute |]. split; [exact Hreceive |].
  intros Hclaim.
  specialize (Hclaim github Sample.env_with_secrets setupQueues Sample.spaced_request
                Sample.secret eq_refl Hparse eq_refl).
  apply proj2 in Hclaim. specialize (Hclaim Hheader).
  unfold accepts in Hclaim. rewrite Hreceive in Hclaim. discriminate Hclaim.
Qed.

(** C7, amended: for a request with a valid repository UUID, when the
    provider's secret is unset (or empty), the route does not look at the
    signature: whatever the signature header is, present or not, the
    request is answered 200 and one webhook job is queued. *)
Theorem webhook_without_secret_skips_verification
    (p : Provider) (env : ProcessEnv) (qs : Queues) (req : WebhookRequest)
    (sig : option string) :
  isUUID (param_repositoryId req) = true ->
  truthy (secret_of p env) = None ->
  fst (receive p env qs (with_signature p sig req))
    = {| status := 200; body := MessageJson queued_message |}
  /\ jobs (webhookQueue (snd (receive p env qs (with_signature p sig req))))
     = (jobs (webhookQueue qs) ++ [webhook_job p qs req])%list
  /\ analysisQueue (snd (receive p env qs (with_signature p sig req))) = analysisQueue qs
  /\ reportQueue (snd (receive p env qs (with_signature p sig req))) = reportQueue qs.
Proof.
  intros Hid Hs. unfold receive.
  rewrite (webhook_route_cases p env qs (with_signature p sig req) Hid), Hs.
  unfold accepted, webhook_job. rewrite event_header_kept. repeat split.
Qed.

Lemma webhook_without_secret_skips_verification_witness :
  fst (receive github Sample.env_without_secrets setupQueues
         (with_signature github (Some "anything") Sample.unsigned_request))
    = {| status := 200; body := MessageJson queued_message |}
  /\ jobs (webhookQueue (snd (receive github Sample.env_without_secrets setupQueues
         (with_signature github (Some "anything") Sample.unsigned_request))))
     = (jobs (webhookQueue setupQueues)
          ++ [webhook_job github setupQueues Sample.unsigned_request])%list
  /\ analysisQueue (snd (receive github Sample.env_without_secrets setupQueues
         (with_signature github (Some "anything") Sample.unsigned_request)))
     = analysisQueue setupQueues
  /\ reportQueue (snd (receive github Sample.env_without_secrets setupQueues
         (with_signature github (Some "anything") Sample.unsigned_request)))
     = reportQueue setupQueues.
Proof.
  apply (webhook_without_secret_skips_verification github Sample.env_without_secrets
           setupQueues Sample.unsigned_request (Some "anything"));
    vm_compute; reflexivity.
Defined.

(** C7, as stated, fails for a request whose repository id is no UUID:
    with no secret configured it is not accepted; the validation of the
    path refuses it with 400 before the secret is read, and nothing is
    queued. *)
Lemma webhook_without_secret_invalid_id_refused :
  truthy (secret_of github Sample.env_without_secrets) = None
  /\ isUUID (param_repositoryId Sample.misaddressed_request) = false
  /\ webhook_route github Sample.env_without_secrets setupQueues
       Sample.misaddressed_request
     = (Thrown (CustomError "Invalid repository ID" 400), setupQueues)
  /\ receive github Sample.env_without_secrets setupQueues Sample.misaddressed_request
     = ({| status := 400; body := ErrorJson "Internal Server Error" |}, setupQueues)
  /\ ~ (forall p env qs req,
          truthy (secret_of p env) = None ->
          accepts p env qs req
          /\ jobs (webhookQueue (snd (receive p env qs req)))
             = (jobs (webhookQueue qs) ++ [webhook_job p qs req])%list).
Proof.
  assert (Hreceive :
    receive github Sample.env_without_secrets setupQueues Sample.misaddressed_request
    = ({| status := 400; body := ErrorJson "Internal Server Error" |}, setupQueues))
    by (vm_compute; reflexivity).
  split; [reflexivity |]. split; [vm_compute; reflexivity |].
  split; [vm_compute; reflexivity |]. split; [exact Hreceive |].
  intros Hclaim.
  destruct (Hclaim github Sample.env_without_secrets setupQueues
              Sample.misaddressed_request eq_refl) as [Haccepts _].
  unfold accepts in Haccepts. rewrite Hreceive in Haccepts. discriminate Haccepts.
Qed.

(** C9: with a secret configured, [verifyWebhookSignature] throws instead
    of returning [false] for a request without a comparable signature: when
    the signature header is absent, [Buffer.from] on [undefined] throws a
    [TypeError]; when the header has another byte length than the expected
    string, [timingSafeEqual] throws a [RangeError].  The route rethrows the
    error, which carries no status code: the answer is not the 401 of the
    invalid-signature path but 500, and nothing is queued. *)
Theorem verifyWebhookSignature_throws_without_comparable_signature
    (p : Provider) (env : ProcessEnv) (qs : Queues) (req : WebhookRequest) (s : string) :
  isUUID (param_repositoryId req) = true ->
  truthy (secret_of p env) = Some s ->
  (headers req !! signature_header p = None ->
   exists m,
     verify_of p (JSON.stringify (req_body req)) None s = Thrown (TypeError m)
     /\ webhook_route p env qs req = (Thrown (TypeError m), qs)
     /\ receive p env qs req = (answered_500 env (TypeError m), qs))
  /\ (forall given,
        headers req !! signature_header p = Some given ->
        String.length given
          <> String.length (expected_of p (JSON.stringify (req_body req)) s) ->
        exists m,
          verify_of p (JSON.stringify (req_body req)) (Some given) s
            = Thrown (RangeError m)
          /\ webhook_route p env qs req = (Thrown (RangeError m), qs)
          /\ receive p env qs req = (answered_500 env (RangeError m), qs))
  /\ (headers req !! signature_header p = None
      \/ (exists given, headers req !! signature_header p = Some given
            /\ String.length given
               <> String.length (expected_of p (JSON.stringify (req_body req)) s)) ->
      (forall answer : bool,
         verify_of p (JSON.stringify (req_body req)) (headers req !! signature_header p) s
         <> Returned answer)
      /\ status (fst (receive p env qs req)) = 500
      /\ status (fst (receive p env qs req)) <> 401
      /\ snd (receive p env qs req) = qs).
Proof.
  intros Hid Hs.
  assert (Hroute : forall e,
            verify_of p (JSON.stringify (req_body req))
              (headers req !! signature_header p) s = Thrown e ->
            webhook_route p env qs req = (Thrown e, qs))
    by (intros e He; rewrite (webhook_route_cases _ _ _ _ Hid), Hs, He; reflexivity).
  assert (Habsent : headers req !! signature_header p = None ->
    exists m,
      verify_of p (JSON.stringify (req_body req)) None s = Thrown (TypeError m)
      /\ webhook_route p env qs req = (Thrown (TypeError m), qs)
      /\ receive p env qs req = (answered_500 env (TypeError m), qs)).
  { intros Hnone.
    destruct (verify_absent p (JSON.stringify (req_body req)) s) as [m Hm].
    exists m. split; [exact Hm |].
    assert (Hthrown : webhook_route p env qs req = (Thrown (TypeError m), qs))
      by (apply Hroute; rewrite Hnone; exact Hm).
    split; [exact Hthrown |]. unfold receive. rewrite Hthrown. reflexivity. }
  assert (Hlength : forall given,
    headers req !! signature_header p = Some given ->
    String.length given
      <> String.length (expected_of p (JSON.stringify (req_body req)) s) ->
    exists m,
      verify_of p (JSON.stringify (req_body req)) (Some given) s = Thrown (RangeError m)
      /\ webhook_route p env qs req = (Thrown (RangeError m), qs)
      /\ receive p env qs req = (answered_500 env (RangeError m), qs)).
  { intros given Hsome Hlen. rewrite expected_of_length in Hlen.
    destruct (verify_other_length p (JSON.stringify (req_body req)) given s Hlen)
      as [m Hm].
    exists m. split; [exact Hm |].
    assert (Hthrown : webhook_route p env qs req = (Thrown (RangeError m), qs))
      by (apply Hroute; rewrite Hsome; exact Hm).
    split; [exact Hthrown |]. unfold receive. rewrite Hthrown. reflexivity. }
  split; [exact Habsent |]. split; [exact Hlength |].
  intros [Hnone | (given & Hsome & Hlen)].
  - destruct (Habsent Hnone) as (m & Hv & _ & Hr).
    rewrite Hnone, Hv, Hr. simpl. repeat split; discriminate.
  - destruct (Hlength given Hsome Hlen) as (m & Hv & _ & Hr).
    rewrite Hsome, Hv, Hr. simpl. repeat split; discriminate.
Qed.

Lemma verifyWebhookSignature_throws_without_comparable_signature_witness :
  (exists m,
     verify_of github (JSON.stringify (req_body Sample.unsigned_request)) None Sample.secret
       = Thrown (TypeError m)
     /\ webhook_route github Sample.env_with_secrets setupQueues Sample.unsigned_request
        = (Thrown (TypeError m), setupQueues)
     /\ receive github Sample.env_with_secrets setupQueues Sample.unsigned_request
        = (answered_500 Sample.env_with_secrets (TypeError m), setupQueues))
  /\ (exists m,
        verify_of github (JSON.stringify (req_body Sample.short_signature_request))
          (Some "sha256=deadbeef") Sample.secret
          = Thrown (RangeError m)
        /\ webhook_route github Sample.env_with_secrets setupQueues
             Sample.short_signature_request
           = (Thrown (RangeError m), setupQueues)
        /\ receive github Sample.env_with_secrets setupQueues
             Sample.short_signature_request
           = (answered_500 Sample.env_with_secrets (RangeError m), setupQueues)).
Proof.
  split.
  - apply (proj1 (verifyWebhookSignature_throws_without_comparable_signature github
                    Sample.env_with_secrets setupQueues Sample.unsigned_request
                    Sample.secret eq_refl eq_refl)).
    vm_compute. reflexivity.
  - apply (proj1 (proj2 (verifyWebhookSignature_throws_without_comparable_signature github
                    Sample.env_with_secrets setupQueues Sample.short_signature_request
                    Sample.secret eq_refl eq_refl)) "sha256=deadbeef").
    + vm_compute. reflexivity.
    + vm_compute. discriminate.
Defined.

(** ** Claims about the lint service *)

Section LintService.

Import ESLintService.

(** What a successful call returns: the write and the lint succeeded, the
    flag says whether the lint result still counts a fixable error or
    warning, and the output is the text the call was given, read back from
    the file as it was written. *)
Lemma fixCode_returns
    (lintFiles : LintEngine) (writeError : WriteError) (tempDir : string)
    (fs fs' : gmap string string) (sourceCode filename : string)
    (customConfig : option ESLintConfig) (r : FixOutcome) :
  fixCode lintFiles writeError tempDir fs sourceCode filename customConfig
    = (Returned r, fs') ->
  exists result rest,
    writeError fs (path_join tempDir filename) sourceCode = None
    /\ lintFiles (default getDefaultConfig customConfig) true
         (<[path_join tempDir filename := sourceCode]> fs) (path_join tempDir filename)
       = Returned (result :: rest)
    /\ r = {| fixed := (0 <? fixableErrorCount result) || (0 <? fixableWarningCount result);
              output := sourceCode; fix_messages := messages result |}
    /\ fs' = delete (path_join tempDir filename)
               (<[path_join tempDir filename := sourceCode]> fs).
Proof.
  unfold fixCode, writeFileSync. intros Hfirst.
  destruct (writeError fs _ sourceCode); [discriminate |].
  rewrite lookup_insert_eq in Hfirst.
  destruct (lintFiles _ _ _ _) as [[|result rest]|e]; try discriminate.
  injection Hfirst as <- <-. eauto 6.
Qed.

(** Whatever the engine and the disk, the output of a successful call is
    the submitted text. *)
Lemma fixCode_output_is_source
    (lintFiles : LintEngine) (writeError : WriteError) (tempDir : string)
    (fs fs' : gmap string string) (sourceCode filename : string)
    (customConfig : option ESLintConfig) (r : FixOutcome) :
  fixCode lintFiles writeError tempDir fs sourceCode filename customConfig
    = (Returned r, fs') ->
  output r = sourceCode.
Proof.
  intros Hfirst.
  destruct (fixCode_returns _ _ _ _ _ _ _ _ _ Hfirst) as (? & ? & _ & _ & -> & _).
  reflexivity.
Qed.

(** C3, at a call the service can receive: a source with an extra
    semicolon and a configuration whose rule removes it.  The engine, in
    fix mode, returns a result in which nothing is left to report, with the
    corrected text in it, and writes no file ([ESLint.outputFixes] would);
    [fixCode] reads the temporary file back: [output] is the submitted
    text, the extra semicolon still in it, and [fixed] is false.  It is so
    for every engine and disk: the output of a call that returns is the
    text that was submitted. *)
Theorem fixCode_output_is_not_corrected :
  fixCode Sample.clean_engine writable Sample.tempDir (∅ : gmap string string)
    "var x = 1;;" "a.js" (Some Sample.semi_config)
  = (Returned {| fixed := false; output := "var x = 1;;"; fix_messages := [] |}, ∅)
  /\ (forall (lintFiles : LintEngine) (writeError : WriteError) (tempDir : string)
        (fs fs' : gmap string string) (sourceCode filename : string)
        (customConfig : option ESLintConfig) (r : FixOutcome),
        fixCode lintFiles writeError tempDir fs sourceCode filename customConfig
          = (Returned r, fs') ->
        output r = sourceCode).
Proof.
  split; [vm_compute; reflexivity | exact fixCode_output_is_source].
Qed.

Lemma reduce_sum_from (f : ESLintResult -> Z) (results : list ESLintResult) (start : Z) :
  fold_left (fun sum result => sum + f result) results start
  = start + field_sum f results.
Proof.
  revert start. induction results as [|r rest IH]; intros start; simpl.
  - lia.
  - rewrite IH. lia.
Qed.

Lemma reduce_sum_field_sum f results : reduce_sum f results = field_sum f results.
Proof. unfold reduce_sum. rewrite reduce_sum_from. lia. Qed.




End LintService.

(** ** Claims about the queues *)

(** C4: the default policy of each queue, as [setupQueues] configures it, and
    the delay it gives before attempt [n]: the base delay times
    2^(n-1) for the exponential queues, the base delay for the fixed one;
    the delays never decrease from one attempt to a later one, and are all
    equal under the fixed policy. *)
Theorem backoff_delay_by_policy (k : QueueKind) (m n : Z) :
  1 <= m <= n ->
  let o := defaultJobOptions (queue_of k setupQueues) in
  match k with
  | analysis =>
      attempts o = 3 /\ backoff o = {| backoff_type := exponential; delay := 2000 |}
      /\ backoffDelay (backoff o) n = 2000 * 2 ^ (n - 1)
  | webhook =>
      attempts o = 5 /\ backoff o = {| backoff_type := exponential; delay := 1000 |}
      /\ backoffDelay (backoff o) n = 1000 * 2 ^ (n - 1)
  | report =>
      attempts o = 2 /\ backoff o = {| backoff_type := fixed; delay := 5000 |}
      /\ backoffDelay (backoff o) n = 5000
      /\ backoffDelay (backoff o) m = backoffDelay (backoff o) n
  end
  /\ backoffDelay (backoff o) m <= backoffDelay (backoff o) n.
Proof.
  intros Hmn.
  assert (Hpow : 2 ^ (m - 1) <= 2 ^ (n - 1)) by (apply Z.pow_le_mono_r; lia).
  destruct k; simpl; unfold backoffDelay; simpl; repeat split; lia.
Qed.

Lemma backoff_delay_by_policy_witness :
  backoffDelay (backoff (defaultJobOptions (queue_of webhook setupQueues))) 2
  <= backoffDelay (backoff (defaultJobOptions (queue_of webhook setupQueues))) 4.
Proof.
  apply (proj2 (backoff_delay_by_policy webhook 2 4 ltac:(lia))).
Defined.

Example webhook_delays :
  map (backoffDelay (backoff (defaultJobOptions (queue_of webhook setupQueues))))
      [1; 2; 3; 4; 5]
  = [1000; 2000; 4000; 8000; 16000].
Proof. reflexivity. Qed.

(** ** Claims about the report routes *)







(** A history: a report is requested, a worker starts it, fails, retries
    and completes it; another request is still waiting. *)
Example job_status_in_a_history :
  let report_data := OtherData (JObject [("type", JString "review")]) in
  let result := {| filePath := Some Sample.report_path;
                   contentType := Some "application/pdf";
                   filename := Some "review-7.pdf" |} in
  let events :=
    [ Added report "generate-pdf-report" report_data no_options;
      Moved report "1" Start;
      Moved report "1" (Fail "disk full") ] in
  let later :=
    (events ++ [ Moved report "1" Retry; Moved report "1" Start;
                 Moved report "1" (Complete result);
                 Added report "generate-csv-report" report_data no_options ])%list in
  body (Reports.get_job Sample.env_with_secrets (after events)
          (Reports.verified_token "alice") "1")
    = JobStatusJson "1" failed 0 report_data None (Some "disk full")
  /\ body (Reports.get_job Sample.env_with_secrets (after later)
             (Reports.verified_token "alice") "1")
     = JobStatusJson "1" completed 0 report_data (Some result) (Some "disk full")
  /\ body (Reports.get_job Sample.env_with_secrets (after later)
             (Reports.verified_token "alice") "2")
     = JobStatusJson "2" waiting 0 report_data None None
  /\ Reports.get_job Sample.env_with_secrets (after later)
       (Reports.verified_token "alice") "3"
     = job_not_found Sample.env_with_secrets.
Proof. vm_compute. repeat split. Qed.


(** When a download streams a completed job's report, the file is deleted
    from the disk afterwards and the job is left as it was; a second
    download of the same job then finds the job completed with its file
    path still recorded, passes the 'Report file not found' check, and opens
    a read stream on the missing file. *)
Lemma download_deletes_streamed_report
    (qs : Queues) (fs fs' : gmap string string) (jobId : string) (res : HttpResponse) :
  Reports.download qs fs jobId = (Reports.Streamed res, fs') ->
  exists job result path content,
    Queue_getJob (reportQueue qs) jobId = Some job
    /\ job_state job = completed
    /\ returnvalue job = Some result
    /\ filePath result = Some path
    /\ fs !! path = Some content
    /\ body res = FileStream (default "application/pdf" (truthy (contentType result)))
                    (Reports.disposition result) content
    /\ fs' = delete path fs
    /\ fs' !! path = None
    /\ (exists e, Reports.download qs fs' jobId = (Reports.Uncaught e, fs'))
    /\ (forall e, Reports.download qs fs' jobId <> (Reports.Refused e, fs')).
Proof.
  unfold Reports.download. intros Hfirst.
  destruct (Queue_getJob (reportQueue qs) jobId) as [job|]; [| discriminate].
  destruct (job_state job) eqn:Hstate; simpl in Hfirst; try discriminate.
  destruct (returnvalue job) as [result|] eqn:Hvalue; [| discriminate].
  destruct (truthy (filePath result)) as [path|] eqn:Hpath; [| discriminate].
  destruct (fs !! path) as [content|] eqn:Hfile; [| discriminate].
  injection Hfirst as <- <-.
  exists job, result, path, content. simpl. rewrite ?lookup_delete_eq.
  do 3 (split; [reflexivity || assumption |]).
  split.
  { unfold truthy in Hpath. destruct (filePath result) as [v|]; [| discriminate].
    destruct (String.eqb v ""); [discriminate |]. assumption. }
  do 4 (split; [reflexivity || assumption |]).
  split; [eexists; reflexivity | discriminate].
Qed.

(** C10, at two requests the server can receive: job 7 is completed and
    its report is on the disk.  The first download streams the report and
    deletes the file.  The second passes the 'Report file not found' guard,
    which looks at the job's return value and not at the disk, and opens a
    read stream on the deleted file; the stream's 'error' has no listener
    and is an uncaught exception.  The request is not refused with 'Report
    file not found' (404). *)
Theorem second_download_is_not_refused_404 :
  Reports.download Sample.queues_with_report Sample.disk "7"
  = (Reports.Streamed
       {| status := 200;
          body := FileStream "application/pdf"
                    (Reports.disposition
                       {| filePath := Some Sample.report_path;
                          contentType := Some "application/pdf";
                          filename := Some "review-7.pdf" |})
                    "%PDF-1.4 review 7" |}, ∅)
  /\ Reports.download Sample.queues_with_report ∅ "7"
     = (Reports.Uncaught
          (SystemError "ENOENT"
             "no such file or directory, open '/tmp/reports/review-7.pdf'"), ∅)
  /\ Reports.download Sample.queues_with_report ∅ "7"
     <> (Reports.Refused (CustomError "Report file not found" 404), ∅).
Proof.
  assert (Hsecond : Reports.download Sample.queues_with_report ∅ "7"
                    = (Reports.Uncaught
                         (SystemError "ENOENT"
                            "no such file or directory, open '/tmp/reports/review-7.pdf'"),
                       ∅))
    by (vm_compute; reflexivity).
  split; [vm_compute; reflexivity |]. split; [exact Hsecond |].
  rewrite Hsecond. discriminate.
Qed.

(** ** Claims about the fanout *)

Lemma to_emit_empty_room (io : WebSocket.Server) (room event : string) (payload : json) :
  WebSocket.members io room = ∅ -> WebSocket.to_emit io room event payload = io.
Proof.
  intros Hempty. destruct io as [socks]. unfold WebSocket.to_emit. simpl. f_equal.
  unfold WebSocket.members in Hempty. simpl in Hempty.
  apply map_eq. intros sid. rewrite lookup_fmap.
  destruct (socks !! sid) as [s|] eqn:Hs; simpl; [| reflexivity].
  destruct (decide (room ∈ WebSocket.rooms s)) as [Hin|]; [| reflexivity].
  exfalso.
  assert (Hfound : filter (fun kv : nat * WebSocket.AuthenticatedSocket =>
                             room ∈ WebSocket.rooms (snd kv)) socks !! sid = Some s)
    by (apply map_lookup_filter_Some; split; assumption).
  rewrite Hempty, lookup_empty in Hfound. discriminate.
Qed.

(** C8: publishing to a room that no connection has joined, through any of
    [emitToUser], [emitToRepository] and [emitToPR], also when the server is
    not initialized, returns normally with the state unchanged: nothing is
    sent to any connection, and a connection that joins the room afterwards
    has been sent nothing by it. *)
Theorem publish_to_empty_room_changes_nothing
    (st : WebSocket.State) (t : Target) (event : string) (payload : json) :
  (forall io, st = Some io -> WebSocket.members io (room_of t) = ∅) ->
  emitTo st t event payload = st
  /\ WebSocket.all_sent (emitTo st t event payload) = WebSocket.all_sent st
  /\ (forall io sid s,
        emitTo st t event payload = Some io ->
        WebSocket.sockets (WebSocket.join io sid (room_of t)) !! sid = Some s ->
        exists io0 s0,
          st = Some io0 /\ WebSocket.sockets io0 !! sid = Some s0
          /\ WebSocket.sent s = WebSocket.sent s0).
Proof.
  intros Hempty.
  assert (Hsame : emitTo st t event payload = st).
  { destruct st as [io|].
    - specialize (Hempty io eq_refl).
      destruct t; simpl in *;
        unfold WebSocket.emitToUser, WebSocket.emitToRepository, WebSocket.emitToPR,
          WebSocket.emit_room;
        rewrite (to_emit_empty_room _ _ _ _ Hempty); reflexivity.
    - destruct t; reflexivity. }
  split; [exact Hsame |]. split; [rewrite Hsame; reflexivity |].
  intros io sid s Hio Hjoined. rewrite Hsame in Hio.
  unfold WebSocket.join in Hjoined. simpl in Hjoined.
  rewrite lookup_alter_eq in Hjoined.
  destruct (WebSocket.sockets io !! sid) as [s0|] eqn:Hs0; [| discriminate].
  injection Hjoined as <-. exists io, s0. repeat split; assumption.
Qed.

Lemma publish_to_empty_room_changes_nothing_witness :
  emitTo (Some Sample.one_user) (ToRepository Sample.repository) "review:completed" JNull
  = Some Sample.one_user.
Proof.
  refine (proj1 (publish_to_empty_room_changes_nothing (Some Sample.one_user)
                   (ToRepository Sample.repository) "review:completed" JNull _)).
  intros io [= <-]. vm_compute. reflexivity.
Defined.

(** A room with a member does get the event: only that member's list grows. *)
Example publish_to_joined_room :
  WebSocket.all_sent
    (emitTo (Some (WebSocket.join Sample.one_user 1%nat (room_of (ToPR "42"))))
       (ToPR "42") "issue_found" JNull)
  = [(1%nat, [("issue_found", JNull)])].
Proof. vm_compute. reflexivity. Qed.

(* ===================================================================== *)
(** * Further properties of the code                                      *)
(* ===================================================================== *)

(** ** The webhook routes *)

Lemma verify_throws_without_status p payload sig s e :
  verify_of p payload sig s = Thrown e -> error_statusCode e = None.
Proof.
  destruct p; simpl;
    unfold GitHubService.verifyWebhookSignature, GitLabService.verifyWebhookSignature,
      Buffer_from, timingSafeEqual;
    destruct sig as [given|]; try (intros [= <-]; reflexivity);
    destruct (_ =? _)%nat; intros [= <-]; reflexivity.
Qed.

Lemma webhook_route_compared p env qs req s given :
  isUUID (param_repositoryId req) = true ->
  truthy (secret_of p env) = Some s ->
  headers req !! signature_header p = Some given ->
  String.length given = expected_length p ->
  webhook_route p env qs req
  = if String.eqb given (expected_of p (JSON.stringify (req_body req)) s)
    then accepted p qs req
    else (Thrown (CustomError "Invalid webhook signature" 401), qs).
Proof.
  intros Hid Hs Hsig Hlen.
  rewrite (webhook_route_cases _ _ _ _ Hid), Hs, Hsig, (verify_same_length _ _ _ _ Hlen).
  destruct (String.eqb _ _); reflexivity.
Qed.

Lemma webhook_route_not_compared p env qs req s given :
  isUUID (param_repositoryId req) = true ->
  truthy (secret_of p env) = Some s ->
  headers req !! signature_header p = Some given ->
  String.length given <> expected_length p ->
  exists m, webhook_route p env qs req = (Thrown (RangeError m), qs).
Proof.
  intros Hid Hs Hsig Hlen.
  destruct (verify_other_length p (JSON.stringify (req_body req)) given s Hlen) as [m Hm].
  exists m. rewrite (webhook_route_cases _ _ _ _ Hid), Hs, Hsig, Hm. reflexivity.
Qed.


(** Closes the cases of a statement about the status of one answer. *)
Ltac answer_case :=
  repeat split; intros;
  try discriminate; try lia; try congruence;
  try (match goal with H : isDevelopment _ = false |- _ => rewrite H end; reflexivity);
  auto 6.

(** X1: what a delivery can be answered.  The status is 200, 400, 401 or
    500; it is 400 exactly when the repository id is not a UUID, whatever
    the signature; a job is queued exactly when the status is 200, and then
    it is the one job of [accepted]; every other answer leaves the three
    queues as they were and, outside development, carries the message
    'Internal Server Error' whatever went wrong. *)
Theorem webhook_delivery_answers
    (p : Provider) (env : ProcessEnv) (qs : Queues) (req : WebhookRequest) :
  (status (fst (receive p env qs req)) = 200
   \/ status (fst (receive p env qs req)) = 400
   \/ status (fst (receive p env qs req)) = 401
   \/ status (fst (receive p env qs req)) = 500)
  /\ (status (fst (receive p env qs req)) = 400
      <-> isUUID (param_repositoryId req) = false)
  /\ (status (fst (receive p env qs req)) = 200 ->
      receive p env qs req = asyncHandler env (accepted p qs req))
  /\ (status (fst (receive p env qs req)) <> 200 ->
      snd (receive p env qs req) = qs
      /\ (isDevelopment env = false ->
          body (fst (receive p env qs req)) = ErrorJson "Internal Server Error")).
Proof.
  unfold receive.
  destruct (isUUID (param_repositoryId req)) eqn:Hid.
  - rewrite (webhook_route_cases p env qs req Hid).
    destruct (truthy (secret_of p env)) as [s|].
    + destruct (verify_of p _ _ s) as [[|]|e] eqn:Hv; simpl;
        rewrite ?(verify_throws_without_status _ _ _ _ _ Hv); simpl; answer_case.
    + simpl. answer_case.
  - assert (Hroute : webhook_route p env qs req
                     = (Thrown (CustomError "Invalid repository ID" 400), qs))
      by (destruct p; simpl; unfold github_webhook, gitlab_webhook; rewrite Hid; reflexivity).
    rewrite Hroute. simpl. answer_case.
Qed.



(** X3: GitLab authenticates a delivery by sending back the token that
    [createWebhook] registered, which is the secret itself.  The GitLab
    route compares that header with a hex digest: when the secret is not
    64 bytes long the comparison throws and the delivery is answered 500;
    when it is, the delivery is accepted only if the secret happens to be
    the hex HMAC-SHA256, under itself, of the re-serialized body. *)
Theorem gitlab_registered_token_not_recognised
    (env : ProcessEnv) (qs : Queues) (req : WebhookRequest)
    (projectId : Z) (webhookUrl s : string) :
  isUUID (param_repositoryId req) = true ->
  truthy (GITLAB_WEBHOOK_SECRET env) = Some s ->
  headers req !! "x-gitlab-token"
    = string_member "token" (api_body (GitLabHooks.createWebhook projectId webhookUrl s)) ->
  (String.length s <> 64%nat ->
   status (fst (receive gitlab env qs req)) = 500 /\ snd (receive gitlab env qs req) = qs)
  /\ (String.length s = 64%nat ->
      s <> Crypto.hmac_sha256_hex s (JSON.stringify (req_body req)) ->
      status (fst (receive gitlab env qs req)) = 401 /\ snd (receive gitlab env qs req) = qs).
Proof.
  intros Hid Hs Hsig. simpl in Hsig. unfold receive. split.
  - intros Hlen.
    destruct (webhook_route_not_compared gitlab env qs req s s Hid Hs Hsig Hlen) as [m ->].
    split; reflexivity.
  - intros Hlen Hne.
    rewrite (webhook_route_compared gitlab env qs req s s Hid Hs Hsig Hlen).
    apply String.eqb_neq in Hne.
    unfold expected_of, GitLabService.expectedSignature. rewrite Hne. split; reflexivity.
Qed.

Lemma gitlab_registered_token_not_recognised_witness :
  status (fst (receive gitlab Sample.env_with_secrets setupQueues
                 Cases.gitlab_token_request)) = 500
  /\ snd (receive gitlab Sample.env_with_secrets setupQueues Cases.gitlab_token_request)
     = setupQueues.
Proof.
  refine (proj1 (gitlab_registered_token_not_recognised Sample.env_with_secrets setupQueues
                   Cases.gitlab_token_request 17 "https://reviewer.example/api/webhooks/gitlab"
                   Sample.secret _ _ _) _);
    vm_compute; try reflexivity; discriminate.
Defined.

Lemma serve_webhook_step (env : ProcessEnv) (qs : Queues) (c : WebhookCall) :
  (answered_200 (fst (serve_webhook env qs c)) = true
   /\ exists j,
        jobs (webhookQueue (snd (serve_webhook env qs c)))
          = (jobs (webhookQueue qs) ++ [j])%list
        /\ untouched j
        /\ (is_test_job j = true <-> String.prefix "test-" (job_name j) = true)
        /\ analysisQueue (snd (serve_webhook env qs c)) = analysisQueue qs
        /\ reportQueue (snd (serve_webhook env qs c)) = reportQueue qs)
  \/ (answered_200 (fst (serve_webhook env qs c)) = false
      /\ snd (serve_webhook env qs c) = qs).
Proof.
  destruct c as [p req | repositoryId p eventType]; simpl.
  - unfold receive.
    destruct (isUUID (param_repositoryId req)) eqn:Hid.
    + rewrite (webhook_route_cases p env qs req Hid).
      assert (Hyes : forall e : ProcessEnv,
        answered_200 (fst (asyncHandler e (accepted p qs req))) = true
        /\ exists j,
             jobs (webhookQueue (snd (asyncHandler e (accepted p qs req))))
               = (jobs (webhookQueue qs) ++ [j])%list
             /\ untouched j
             /\ (is_test_job j = true <-> String.prefix "test-" (job_name j) = true)
             /\ analysisQueue (snd (asyncHandler e (accepted p qs req))) = analysisQueue qs
             /\ reportQueue (snd (asyncHandler e (accepted p qs req))) = reportQueue qs).
      { intros e. split; [reflexivity |]. eexists. split; [reflexivity |].
        split; [repeat split |]. split; [| split; reflexivity].
        destruct p; simpl; split; discriminate. }
      destruct (truthy (secret_of p env)) as [s|]; [| left; apply Hyes].
      destruct (verify_of p _ _ s) as [[|]|e] eqn:Hv.
      * left; apply Hyes.
      * right. split; reflexivity.
      * right. simpl. unfold answered_200, errorHandler. simpl.
        rewrite (verify_throws_without_status _ _ _ _ _ Hv). split; reflexivity.
    + assert (Hroute : webhook_route p env qs req
                       = (Thrown (CustomError "Invalid repository ID" 400), qs))
        by (destruct p; simpl; unfold github_webhook, gitlab_webhook; rewrite Hid;
            reflexivity).
      rewrite Hroute. right. split; reflexivity.
  - unfold test_webhook.
    destruct (negb (isUUID repositoryId) || String.eqb eventType "").
    + right. split; reflexivity.
    + left. split; [reflexivity |]. eexists. split; [reflexivity |].
      split; [repeat split |]. split; [| split; reflexivity].
      destruct p; simpl; split; reflexivity.
Qed.

(** X4: whatever deliveries and test events the webhook router serves, in
    whatever order, it only ever appends to the webhook queue: the jobs that
    were queued stay in place, one job is added for each request answered
    200 and none for any other, each new job is waiting and untouched, and is
    marked [isTest] exactly when its name starts with [test-]; the analysis
    and report queues are never changed. *)
Theorem webhook_router_only_appends
    (env : ProcessEnv) (cs : list WebhookCall) (qs : Queues) :
  exists new : list Job,
    jobs (webhookQueue (snd (serve_webhooks env qs cs)))
      = (jobs (webhookQueue qs) ++ new)%list
    /\ List.length new
       = List.length (List.filter answered_200 (fst (serve_webhooks env qs cs)))
    /\ Forall (fun j => untouched j
                        /\ (is_test_job j = true
                            <-> String.prefix "test-" (job_name j) = true)) new
    /\ analysisQueue (snd (serve_webhooks env qs cs)) = analysisQueue qs
    /\ reportQueue (snd (serve_webhooks env qs cs)) = reportQueue qs.
Proof.
  revert qs. induction cs as [|c rest IH]; intros qs; simpl.
  - exists []. rewrite app_nil_r. repeat split. constructor.
  - pose proof (serve_webhook_step env qs c) as Hstep.
    destruct (serve_webhook env qs c) as [res qs1]. simpl in Hstep.
    specialize (IH qs1).
    destruct (serve_webhooks env qs1 rest) as [answers qs2]. simpl in IH |- *.
    destruct IH as (new & Hjobs & Hlen & Hnew & Ha & Hr).
    destruct Hstep as [(H200 & j & Hj & Huntouched & Htest & Ha1 & Hr1) | (H200 & ->)].
    + exists (j :: new). rewrite H200, Hjobs, Hj, <- app_assoc. simpl.
      split; [reflexivity |]. split; [congruence |].
      split; [constructor; [split; assumption | assumption] |].
      split; congruence.
    + exists new. rewrite H200. repeat split; assumption.
Qed.

Example webhook_router_run :
  let '(answers, qs) :=
    serve_webhooks Sample.env_with_secrets setupQueues
      [ Deliver github Sample.signed_request;
        Deliver github Sample.short_signature_request;
        TestEvent Sample.repository gitlab "push";
        Deliver github Sample.spaced_request ] in
  map status answers = [200; 500; 200; 401]
  /\ map job_name (jobs (webhookQueue qs)) = ["process-github-webhook"; "test-gitlab-webhook"]
  /\ map job_id (jobs (webhookQueue qs)) = ["1"; "2"]
  /\ map (fun j => attempts (opts j)) (jobs (webhookQueue qs)) = [3; 5].
Proof. vm_compute. repeat split. Qed.

(** ** The routes that queue work, and the job-status and download routes *)

Section QueueingRoutes.

Import Submissions.

Variable passes : BodyCheck -> json -> bool.

Lemma find_in_app {A : Type} (f : A -> bool) (l1 l2 : list A) :
  List.find f (l1 ++ l2)
  = match List.find f l1 with Some x => Some x | None => List.find f l2 end.
Proof.
  induction l1 as [|x l1 IH]; simpl; [reflexivity |].
  destruct (f x); [reflexivity | exact IH].
Qed.

Lemma getJob_after_add q name d o jobId :
  Queue_getJob q (pretty (next_id q)) = None ->
  Queue_getJob (Queue_add q name d o) jobId
  = if String.eqb (pretty (next_id q)) jobId
    then List.find (fun j => String.eqb (job_id j) jobId) (jobs (Queue_add q name d o))
    else Queue_getJob q jobId.
Proof.
  intros _. unfold Queue_getJob. simpl.
  destruct (String.eqb (pretty (next_id q)) jobId) eqn:Heq; [reflexivity |].
  rewrite find_in_app. destruct (List.find _ (jobs q)); [reflexivity |].
  simpl. rewrite Heq. reflexivity.
Qed.

(** X5: a request to one of the four queueing routes (create review,
    review PDF, repository PDF, issues CSV) is answered either 400, with
    every queue left as it was, or 201 (review) / 202 (report) with exactly
    one waiting job appended to the route's own queue and to no other; the
    [jobId] of the answer is that job's id, the job carries the caller's
    [userId], and it is queued with the retry options the route gives (3
    attempts, exponential 2000 ms for reviews; 2 attempts, fixed 5000 ms for
    reports), not with the queue's defaults. *)
Theorem submission_queues_one_job
    (qs : Queues) (userId : string) (s : Submission) :
  (fst (submit passes qs userId s) = Thrown (CustomError "Invalid request data" 400)
   /\ snd (submit passes qs userId s) = qs)
  \/ exists (started : Started) (j : Job) (fields : list (string * json)),
       fst (submit passes qs userId s) = Returned started
       /\ started_status started
          = match queue_for s with analysis => 201 | _ => 202 end
       /\ started_jobId started = job_id j
       /\ jobs (queue_of (queue_for s) (snd (submit passes qs userId s)))
          = (jobs (queue_of (queue_for s) qs) ++ [j])%list
       /\ (forall k, k <> queue_for s ->
             queue_of k (snd (submit passes qs userId s)) = queue_of k qs)
       /\ untouched j
       /\ data j = OtherData (JObject fields)
       /\ member "userId" (JObject fields) = Some (JString userId)
       /\ attempts (opts j) = match queue_for s with analysis => 3 | _ => 2 end
       /\ backoff (opts j)
          = match queue_for s with
            | analysis => {| backoff_type := exponential; delay := 2000 |}
            | _ => {| backoff_type := fixed; delay := 5000 |}
            end.
Proof.
  destruct s as [body | reviewId body | repositoryId body | body];
    unfold submit, create_review, review_pdf, repository_pdf, issues_csv, report_started;
    match goal with |- context [if negb ?c then _ else _] => destruct c end;
    try (left; split; reflexivity);
    right; eexists _, (added_job _ _ _ _), _;
    (split; [reflexivity |]); (split; [reflexivity |]);
    (split; [reflexivity |]); (split; [reflexivity |]);
    (split; [intros [] Hk; try reflexivity; exfalso; apply Hk; reflexivity |]);
    (split; [repeat split |]); (split; [reflexivity |]);
    (split; [| split; reflexivity]);
    try reflexivity.
  - unfold field.
    destruct (member "pullRequestId" body) as [?|];
      destruct (member "analysisType" body) as [?|];
      destruct (member "configuration" body) as [?|]; reflexivity.
Qed.

(** X6: a report that has just been requested can be followed up with the
    id the answer gives.  When Bull's next id is not yet the id of a stored
    job, the job-status route answers 200 for that id with status
    [waiting], progress 0, the submitted data and neither result nor
    error; a download of it is refused with 'Report not ready yet' (202)
    and touches no file; and every other id is answered as before the
    request. *)
Theorem requested_report_can_be_followed
    (qs : Queues) (fs : gmap string string) (userId : string) (s : Submission)
    (started : Started) (qs' : Queues) :
  queue_for s = report ->
  Queue_getJob (reportQueue qs) (pretty (next_id (reportQueue qs))) = None ->
  submit passes qs userId s = (Returned started, qs') ->
  statusUrl started = Some ("/api/reports/jobs/" +:+ started_jobId started)
  /\ (exists d,
        Reports.job_status qs' (started_jobId started)
        = Returned {| status := 200;
                      body := JobStatusJson (started_jobId started) waiting 0
                                (OtherData d) None None |}
        /\ member "userId" d = Some (JString userId))
  /\ Reports.download qs' fs (started_jobId started)
     = (Reports.Refused (CustomError "Report not ready yet" 202), fs)
  /\ (forall jobId, jobId <> started_jobId started ->
        Reports.job_status qs' jobId = Reports.job_status qs jobId).
Proof.
  intros Hkind Hfresh Hsubmit.
  assert (Hshape : exists name d,
    member "userId" d = Some (JString userId)
    /\ (Returned started, qs') = report_started qs name d).
  { destruct s as [body | reviewId body | repositoryId body | body];
      try discriminate Hkind; simpl in Hsubmit;
      unfold review_pdf, repository_pdf, issues_csv in Hsubmit;
      match type of Hsubmit with context [if negb ?c then _ else _] => destruct c end;
      simpl in Hsubmit; try discriminate Hsubmit;
      rewrite <- Hsubmit; eexists; eexists; (split; [| reflexivity]); reflexivity. }
  destruct Hshape as (name & d & Huser & Heq).
  unfold report_started in Heq. injection Heq as -> ->. simpl.
  assert (Hnew : Queue_getJob
                   (Queue_add (reportQueue qs) name (OtherData d) report_job_options)
                   (pretty (next_id (reportQueue qs)))
                 = Some {| job_id := pretty (next_id (reportQueue qs)); job_name := name;
                           data := OtherData d;
                           opts := merge_options (defaultJobOptions (reportQueue qs))
                                     report_job_options;
                           job_state := waiting; progress := 0;
                           returnvalue := None; failedReason := None |}).
  { unfold Queue_getJob in *. simpl. rewrite find_in_app, Hfresh. simpl.
    rewrite String.eqb_refl. reflexivity. }
  split; [reflexivity |]. split; [| split].
  - exists d. split; [| exact Huser].
    unfold Reports.job_status. simpl. rewrite Hnew. reflexivity.
  - unfold Reports.download. simpl. rewrite Hnew. reflexivity.
  - intros jobId Hne. unfold Reports.job_status. simpl.
    rewrite (getJob_after_add _ _ _ _ jobId Hfresh).
    destruct (String.eqb (pretty (next_id (reportQueue qs))) jobId) eqn:Heq;
      [apply String.eqb_eq in Heq; congruence | reflexivity].
Qed.

End QueueingRoutes.

Lemma requested_report_can_be_followed_witness :
  Reports.download
    (snd (Submissions.submit Cases.lenient setupQueues "alice"
            (Submissions.ReviewPdf Sample.repository (JObject []))))
    Sample.disk "1"
  = (Reports.Refused (CustomError "Report not ready yet" 202), Sample.disk).
Proof.
  refine (proj1 (proj2 (proj2
    (requested_report_can_be_followed Cases.lenient setupQueues Sample.disk "alice"
       (Submissions.ReviewPdf Sample.repository (JObject []))
       {| Submissions.started_status := 202;
          Submissions.started_message := "Report generation started";
          Submissions.started_jobId := "1";
          Submissions.statusUrl := Some "/api/reports/jobs/1" |}
       _ eq_refl eq_refl _)))).
  vm_compute. reflexivity.
Defined.

(** X7: the download route changes the disk only by deleting the report it
    has just streamed.  Whatever the job id, every file other than the
    recorded [filePath] of a completed job is left as it was, and nothing at
    all changes unless the report was streamed; a job that is not completed
    is answered with status 202 and an error body, even when its file
    exists. *)
Theorem download_deletes_nothing_else
    (env : ProcessEnv) (qs : Queues) (fs : gmap string string) (jobId : string) :
  (forall path, snd (Reports.download qs fs jobId) !! path <> fs !! path ->
     exists job result res,
       fst (Reports.download qs fs jobId) = Reports.Streamed res
       /\ Queue_getJob (reportQueue qs) jobId = Some job
       /\ job_state job = completed
       /\ returnvalue job = Some result
       /\ filePath result = Some path)
  /\ ((forall res, fst (Reports.download qs fs jobId) <> Reports.Streamed res) ->
      snd (Reports.download qs fs jobId) = fs)
  /\ (forall job, Queue_getJob (reportQueue qs) jobId = Some job ->
        job_state job <> completed ->
        snd (Reports.download qs fs jobId) = fs
        /\ exists message,
             download_answer env (fst (Reports.download qs fs jobId))
             = Some {| status := 202; body := ErrorJson message |}).
Proof.
  unfold Reports.download.
  destruct (Queue_getJob (reportQueue qs) jobId) as [job|] eqn:Hjob; simpl.
  2: { split; [intros path H; exfalso; apply H; reflexivity |].
       split; [reflexivity | intros j Hj; discriminate Hj]. }
  assert (Hkeep : forall out : Reports.Download,
    (forall res, out <> Reports.Streamed res) ->
    (job_state job <> completed ->
     exists message, download_answer env out
                     = Some {| status := 202; body := ErrorJson message |}) ->
    (forall path, fs !! path <> fs !! path ->
       exists job0 result res,
         out = Reports.Streamed res /\ Some job = Some job0 /\ job_state job0 = completed
         /\ returnvalue job0 = Some result /\ filePath result = Some path)
    /\ ((forall res, out <> Reports.Streamed res) -> fs = fs)
    /\ (forall job0, Some job = Some job0 -> job_state job0 <> completed ->
          fs = fs
          /\ exists message, download_answer env out
                             = Some {| status := 202; body := ErrorJson message |})).
  { intros out _ Hready.
    split; [intros path H; exfalso; apply H; reflexivity |].
    split; [reflexivity |].
    intros job0 [= <-] Hne. split; [reflexivity | apply Hready, Hne]. }
  destruct (job_state job) eqn:Hstate; simpl;
    try (apply Hkeep; [discriminate | intros _; eexists; reflexivity]).
  destruct (returnvalue job) as [result|] eqn:Hvalue; simpl;
    [| apply Hkeep; [discriminate | intros Hne; exfalso; apply Hne; reflexivity]].
  destruct (truthy (filePath result)) as [path|] eqn:Hpath; simpl;
    [| apply Hkeep; [discriminate | intros Hne; exfalso; apply Hne; reflexivity]].
  destruct (fs !! path) as [content|] eqn:Hfile; simpl;
    [| apply Hkeep; [discriminate | intros Hne; exfalso; apply Hne; reflexivity]].
  split; [| split].
  - intros path' Hchanged.
    destruct (decide (path' = path)) as [-> | Hother].
    + exists job, result. eexists. repeat split; try reflexivity; try assumption.
      unfold truthy in Hpath. destruct (filePath result) as [v|]; [| discriminate].
      destruct (String.eqb v ""); [discriminate | assumption].
    + rewrite lookup_delete_ne in Hchanged by congruence. congruence.
  - intros Hnot. exfalso. eapply Hnot. reflexivity.
  - intros j [= <-] Hne. congruence.
Qed.

(** ** The authentication middleware *)

Section Authentication.

Import AuthMiddleware.

Variable verify : string -> option User.

Lemma append_empty_r (s : string) : s +:+ "" = s.
Proof.
  induction s as [|c s IH]; [reflexivity |].
  change (String c (s +:+ "") = String c s). f_equal. exact IH.
Qed.

Lemma no_space_cons c s :
  no_space (String c s) = negb (Ascii.eqb c space) && no_space s.
Proof. reflexivity. Qed.

Lemma split_no_space s : no_space s = true -> split space s = [s].
Proof.
  induction s as [|c s IH]; [reflexivity |].
  rewrite no_space_cons. intros H. apply andb_true_iff in H. destruct H as [Hc Hs].
  simpl. apply negb_true_iff in Hc. rewrite Hc, (IH Hs). reflexivity.
Qed.

Lemma split_at_space a b :
  no_space a = true -> split space (a +:+ String space b) = a :: split space b.
Proof.
  induction a as [|c a IH]; [reflexivity |].
  rewrite no_space_cons. intros H. apply andb_true_iff in H. destruct H as [Hc Ha].
  simpl. apply negb_true_iff in Hc. rewrite Hc, (IH Ha). reflexivity.
Qed.

Lemma split_nonempty sep s : split sep s <> [].
Proof.
  induction s as [|c s IH]; simpl; [discriminate |].
  destruct (Ascii.eqb c sep); [discriminate |].
  destruct (split sep s); discriminate.
Qed.

Lemma header_token_second_field scheme token rest :
  no_space scheme = true -> no_space token = true -> token <> "" ->
  header_token (Some (scheme +:+ String space (token +:+ after_token rest))) = Some token.
Proof.
  intros Hscheme Htoken Hne. unfold header_token.
  rewrite (split_at_space _ _ Hscheme).
  assert (Hfirst : exists others, split space (token +:+ after_token rest) = token :: others).
  { destruct rest as [r|]; simpl.
    - rewrite (split_at_space _ _ Htoken). eauto.
    - rewrite append_empty_r, (split_no_space _ Htoken). eauto. }
  destruct Hfirst as [others ->]. simpl.
  destruct (String.eqb token "") eqn:Heq; [apply String.eqb_eq in Heq; contradiction |].
  reflexivity.
Qed.

(** X8: [authenticateToken] takes the second space-separated field of the
    [authorization] header as the token and never looks at the first: for
    any scheme word, a header [scheme token], with or without more text
    after another space, is let through with the claims of the token when
    [jwt.verify] accepts it and answered 403 when it does not; a header
    that is absent or has no space in it is answered 401 without the
    verifier being asked. *)
Theorem authenticateToken_reads_second_field
    (scheme token : string) (rest : option string) (bare : string) :
  no_space scheme = true -> no_space token = true -> token <> "" ->
  no_space bare = true ->
  authenticateToken verify (Some (scheme +:+ String space (token +:+ after_token rest)))
    = match verify token with
      | Some decoded => Returned decoded
      | None => Thrown (CustomError "Invalid or expired token" 403)
      end
  /\ authenticateToken verify (Some bare) = Thrown (CustomError "Access token required" 401)
  /\ authenticateToken verify None = Thrown (CustomError "Access token required" 401).
Proof.
  intros Hscheme Htoken Hne Hbare. unfold authenticateToken.
  rewrite (header_token_second_field _ _ rest Hscheme Htoken Hne).
  split; [reflexivity |]. split; [| reflexivity].
  unfold header_token. rewrite (split_no_space _ Hbare). reflexivity.
Qed.

(** X9: [optionalAuth] never rejects a request, and it sets [req.user]
    exactly when [authenticateToken] would have let the same header
    through, to the same user; whenever it leaves [req.user] unset,
    [authenticateToken] answers 401 or 403. *)
Theorem optionalAuth_agrees_with_authenticateToken (authHeader : option string) :
  (forall u, optionalAuth verify authHeader = Some u
             <-> authenticateToken verify authHeader = Returned u)
  /\ (optionalAuth verify authHeader = None
      <-> authenticateToken verify authHeader
            = Thrown (CustomError "Access token required" 401)
          \/ authenticateToken verify authHeader
             = Thrown (CustomError "Invalid or expired token" 403)).
Proof.
  unfold optionalAuth, authenticateToken.
  destruct (header_token authHeader) as [token|].
  - destruct (verify token) as [u|]; split.
    + intros u'. split; intros [= ->]; reflexivity.
    + split; [discriminate | intros [H | H]; discriminate H].
    + intros u'. split; discriminate.
    + split; [right; reflexivity | reflexivity].
  - split.
    + intros u. split; discriminate.
    + split; [left; reflexivity | reflexivity].
Qed.

(** X10: a route behind [authenticateToken] and [requireRole(roles)] lets a
    request through exactly when its token verifies and the role in the
    token is one of [roles]; a verified token with another role is answered
    403, as a rejected token is, so only a missing token gives 401; and
    [requireRole] on a request that no one authenticated answers 401
    whatever the roles. *)
Theorem requireRole_after_authenticateToken
    (roles : list string) (authHeader : option string) :
  (forall u, guarded verify roles authHeader = Returned u
             <-> authenticateToken verify authHeader = Returned u
                 /\ In (user_role u) roles)
  /\ (forall e, guarded verify roles authHeader = Thrown e ->
        (error_statusCode e = Some 401 <-> header_token authHeader = None)
        /\ (error_statusCode e = Some 403 <-> header_token authHeader <> None))
  /\ requireRole roles None = Thrown (CustomError "Authentication required" 401).
Proof.
  unfold guarded, authenticateToken, requireRole.
  assert (Hin : forall r, existsb (String.eqb r) roles = true <-> In r roles).
  { intros r. rewrite existsb_exists. split.
    - intros (x & Hx & Heq). apply String.eqb_eq in Heq. congruence.
    - intros Hr. exists r. split; [exact Hr | apply String.eqb_refl]. }
  split; [| split; [| reflexivity]].
  - intros u. destruct (header_token authHeader) as [token|]; [| split; [discriminate | intros [H _]; discriminate H]].
    destruct (verify token) as [u'|]; [| split; [discriminate | intros [H _]; discriminate H]].
    destruct (existsb _ roles) eqn:Hrole.
    + split.
      * intros [= ->]. split; [reflexivity | apply Hin, Hrole].
      * intros [[= ->] _]. reflexivity.
    + split; [discriminate |].
      intros [[= ->] Hr]. apply Hin in Hr. congruence.
  - intros e. destruct (header_token authHeader) as [token|].
    + destruct (verify token) as [u'|].
      * destruct (existsb _ roles); [discriminate |].
        intros [= <-]. simpl. split; split; try discriminate; try congruence.
      * intros [= <-]. simpl. split; split; try discriminate; try congruence.
    + intros [= <-]. simpl. split; split; try discriminate; try congruence.
Qed.

End Authentication.

Lemma authenticateToken_reads_second_field_witness :
  AuthMiddleware.authenticateToken Cases.one_token (Some "Basic tok123")
  = Returned Cases.alice.
Proof.
  refine (proj1 (authenticateToken_reads_second_field Cases.one_token
                   "Basic" "tok123" None "tok123" _ _ _ _));
    [reflexivity | reflexivity | discriminate | reflexivity].
Defined.

(** ** The WebSocket handshake and subscriptions *)

Section Sockets.

Import AuthMiddleware SocketEvents.

Lemma prefix_splits (p s : string) :
  String.prefix p s = true -> exists r, s = p +:+ r.
Proof.
  revert s. induction p as [|a p IH]; intros s.
  - intros _. exists s. reflexivity.
  - destruct s as [|b s]; simpl; [discriminate |].
    destruct (ascii_dec a b) as [-> | _]; [| discriminate].
    intros H. destruct (IH s H) as [r ->]. exists r. reflexivity.
Qed.

Lemma remove_first_no_space (s : string) :
  no_space s = true -> remove_first "Bearer " s = s.
Proof.
  induction s as [|c s IH]; [reflexivity |].
  intros Hs.
  assert (Hnot : String.prefix "Bearer " (String c s) = false).
  { destruct (String.prefix "Bearer " (String c s)) eqn:Hp; [| reflexivity].
    apply prefix_splits in Hp. destruct Hp as [r Hr]. rewrite Hr in Hs.
    assert (Hspace : no_space ("Bearer " +:+ r) = false) by reflexivity.
    congruence. }
  rewrite no_space_cons in Hs. apply andb_true_iff in Hs. destruct Hs as [_ Hs].
  change (remove_first "Bearer " (String c s))
    with (if String.prefix "Bearer " (String c s)
          then String.substring (String.length "Bearer ") (String.length (String c s))
                 (String c s)
          else String c (remove_first "Bearer " s)).
  rewrite Hnot, (IH Hs). reflexivity.
Qed.

Lemma substring_whole (s : string) (m : nat) :
  (String.length s <= m)%nat -> String.substring 0 m s = s.
Proof.
  revert m. induction s as [|c s IH]; intros m Hm.
  - destruct m; reflexivity.
  - destruct m as [|m]; simpl in Hm; [lia |].
    simpl. rewrite IH by lia. reflexivity.
Qed.

Lemma remove_first_bearer (t : string) : remove_first "Bearer " ("Bearer " +:+ t) = t.
Proof.
  assert (Hp : String.prefix "Bearer " ("Bearer " +:+ t) = true).
  { destruct t; simpl; repeat (destruct (ascii_dec _ _); [| congruence]); reflexivity. }
  change (remove_first "Bearer " ("Bearer " +:+ t))
    with (if String.prefix "Bearer " ("Bearer " +:+ t)
          then String.substring 0 (String.length ("Bearer " +:+ t)) t
          else String "B" (remove_first "Bearer " ("earer " +:+ t))).
  rewrite Hp. apply substring_whole.
  change (String.length ("Bearer " +:+ t)) with (7 + String.length t)%nat. lia.
Qed.

(** X11: the WebSocket handshake and the HTTP middleware read the same
    [authorization] header differently.  For a token without spaces, both
    admit [Bearer token] with the claims [jwt.verify] gives; but a header
    that is the bare token is used as it is by the handshake and refused
    with 401 by [authenticateToken]; and a non-empty [auth.token] of the
    handshake is used whatever the header says. *)
Theorem handshake_and_http_tokens
    (verify : string -> option User) (token : string) (authorization : option string) :
  no_space token = true -> token <> "" ->
  (forall u, handshake verify None (Some ("Bearer " +:+ token)) = admitted u
             <-> authenticateToken verify (Some ("Bearer " +:+ token)) = Returned u)
  /\ handshake verify None (Some token)
     = match verify token with
       | Some u => admitted u
       | None => refused "Authentication error: Invalid token"
       end
  /\ authenticateToken verify (Some token)
     = Thrown (CustomError "Access token required" 401)
  /\ handshake verify (Some token) authorization = handshake verify None (Some token)
  /\ handshake verify None None = refused "Authentication error: No token provided".
Proof.
  intros Htoken Hne.
  assert (Htruthy : truthy (Some token) = Some token).
  { unfold truthy. destruct (String.eqb token "") eqn:Heq; [| reflexivity].
    apply String.eqb_eq in Heq. contradiction. }
  assert (Hhttp : authenticateToken verify (Some ("Bearer " +:+ token))
                  = match verify token with
                    | Some u => Returned u
                    | None => Thrown (CustomError "Invalid or expired token" 403)
                    end).
  { unfold authenticateToken.
    pose proof (header_token_second_field "Bearer" token None eq_refl Htoken Hne) as H.
    simpl after_token in H. rewrite append_empty_r in H.
    change ("Bearer" +:+ String space token) with ("Bearer " +:+ token) in H.
    rewrite H. reflexivity. }
  assert (Hws : handshake verify None (Some ("Bearer " +:+ token))
                = match verify token with
                  | Some u => admitted u
                  | None => refused "Authentication error: Invalid token"
                  end).
  { unfold handshake, handshake_token. simpl truthy at 1. cbv beta iota.
    unfold option_map. rewrite remove_first_bearer, Htruthy. reflexivity. }
  split; [| split; [| split; [| split]]].
  - intros u. rewrite Hhttp, Hws. destruct (verify token) as [u'|].
    + split; intros [= ->]; reflexivity.
    + split; discriminate.
  - unfold handshake, handshake_token. simpl truthy at 1. cbv beta iota.
    unfold option_map. rewrite (remove_first_no_space _ Htoken), Htruthy. reflexivity.
  - unfold authenticateToken, header_token. rewrite (split_no_space _ Htoken). reflexivity.
  - unfold handshake, handshake_token. rewrite Htruthy. simpl truthy at 1. cbv beta iota.
    unfold option_map. rewrite (remove_first_no_space _ Htoken), Htruthy. reflexivity.
  - reflexivity.
Qed.

Lemma alter_rooms_id (io : WebSocket.Server) (sid : nat)
    (f : WebSocket.AuthenticatedSocket -> WebSocket.AuthenticatedSocket) :
  (forall s, WebSocket.sockets io !! sid = Some s -> f s = s) ->
  {| WebSocket.sockets := alter f sid (WebSocket.sockets io) |} = io.
Proof.
  intros Hf. destruct io as [socks]. simpl in *. f_equal.
  apply map_eq. intros k. destruct (decide (k = sid)) as [-> | Hk].
  - rewrite lookup_alter_eq. destruct (socks !! sid) as [s|] eqn:Hs; simpl; [| reflexivity].
    rewrite (Hf s eq_refl). reflexivity.
  - rewrite lookup_alter_ne by congruence. reflexivity.
Qed.

Lemma socket_eq (s : WebSocket.AuthenticatedSocket) (r : gset string) :
  r = WebSocket.rooms s ->
  {| WebSocket.userId := WebSocket.userId s; WebSocket.userRole := WebSocket.userRole s;
     WebSocket.rooms := r; WebSocket.sent := WebSocket.sent s |} = s.
Proof. intros ->. destruct s; reflexivity. Qed.


(** X12: subscriptions are idempotent and local.  Subscribing twice to a
    repository or pull request leaves the server as subscribing once does,
    and so does unsubscribing twice; unsubscribing from a room the socket
    is not in changes nothing, so that subscribing and then unsubscribing
    restores the state; an event from a socket that is not connected
    changes nothing; and no event changes another socket. *)
Theorem subscriptions_are_idempotent
    (io : WebSocket.Server) (sid : nat) (t : Topic) :
  on_event (on_event io sid (subscribe t)) sid (subscribe t)
    = on_event io sid (subscribe t)
  /\ on_event (on_event io sid (unsubscribe t)) sid (unsubscribe t)
     = on_event io sid (unsubscribe t)
  /\ ((forall s, WebSocket.sockets io !! sid = Some s -> topic_room t ∉ WebSocket.rooms s) ->
      on_event io sid (unsubscribe t) = io
      /\ on_event (on_event io sid (subscribe t)) sid (unsubscribe t) = io)
  /\ (WebSocket.sockets io !! sid = None ->
      forall ev, on_event io sid ev = io)
  /\ (forall ev sid', sid' <> sid ->
        WebSocket.sockets (on_event io sid ev) !! sid' = WebSocket.sockets io !! sid').
Proof.
  assert (Hleave : forall i, on_event i sid (unsubscribe t) = WebSocket.leave i sid (topic_room t))
    by (intros i; destruct t; reflexivity).
  assert (Hjoin' : forall i, on_event i sid (subscribe t) = WebSocket.join i sid (topic_room t))
    by (intros i; destruct t; reflexivity).
  rewrite !Hjoin', !Hleave. clear Hjoin' Hleave.
  set (room := topic_room t).
  split; [| split; [| split; [| split]]].
  - unfold WebSocket.join at 1. rewrite <- (alter_rooms_id (WebSocket.join io sid room) sid
      (fun s => {| WebSocket.userId := WebSocket.userId s;
                   WebSocket.userRole := WebSocket.userRole s;
                   WebSocket.rooms := {[room]} ∪ WebSocket.rooms s;
                   WebSocket.sent := WebSocket.sent s |})) at 2; [reflexivity |].
    intros s Hs. unfold WebSocket.join in Hs. simpl in Hs. rewrite lookup_alter_eq in Hs.
    destruct (WebSocket.sockets io !! sid) as [s0|]; [| discriminate].
    injection Hs as <-. simpl. f_equal. set_solver.
  - unfold WebSocket.leave at 1. rewrite <- (alter_rooms_id (WebSocket.leave io sid room) sid
      (fun s => {| WebSocket.userId := WebSocket.userId s;
                   WebSocket.userRole := WebSocket.userRole s;
                   WebSocket.rooms := WebSocket.rooms s ∖ {[room]};
                   WebSocket.sent := WebSocket.sent s |})) at 2; [reflexivity |].
    intros s Hs. unfold WebSocket.leave in Hs. simpl in Hs. rewrite lookup_alter_eq in Hs.
    destruct (WebSocket.sockets io !! sid) as [s0|]; [| discriminate].
    injection Hs as <-. simpl. f_equal. set_solver.
  - intros Hout.
    assert (Hnoop : WebSocket.leave io sid room = io).
    { apply alter_rooms_id. intros s Hs. apply socket_eq.
      specialize (Hout s Hs). set_solver. }
    split; [exact Hnoop |].
    destruct io as [socks]. unfold WebSocket.leave, WebSocket.join. simpl in *. f_equal.
    apply map_eq. intros k. destruct (decide (k = sid)) as [-> | Hk].
    + rewrite !lookup_alter_eq. destruct (socks !! sid) as [s|] eqn:Hs; simpl; [| reflexivity].
      f_equal. apply socket_eq. simpl. specialize (Hout s eq_refl). set_solver.
    + rewrite !lookup_alter_ne by congruence. reflexivity.
  - intros Hnone ev.
    destruct ev; simpl; apply alter_rooms_id; intros s Hs; congruence.
  - intros ev sid' Hne.
    destruct ev; simpl; apply lookup_alter_ne; congruence.
Qed.

Lemma append_inj_l (p a b : string) : p +:+ a = p +:+ b -> a = b.
Proof.
  induction p as [|c p IH]; [intros H; exact H |].
  change (String c (p +:+ a) = String c (p +:+ b) -> a = b).
  intros H. injection H as H. exact (IH H).
Qed.

Lemma first_char_differs (c d : ascii) (x y : string) :
  c <> d -> String c x <> String d y.
Proof. intros Hcd H. injection H as H _. contradiction. Qed.

Lemma topic_room_is_no_identity_room (t : Topic) :
  topic_room t <> "admin" /\ forall u, topic_room t <> "user:" +:+ u.
Proof.
  destruct t as [repositoryId | prId]; (split; [| intros u]);
    apply first_char_differs; discriminate.
Qed.

Lemma event_is_join_or_leave (io : WebSocket.Server) (sid : nat) (ev : ClientEvent) :
  exists t, on_event io sid ev = WebSocket.join io sid (topic_room t)
            \/ on_event io sid ev = WebSocket.leave io sid (topic_room t).
Proof.
  destruct ev as [r | r | p | p];
    [exists (Repository r); left | exists (Repository r); right
     | exists (PullRequest p); left | exists (PullRequest p); right]; reflexivity.
Qed.

Lemma step_keeps_own_rooms (io : WebSocket.Server) (st : Step) :
  (forall sid s, WebSocket.sockets io !! sid = Some s -> in_own_rooms s) ->
  forall sid s, WebSocket.sockets (step io st) !! sid = Some s -> in_own_rooms s.
Proof.
  intros Hinv sid s Hs. destruct st as [sid0 user | sid0 ev | sid0]; simpl in Hs.
  - destruct (decide (sid = sid0)) as [-> | Hne].
    + rewrite lookup_insert_eq in Hs. injection Hs as <-. unfold in_own_rooms. simpl.
      destruct (String.eqb (user_role user) "admin") eqn:Hrole.
      * apply String.eqb_eq in Hrole. split; [set_solver |]. split.
        -- intros u Hu. apply elem_of_union in Hu. destruct Hu as [Hu | Hu].
           ++ apply elem_of_singleton in Hu. exact (append_inj_l _ _ _ Hu).
           ++ apply elem_of_singleton in Hu. exfalso.
              revert Hu. apply first_char_differs. discriminate.
        -- split; [intros _; exact Hrole | intros _; set_solver].
      * apply String.eqb_neq in Hrole. split; [set_solver |]. split.
        -- intros u Hu. apply elem_of_singleton in Hu. exact (append_inj_l _ _ _ Hu).
        -- split; [| intros H; contradiction].
           intros Hu. apply elem_of_singleton in Hu. exfalso.
           revert Hu. apply first_char_differs. discriminate.
    + rewrite lookup_insert_ne in Hs by congruence. exact (Hinv sid s Hs).
  - destruct (event_is_join_or_leave io sid0 ev) as [t [Hev | Hev]];
      rewrite Hev in Hs; simpl in Hs;
      destruct (topic_room_is_no_identity_room t) as [Hadmin Huser];
      (destruct (decide (sid = sid0)) as [-> | Hne];
       [| rewrite lookup_alter_ne in Hs by congruence; exact (Hinv sid s Hs)]);
      rewrite lookup_alter_eq in Hs;
      destruct (WebSocket.sockets io !! sid0) as [s0|] eqn:Hs0; try discriminate;
      injection Hs as <-; destruct (Hinv sid0 s0 Hs0) as (Hown & Honly & Hadm);
      unfold in_own_rooms; simpl.
    + split; [set_solver |]. split.
      * intros u Hu. apply elem_of_union in Hu. destruct Hu as [Hu | Hu]; [| auto].
        apply elem_of_singleton in Hu. exfalso. exact (Huser u (eq_sym Hu)).
      * rewrite <- Hadm. split; [| set_solver].
        intros Hu. apply elem_of_union in Hu. destruct Hu as [Hu | Hu]; [| exact Hu].
        apply elem_of_singleton in Hu. exfalso. exact (Hadmin (eq_sym Hu)).
    + split; [| split].
      * apply elem_of_difference. split; [exact Hown |].
        intros Hu. apply elem_of_singleton in Hu. exact (Huser _ (eq_sym Hu)).
      * intros u Hu. apply elem_of_difference in Hu. destruct Hu as [Hu _]. auto.
      * rewrite <- Hadm. split; [set_solver |].
        intros Hu. apply elem_of_difference. split; [exact Hu |].
        intros Hsing. apply elem_of_singleton in Hsing. exact (Hadmin (eq_sym Hsing)).
  - apply lookup_delete_Some in Hs. destruct Hs as [_ Hs]. exact (Hinv sid s Hs).
Qed.

Lemma run_keeps_own_rooms (steps : list Step) (io : WebSocket.Server) :
  (forall sid s, WebSocket.sockets io !! sid = Some s -> in_own_rooms s) ->
  forall sid s, WebSocket.sockets (fold_left step steps io) !! sid = Some s ->
                in_own_rooms s.
Proof.
  revert io. induction steps as [|st steps IH]; intros io Hinv; simpl; [exact Hinv |].
  apply IH. apply step_keeps_own_rooms. exact Hinv.
Qed.

(** X13: whatever sockets connect, subscribe, unsubscribe and disconnect,
    every connected socket is in its own user room, in no other user's
    room, and in the admin room exactly when its role is admin; so an event
    for a user is delivered to the sockets authenticated as that user and
    to no other, and an event for the admins to the sockets whose role is
    admin and to no other. *)
Theorem events_reach_their_audience
    (steps : list Step) (u event : string) (payload : json) (sid : nat) :
  (forall s, WebSocket.sockets (run steps) !! sid = Some s -> in_own_rooms s)
  /\ sockets_of (WebSocket.emitToUser (Some (run steps)) u event payload) !! sid
     = (fun s => if decide (WebSocket.userId s = u)
                 then WebSocket.deliver event payload s else s)
         <$> WebSocket.sockets (run steps) !! sid
  /\ sockets_of (WebSocket.emitToAdmins (Some (run steps)) event payload) !! sid
     = (fun s => if decide (WebSocket.userRole s = "admin")
                 then WebSocket.deliver event payload s else s)
         <$> WebSocket.sockets (run steps) !! sid.
Proof.
  assert (Hinv : forall s, WebSocket.sockets (run steps) !! sid = Some s -> in_own_rooms s).
  { intros s. apply (run_keeps_own_rooms steps started).
    intros k s0 H. simpl in H. rewrite lookup_empty in H. discriminate. }
  split; [exact Hinv |].
  unfold WebSocket.emitToUser, WebSocket.emitToAdmins, WebSocket.emit_room,
    WebSocket.to_emit. simpl.
  rewrite !lookup_fmap.
  destruct (WebSocket.sockets (run steps) !! sid) as [s|]; simpl; [| split; reflexivity].
  destruct (Hinv s eq_refl) as (Hown & Honly & Hadm).
  split; f_equal.
  - destruct (decide ("user:" +:+ u ∈ WebSocket.rooms s)) as [Hin | Hout];
      destruct (decide (WebSocket.userId s = u)) as [Hu | Hu]; try reflexivity.
    + exfalso. apply Hu. symmetry. exact (Honly u Hin).
    + exfalso. apply Hout. rewrite <- Hu. exact Hown.
  - destruct (decide ("admin" ∈ WebSocket.rooms s)) as [Hin | Hout];
      destruct (decide (WebSocket.userRole s = "admin")) as [Hr | Hr]; try reflexivity.
    + exfalso. apply Hr, Hadm, Hin.
    + exfalso. apply Hout, Hadm, Hr.
Qed.

End Sockets.

Lemma handshake_and_http_tokens_witness :
  SocketEvents.handshake Cases.one_token None (Some "tok123") = SocketEvents.admitted Cases.alice
  /\ AuthMiddleware.authenticateToken Cases.one_token (Some "tok123")
     = Thrown (CustomError "Access token required" 401).
Proof.
  pose proof (handshake_and_http_tokens Cases.one_token "tok123" None eq_refl
                ltac:(discriminate)) as (_ & Hws & Hhttp & _).
  split; [exact Hws | exact Hhttp].
Defined.

(** ** The other methods of the lint service *)

Section LintRunsProperties.

Import ESLintService LintRuns.

Variable lintFiles : LintEngine.
Variable lintAll :
  ESLintConfig -> bool -> gmap string string -> list string -> completion (list ESLintResult).
Variable construct : ESLintConfig -> option JsError.
Variable writeError : WriteError.
Variable tempDir : string.









Lemma field_sum_app f (a b : list ESLintResult) :
  field_sum f (a ++ b) = field_sum f a + field_sum f b.
Proof. induction a as [|r a IH]; simpl; [reflexivity | rewrite IH; lia]. Qed.

(** X18: reports add up.  The report of two batches of results put
    together has the sum of their summaries, field by field, and their file
    entries one after the other; the report of no results is all zeros
    with no entries. *)
Theorem generateReport_of_batches (a b : list ESLintResult) :
  summary (generateReport (a ++ b))
    = add_summary (summary (generateReport a)) (summary (generateReport b))
  /\ files (generateReport (a ++ b))
     = (files (generateReport a) ++ files (generateReport b))%list
  /\ generateReport []
     = {| summary := {| totalFiles := 0; totalErrors := 0; totalWarnings := 0;
                        totalFixableErrors := 0; totalFixableWarnings := 0 |};
          files := [] |}.
Proof.
  split; [| split; [apply map_app | reflexivity]].
  unfold generateReport, add_summary. simpl.
  rewrite !reduce_sum_field_sum, !field_sum_app, length_app, Nat2Z.inj_add. reflexivity.
Qed.

End LintRunsProperties.

(** [path.join] normalizes: a name can address a directory below the
    temporary one, or a file outside of it. *)
Example path_join_samples :
  map (ESLintService.path_join Sample.tempDir)
      ["a.js"; "./a.js"; "sub/a.js"; "../x"; "../../etc/passwd"; "/abs.js"; "a//b/../c.js";
       ""; "."; "a/"]
  = ["/tmp/code-reviewer-eslint/a.js"; "/tmp/code-reviewer-eslint/a.js";
     "/tmp/code-reviewer-eslint/sub/a.js"; "/tmp/x"; "/etc/passwd";
     "/tmp/code-reviewer-eslint/abs.js"; "/tmp/code-reviewer-eslint/a/c.js";
     "/tmp/code-reviewer-eslint"; "/tmp/code-reviewer-eslint";
     "/tmp/code-reviewer-eslint/a/"]
  /\ map Path.normalize ["a/../.."; "../a/../../b"; "./"; "//"; "/.."; "..//"]
     = [".."; "../../b"; "./"; "/"; "/"; "../"]
  /\ map Path.dirname ["/tmp/x/a.js"; "a.js"; "/a"; "/"; "/tmp/x/a/"; "//a"]
     = ["/tmp/x"; "."; "/"; "/"; "/tmp/x"; "//"].
Proof. vm_compute. repeat split. Qed.

(** The temporary directory exists and nothing else under it: a plain file
    name is written and removed; a name with a directory part cannot be
    written; a name that climbs out of the directory addresses the file it
    names there. *)
Example lint_runs_on_samples :
  let disk : gmap string string := {["/tmp/x" := "kept"]} in
  let dirs := ESLintService.needs_directory ["/tmp"; "/tmp/code-reviewer-eslint"] in
  let twice := [{| LintRuns.content := "let a = 1"; LintRuns.filename := "a.js" |};
                {| LintRuns.content := "let a = 2"; LintRuns.filename := "./a.js" |}] in
  LintRuns.analyzeCode Sample.clean_engine dirs Sample.tempDir disk "let a = 1" "a.js"
    (Some Sample.semi_config)
    = (Returned [Sample.clean_result "/tmp/code-reviewer-eslint/a.js"], disk)
  /\ LintRuns.analyzeCode Sample.clean_engine dirs Sample.tempDir disk "let a = 1"
       "sub/a.js" (Some Sample.semi_config)
     = (Thrown (SystemError "ENOENT" "no such file or directory, open"), disk)
  /\ LintRuns.analyzeCode Sample.clean_engine dirs Sample.tempDir disk "let a = 1"
       "../x" (Some Sample.semi_config)
     = (Returned [Sample.clean_result "/tmp/x"], ∅)
  /\ LintRuns.analyzeCode Cases.failing_engine dirs Sample.tempDir disk "let a = 1"
       "a.js" (Some Sample.semi_config)
     = (Thrown (PlainError "Failed to load parser"),
        <["/tmp/code-reviewer-eslint/a.js" := "let a = 1"]> disk)
  /\ LintRuns.analyzeMultipleFiles Cases.clean_engine_all dirs Sample.tempDir disk twice
       (Some Sample.semi_config)
     = (Returned [Sample.clean_result "/tmp/code-reviewer-eslint/a.js";
                  Sample.clean_result "/tmp/code-reviewer-eslint/a.js"], disk)
  /\ LintRuns.validateConfig Cases.failing_engine Cases.accepts_all dirs Sample.tempDir
       disk Sample.semi_config
     = ({| LintRuns.valid := false; LintRuns.errors := ["Failed to load parser"] |}, disk)
  /\ ESLintService.fixCode Cases.ignoring_engine dirs Sample.tempDir disk "let a = 1"
       "a.js" (Some Sample.semi_config)
     = (Thrown (TypeError "Cannot read properties of undefined"), disk).
Proof. vm_compute. repeat split. Qed.

(** ** The paginated list of reviews *)

Section Pagination.

Import Listing.

Lemma digits_prefix_all (digits : list ascii) (seen : option Z) :
  forallb is_digit digits = true ->
  digits_prefix 10 digit_value seen digits
  = match digits with
    | [] => seen
    | _ :: _ => Some (fold_left (fun acc c => 10 * acc + (code c - 48)) digits
                        (default 0 seen))
    end.
Proof.
  revert seen. induction digits as [|c digits IH]; intros seen Hall; [reflexivity |].
  simpl in Hall. apply andb_true_iff in Hall. destruct Hall as [Hc Hrest].
  simpl. unfold is_digit in Hc. unfold digit_value in *.
  destruct ((48 <=? code c) && (code c <=? 57)); [| discriminate].
  rewrite (IH _ Hrest). destruct digits; reflexivity.
Qed.

Lemma digit_is_no_sign_or_space (c : ascii) :
  is_digit c = true ->
  is_white c = false /\ (code c =? 45) = false /\ (code c =? 43) = false
  /\ (code c =? 120) = false /\ (code c =? 88) = false.
Proof.
  unfold is_digit, digit_value, is_white. intros H.
  destruct ((48 <=? code c) && (code c <=? 57)) eqn:Hd; [| discriminate].
  apply andb_true_iff in Hd. destruct Hd as [Hlo Hhi].
  apply Z.leb_le in Hlo, Hhi.
  repeat split; try (apply Z.eqb_neq; lia).
  apply orb_false_iff. split; [| apply Z.eqb_neq; lia].
  apply andb_false_iff. right. apply Z.leb_gt. lia.
Qed.

Lemma magnitude_of_digits (digits : list ascii) :
  digits <> [] -> forallb is_digit digits = true ->
  magnitude digits = Some (decimal_value digits).
Proof.
  intros Hne Hall.
  assert (Hdec : digits_prefix 10 digit_value None digits = Some (decimal_value digits)).
  { rewrite (digits_prefix_all _ _ Hall). destruct digits; [contradiction | reflexivity]. }
  destruct digits as [|zero [|x rest]]; try exact Hdec.
  unfold magnitude.
  assert (Hx : is_digit x = true).
  { simpl in Hall. apply andb_true_iff in Hall. destruct Hall as [_ Hall].
    apply andb_true_iff in Hall. destruct Hall as [Hx _]. exact Hx. }
  destruct (digit_is_no_sign_or_space x Hx) as (_ & _ & _ & H120 & H88).
  rewrite H120, H88, andb_false_r. exact Hdec.
Qed.

(** [parseInt] reads, from a string of validated shape, the integer that
    the validator has compared. *)
Lemma parsed_integer_of_validated (s : string) (sign : Z) (digits : list ascii) :
  sign_and_digits s = Some (sign, digits) ->
  parsed_integer s = Some (sign * decimal_value digits).
Proof.
  unfold sign_and_digits, parsed_integer.
  destruct (list_ascii_of_string s) as [|c rest]; [discriminate |].
  destruct (code c =? 45) eqn:Hminus.
  - destruct rest as [|d rest]; [discriminate |].
    destruct (forallb is_digit (d :: rest)) eqn:Hall; [| discriminate].
    intros [= <- <-].
    assert (Hc : is_white c = false).
    { unfold is_white. apply Z.eqb_eq in Hminus. rewrite Hminus. reflexivity. }
    simpl skip_white. rewrite Hc, Hminus.
    rewrite (magnitude_of_digits (d :: rest)) by (try discriminate; exact Hall).
    simpl. f_equal; lia.
  - destruct (code c =? 43) eqn:Hplus.
    + destruct rest as [|d rest]; [discriminate |].
      destruct (forallb is_digit (d :: rest)) eqn:Hall; [| discriminate].
      intros [= <- <-].
      assert (Hc : is_white c = false).
      { unfold is_white. apply Z.eqb_eq in Hplus. rewrite Hplus. reflexivity. }
      simpl skip_white. rewrite Hc, Hminus, Hplus.
      rewrite (magnitude_of_digits (d :: rest)) by (try discriminate; exact Hall).
      f_equal; lia.
    + destruct (forallb is_digit (c :: rest)) eqn:Hall; [| discriminate].
      intros [= <- <-].
      assert (Hdigit : is_digit c = true)
        by (simpl in Hall; apply andb_true_iff in Hall; tauto).
      destruct (digit_is_no_sign_or_space c Hdigit) as (Hc & _).
      simpl skip_white. rewrite Hc, Hminus, Hplus.
      rewrite (magnitude_of_digits (c :: rest)) by (try discriminate; exact Hall).
      f_equal; lia.
Qed.

Lemma parseInt_of_validated (s : string) (sign : Z) (digits : list ascii) :
  sign_and_digits s = Some (sign, digits) ->
  parseInt s = to_number s
  /\ parseInt s = Number.of_integer (sign * decimal_value digits).
Proof.
  intros Hshape. unfold parseInt, to_number.
  rewrite (parsed_integer_of_validated _ _ _ Hshape), Hshape. split; reflexivity.
Qed.

(** An integer of at most 53 bits is a double. *)
Lemma of_integer_exact (n : Z) : Z.abs n < 2 ^ 53 -> Number.of_integer n = Num n.
Proof.
  intros Hsmall. unfold Number.of_integer, Number.nearest.
  assert (Hwidth : (Z.log2 (Z.abs n) + 1 <=? 53) = true).
  { apply Z.leb_le. destruct (Z.eq_dec (Z.abs n) 0) as [-> | Hnz]; [simpl; lia |].
    assert (Hlog : Z.log2 (Z.abs n) < 53) by (apply Z.log2_lt_pow2; lia).
    lia. }
  rewrite Hwidth.
  assert (Hfinite : (Z.abs n <? 2 ^ 1024) = true).
  { apply Z.ltb_lt. eapply Z.lt_trans; [exact Hsmall |].
    apply Z.pow_lt_mono_r; lia. }
  rewrite Hfinite. reflexivity.
Qed.

(** A negative integer is no Number from 1 on. *)
Lemma of_integer_negative (n : Z) :
  n < 0 -> Number.leb (Num 1) (Number.of_integer n) = false.
Proof.
  intros Hneg. unfold Number.of_integer.
  assert (Hnearest : Number.nearest n <= 0).
  { unfold Number.nearest. destruct (Z.log2 (Z.abs n) + 1 <=? 53); [lia |].
    set (dropped := Z.log2 (Z.abs n) + 1 - 53).
    set (kept := Z.shiftr (Z.abs n) dropped).
    assert (Hkept : 0 <= kept) by (apply Z.shiftr_nonneg; lia).
    match goal with
    | |- Z.sgn n * Z.shiftl ?rounded dropped <= 0 =>
        assert (Hrounded : 0 <= Z.shiftl rounded dropped)
          by (apply Z.shiftl_nonneg; destruct (_ || _); lia)
    end.
    rewrite Z.sgn_neg by exact Hneg. lia. }
  destruct (Z.abs (Number.nearest n) <? 2 ^ 1024); simpl.
  - apply Z.leb_gt. lia.
  - apply Z.ltb_lt in Hneg. rewrite Hneg. reflexivity.
Qed.

(** What passing [isInt] says of the Number [parseInt] reads. *)
Lemma isInt_bounds (lo hi : option Z) (s : string) :
  isInt lo hi s = true ->
  exists sign digits,
    sign_and_digits s = Some (sign, digits)
    /\ parseInt s = Number.of_integer (sign * decimal_value digits)
    /\ (forall l, lo = Some l -> Number.leb (Num l) (parseInt s) = true)
    /\ (forall h, hi = Some h -> Number.leb (parseInt s) (Num h) = true).
Proof.
  unfold isInt. destruct (sign_and_digits s) as [[sign digits]|] eqn:Hshape; [| discriminate].
  destruct (parseInt_of_validated _ _ _ Hshape) as [Hsame Hvalue].
  intros H. apply andb_true_iff in H. destruct H as [Hlo Hhi].
  exists sign, digits. split; [reflexivity |]. split; [exact Hvalue |]. split.
  - intros l ->. rewrite Hsame. exact Hlo.
  - intros h ->. rewrite Hsame. exact Hhi.
Qed.

(** X19: whenever the list of reviews is answered, and not refused with
    400, the [limit] of its pagination is an integer from 1 to 100, 20 when
    the query gives none, and the [page] is a number not below 1, or
    positive infinity, which [res.json] sends as [null]; it is 1 when the
    query gives none.  The Number [parseInt] reads is the one the validator
    has compared: the double nearest to the integer the digits denote, and
    that integer itself below 2^53.  [total] and [pages] are 0. *)
Theorem list_reviews_pagination_is_bounded (q : ReviewsQuery) (answer : Pagination) :
  list_reviews q = Returned answer ->
  (exists l, limit answer = Num l /\ 1 <= l <= 100 /\ (query_limit q = None -> l = 20))
  /\ ((exists p, page answer = Num p /\ 1 <= p) \/ page answer = Infinity false)
  /\ (query_page q = None -> page answer = Num 1)
  /\ (forall s, query_page q = Some s ->
        exists sign digits,
          sign_and_digits s = Some (sign, digits)
          /\ page answer = Number.of_integer (sign * decimal_value digits)
          /\ (sign * decimal_value digits < 2 ^ 53 ->
              page answer = Num (sign * decimal_value digits)))
  /\ total answer = 0 /\ pages answer = 0.
Proof.
  unfold list_reviews.
  destruct (if_present (isInt (Some 1) None) (query_page q)) eqn:Hpage; [| discriminate].
  destruct (if_present (isInt (Some 1) (Some 100)) (query_limit q)) eqn:Hlimit;
    [| discriminate].
  rewrite <- andb_assoc.
  destruct (Reviews.isIn _ (query_status q) && if_present isUUID (query_repositoryId q));
    [| discriminate].
  simpl. intros [= <-]. simpl.
  assert (Hat_least : forall x, Number.leb (Num 1) x = true ->
            (exists p, x = Num p /\ 1 <= p) \/ x = Infinity false).
  { intros [v | [|] |] Hx; simpl in Hx; try discriminate.
    - left. exists v. split; [reflexivity | apply Z.leb_le, Hx].
    - right. reflexivity. }
  split; [| split; [| split; [| split; [| split; reflexivity]]]].
  - destruct (query_limit q) as [s|]; simpl in *.
    + destruct (isInt_bounds _ _ _ Hlimit) as (sign & digits & _ & _ & Hlo & Hhi).
      specialize (Hlo 1 eq_refl). specialize (Hhi 100 eq_refl).
      destruct (Hat_least _ Hlo) as [(l & Hl & Hl1) | Hinf].
      * rewrite Hl in Hhi. simpl in Hhi. apply Z.leb_le in Hhi.
        exists l. split; [exact Hl |]. split; [lia | discriminate].
      * rewrite Hinf in Hhi. discriminate Hhi.
    + exists 20. repeat split; lia.
  - destruct (query_page q) as [s|]; simpl in *.
    + destruct (isInt_bounds _ _ _ Hpage) as (sign & digits & _ & _ & Hlo & _).
      apply Hat_least, Hlo. reflexivity.
    + left. exists 1. split; [reflexivity | lia].
  - intros ->. reflexivity.
  - intros s Hs. rewrite Hs in *. simpl in *.
    destruct (isInt_bounds _ _ _ Hpage) as (sign & digits & Hshape & Hvalue & Hlo & _).
    exists sign, digits. split; [exact Hshape |]. split; [exact Hvalue |].
    intros Hsmall. rewrite Hvalue. apply of_integer_exact.
    specialize (Hlo 1 eq_refl). rewrite Hvalue in Hlo.
    assert (Hpos : 0 <= sign * decimal_value digits).
    { destruct (Z.lt_ge_cases (sign * decimal_value digits) 0) as [Hneg | Hge]; [| exact Hge].
      exfalso. rewrite (of_integer_negative _ Hneg) in Hlo. discriminate Hlo. }
    lia.
Qed.

Lemma list_reviews_pagination_is_bounded_witness :
  (exists l, Num 50 = Num l /\ 1 <= l <= 100 /\ (Some "50" = None -> l = 20))
  /\ ((exists p, Num 3 = Num p /\ 1 <= p) \/ Num 3 = Infinity false).
Proof.
  pose proof (list_reviews_pagination_is_bounded
                {| query_page := Some "+003"; query_limit := Some "50";
                   query_status := None; query_repositoryId := None |}
                {| page := Num 3; limit := Num 50; total := 0; pages := 0 |}
                eq_refl) as (Hlimit & Hpage & _).
  split; [exact Hlimit | exact Hpage].
Defined.

(** What [parseInt] reads: the longest prefix of digits after the white
    space and the sign; beyond 2^53 the nearest double, and an infinity
    beyond the largest one, where the integer has more than 308 digits. *)
Example parseInt_samples :
  map parseInt ["42"; "  -7"; "0x1f"; "12abc"; "abc"; ""; "+"; "007"; "0x";
                "9007199254740993"; "9007199254740995"]
  = [Num 42; Num (-7); Num 31; Num 12; NaN; NaN; NaN; Num 7; NaN;
     Num 9007199254740992; Num 9007199254740996]
  /\ parseInt (String.concat "" (repeat "9" 400)) = Infinity false.
Proof. vm_compute. split; reflexivity. Qed.

Example list_reviews_refuses :
  let asks (page limit : option string) :=
    list_reviews {| query_page := page; query_limit := limit;
                    query_status := None; query_repositoryId := None |} in
  asks (Some "0") None = Thrown (CustomError "Invalid query parameters" 400)
  /\ asks None (Some "101") = Thrown (CustomError "Invalid query parameters" 400)
  /\ asks (Some "1.5") None = Thrown (CustomError "Invalid query parameters" 400)
  /\ asks (Some "9007199254740993") None
     = Returned {| page := Num 9007199254740992; limit := Num 20; total := 0; pages := 0 |}
  /\ asks (Some (String.concat "" (repeat "9" 400))) None
     = Returned {| page := Infinity false; limit := Num 20; total := 0; pages := 0 |}.
Proof. vm_compute. repeat split. Qed.

End Pagination.
